(** * Credential resolution of the legacy Databricks CLI provider

    A shallow embedding of
    [mlflow/legacy_databricks_cli/configure/provider.py]: the credential
    record [DatabricksConfig], the profile file handled through Python's
    [configparser.ConfigParser], the three default providers, the
    process-wide override slot and the resolver [get_config].

    Python values are modelled as follows.
    - [str] is [string]; a character is a code point below 256.
    - "[None] or a [str]" is [option string]; its truth value is
      [truthy].
    - A [dict] is an association list in insertion order ([dict_set]
      keeps the position of a key that is already present).
    - A raised exception is [Raise e]; functions that read or write the
      process state (environment, file system, override slot) live in the
      monad [M]. *)

From Stdlib Require Import ZArith Lia List String Ascii Bool.
From stdpp Require Import gmap strings.
Import ListNotations.
Local Open Scope string_scope.

(** ** Python preliminaries *)

Module Py.

(** Exceptions that the module and the library calls it makes can raise. *)
Inductive PyError : Type :=
| InvalidConfigurationError (msg : string)
| Exception (msg : string)
| AttributeError (msg : string)
| ValueError (msg : string)
| NoSectionError (section : string)
| NoOptionError (option section : string)
| DuplicateSectionError (section : string)
| DuplicateOptionError (section option : string)
| MissingSectionHeaderError (lineno : nat) (line : string)
| ParsingError (bad_lines : list (nat * string))
| InterpolationSyntaxError (option section : string)
| InterpolationMissingOptionError (option section reference : string)
| InterpolationDepthError (option section : string)
| FileNotFoundError (path : string)
| IsADirectoryError (path : string)
| NotADirectoryError (path : string)
| PermissionError (path : string).

Inductive PyResult (A : Type) : Type :=
| Ok (a : A)
| Raise (e : PyError).
Arguments Ok {A} a.
Arguments Raise {A} e.

Definition bind {A B} (r : PyResult A) (k : A -> PyResult B) : PyResult B :=
  match r with
  | Ok a => k a
  | Raise e => Raise e
  end.

Definition raises {A} (r : PyResult A) : Prop := exists e, r = Raise e.

(** [bool(v)] for a value that is [None] or a [str]. *)
Definition truthy (v : option string) : bool :=
  match v with
  | Some s => negb (s =? "")
  | None => false
  end.

(** [value is not None] *)
Definition is_not_None {A} (v : option A) : bool :=
  match v with Some _ => true | None => false end.

End Py.
Export Py.

Declare Scope py_scope.
Delimit Scope py_scope with py.
Notation "'let*' x ':=' r 'in' k" := (Py.bind r (fun x => k))
  (at level 10, x name, r at level 100, k at level 200) : py_scope.

(** ** Insertion-ordered dictionaries with string keys *)

Module Dict.
Section Dict.
Context {V : Type}.
Definition t := list (string * V).

Fixpoint get (k : string) (d : list (string * V)) : option V :=
  match d with
  | [] => None
  | (k', v) :: d' => if k' =? k then Some v else get k d'
  end.

Definition has (k : string) (d : list (string * V)) : bool :=
  match get k d with Some _ => true | None => false end.

(** [d[k] = v]: in place when [k] is present, appended otherwise. *)
Fixpoint set (k : string) (v : V) (d : list (string * V)) : list (string * V) :=
  match d with
  | [] => [(k, v)]
  | (k', v') :: d' => if k' =? k then (k', v) :: d' else (k', v') :: set k v d'
  end.

(** [del d[k]] for a present key; the identity otherwise. *)
Fixpoint del (k : string) (d : list (string * V)) : list (string * V) :=
  match d with
  | [] => []
  | (k', v') :: d' => if k' =? k then del k d' else (k', v') :: del k d'
  end.

Definition keys (d : list (string * V)) : list string := map fst d.
End Dict.
Arguments t V : clear implicits.
End Dict.

(** ** Python string methods used by the parser and the writer *)

Module Str.

Definition LF : ascii := "010"%char.
Definition CR : ascii := "013"%char.
Definition TAB : ascii := "009"%char.

(** [c.isspace()] for code points below 256 (the table used by
    [str.strip] and by the regular expression class [\s]). *)
Definition isspace (c : ascii) : bool :=
  let n := nat_of_ascii c in
  (((9 <=? n) && (n <=? 13)) || ((28 <=? n) && (n <=? 32))
   || (n =? 133) || (n =? 160))%nat.

Fixpoint lstrip (s : string) : string :=
  match s with
  | String c r => if isspace c then lstrip r else s
  | EmptyString => EmptyString
  end.

Fixpoint rstrip (s : string) : string :=
  match s with
  | String c r =>
      match rstrip r with
      | EmptyString => if isspace c then EmptyString else String c EmptyString
      | r' => String c r'
      end
  | EmptyString => EmptyString
  end.

Definition strip (s : string) : string := rstrip (lstrip s).

(** [c.lower()] for code points below 256. *)
Definition lower_char (c : ascii) : ascii :=
  let n := nat_of_ascii c in
  if (((65 <=? n) && (n <=? 90))
      || ((192 <=? n) && (n <=? 222) && negb (n =? 215)))%nat
  then ascii_of_nat (n + 32) else c.

Fixpoint lower (s : string) : string :=
  match s with
  | String c r => String (lower_char c) (lower r)
  | EmptyString => EmptyString
  end.

(** [c in s] for a single character. *)
Fixpoint contains (c : ascii) (s : string) : bool :=
  match s with
  | String c' r => if Ascii.eqb c' c then true else contains c r
  | EmptyString => false
  end.

(** Number of leading white-space characters: the start of the first
    match of [\S]. *)
Fixpoint indent (s : string) : nat :=
  match s with
  | String c r => if isspace c then S (indent r) else 0
  | EmptyString => 0
  end.

(** [s.replace("\n", "\n\t")] *)
Fixpoint replace_lf (s : string) : string :=
  match s with
  | String c r =>
      if Ascii.eqb c LF then String LF (String TAB (replace_lf r))
      else String c (replace_lf r)
  | EmptyString => EmptyString
  end.

(** ["\n".join(l)] *)
Fixpoint join_lf (l : list string) : string :=
  match l with
  | [] => ""
  | [x] => x
  | x :: l' => x ++ String LF (join_lf l')
  end.

(** Universal newlines on reading: ["\r\n"] and ["\r"] become ["\n"]. *)
Fixpoint universal_newlines (s : string) : string :=
  match s with
  | String c r =>
      if Ascii.eqb c CR then
        match r with
        | String c' r' =>
            if Ascii.eqb c' LF then String LF (universal_newlines r')
            else String LF (universal_newlines r)
        | EmptyString => String LF EmptyString
        end
      else String c (universal_newlines r)
  | EmptyString => EmptyString
  end.

(** The lines that iterating over a text file yields, without their
    terminating ["\n"]; a text that ends in ["\n"] has no further empty
    line. *)
Fixpoint lines (s : string) : list string :=
  match s with
  | String c r =>
      if Ascii.eqb c LF then "" :: lines r
      else match lines r with
           | l :: ls => String c l :: ls
           | [] => [String c ""]
           end
  | EmptyString => []
  end.

End Str.

(** ** [configparser.ConfigParser] with its default settings

    The parser object as [provider.py] uses it: delimiters [=] and [:],
    comment prefixes [#] and [;], no inline comments, strict duplicate
    checks, empty lines allowed in values, values always strings,
    [BasicInterpolation] and the lower-casing [optionxform]. *)

Module ConfigParser.

Definition default_section : string := "DEFAULT".
Definition MAX_INTERPOLATION_DEPTH : nat := 10.

(** The two dictionaries of a parser: the named sections and the
    options of the default section. *)
Record t : Type := mk {
  _sections : Dict.t (Dict.t string);
  _defaults : Dict.t string
}.

(** [ConfigParser()] *)
Definition new : t := mk [] [].

Definition optionxform (option : string) : string := Str.lower option.

Definition has_section (self : t) (section : string) : bool :=
  Dict.has section (_sections self).

Definition add_section (self : t) (section : string) : PyResult t :=
  if section =? default_section then Raise (ValueError "Invalid section name")
  else if Dict.has section (_sections self) then Raise (DuplicateSectionError section)
  else Ok (mk (Dict.set section [] (_sections self)) (_defaults self)).

Definition has_option (self : t) (section option : string) : bool :=
  if (section =? "") || (section =? default_section) then
    Dict.has (optionxform option) (_defaults self)
  else
    match Dict.get section (_sections self) with
    | None => false
    | Some d =>
        Dict.has (optionxform option) d
        || Dict.has (optionxform option) (_defaults self)
    end.

(** The section's own options, consulted before the defaults
    ([_unify_values] without [vars]). *)
Definition _unify_values (self : t) (section : string) : PyResult (Dict.t string) :=
  match Dict.get section (_sections self) with
  | Some d => Ok d
  | None =>
      if section =? default_section then Ok []
      else Raise (NoSectionError section)
  end.

Definition chain_get (self : t) (sectiondict : Dict.t string) (k : string)
  : option string :=
  match Dict.get k sectiondict with
  | Some v => Some v
  | None => Dict.get k (_defaults self)
  end.

(** *** Basic interpolation *)

(** The leading [name] of [name ++ ")" ++ rest], for a non-empty name. *)
Fixpoint until_rparen (s : string) : option (string * string) :=
  match s with
  | String c r =>
      if Ascii.eqb c ")"%char then Some ("", r)
      else match until_rparen r with
           | Some (name, rest) => Some (String c name, rest)
           | None => None
           end
  | EmptyString => None
  end.

(** [_KEYCRE.match(s)] for the pattern [%\(([^)]+)\)s]: the referenced
    name and what follows the match. *)
Definition keycre_match (s : string) : option (string * string) :=
  match s with
  | String "%"%char (String "("%char r) =>
      match until_rparen r with
      | Some (String c name, String "s"%char rest) => Some (String c name, rest)
      | _ => None
      end
  | _ => None
  end.

(** [value.replace("%%", "")] *)
Fixpoint drop_escaped_percent (s : string) : string :=
  match s with
  | String c r =>
      match r with
      | String c' r' =>
          if Ascii.eqb c "%"%char && Ascii.eqb c' "%"%char
          then drop_escaped_percent r'
          else String c (drop_escaped_percent r)
      | EmptyString => s
      end
  | EmptyString => EmptyString
  end.

(** [_KEYCRE.sub("", s)] *)
Fixpoint keycre_sub (fuel : nat) (s : string) : string :=
  match s, fuel with
  | EmptyString, _ => EmptyString
  | _, O => s
  | String c r, S fuel' =>
      match keycre_match s with
      | Some (_, rest) => keycre_sub fuel' rest
      | None => String c (keycre_sub fuel' r)
      end
  end.

(** [BasicInterpolation.before_set]: the value is stored unchanged when
    every [%] in it is part of [%%] or of a reference [%(name)s]. *)
Definition before_set (value : string) : PyResult string :=
  let tmp_value := drop_escaped_percent value in
  let tmp_value := keycre_sub (String.length tmp_value) tmp_value in
  if Str.contains "%"%char tmp_value
  then Raise (ValueError "invalid interpolation syntax")
  else Ok value.

Section Interpolate.
Variable self : t.
Variable sectiondict : Dict.t string.
Variables option section : string.

(** The [while rest:] loop of [_interpolate_some]; [deeper] is the
    recursive call at [depth + 1]. *)
Fixpoint interpolate_loop (deeper : string -> PyResult string)
    (fuel : nat) (rest : string) : PyResult string :=
  match rest, fuel with
  | EmptyString, _ => Ok ""
  | _, O => Ok ""
  | String c r, S fuel' =>
      if negb (Ascii.eqb c "%"%char) then
        (let* tail := interpolate_loop deeper fuel' r in
         Ok (String c tail))%py
      else
        match r with
        | String "%"%char r' =>
            (let* tail := interpolate_loop deeper fuel' r' in
             Ok (String "%"%char tail))%py
        | String "("%char _ =>
            match keycre_match rest with
            | None => Raise (InterpolationSyntaxError option section)
            | Some (name, rest') =>
                let var := optionxform name in
                match chain_get self sectiondict var with
                | None =>
                    Raise (InterpolationMissingOptionError option section var)
                | Some v =>
                    (let* head := (if Str.contains "%"%char v then deeper v
                                   else Ok v) in
                     let* tail := interpolate_loop deeper fuel' rest' in
                     Ok (head ++ tail))%py
                end
            end
        | _ => Raise (InterpolationSyntaxError option section)
        end
  end.

(** [_interpolate_some] with [depth_left = MAX_INTERPOLATION_DEPTH + 1
    - depth]. *)
Fixpoint _interpolate_some (depth_left : nat) (rest : string)
  : PyResult string :=
  match depth_left with
  | O => Raise (InterpolationDepthError option section)
  | S d =>
      interpolate_loop (_interpolate_some d) (String.length rest) rest
  end.

Definition before_get (value : string) : PyResult string :=
  _interpolate_some MAX_INTERPOLATION_DEPTH value.
End Interpolate.

(** [self.get(section, option)] *)
Definition get (self : t) (section option : string) : PyResult string :=
  (let* d := _unify_values self section in
   let option := optionxform option in
   match chain_get self d option with
   | None => Raise (NoOptionError option section)
   | Some value => before_get self d option section value
   end)%py.

(** [self.set(section, option, value)] for a string [value] *)
Definition set (self : t) (section option value : string) : PyResult t :=
  (let* value := (if value =? "" then Ok value else before_set value) in
   if (section =? "") || (section =? default_section) then
     Ok (mk (_sections self) (Dict.set (optionxform option) value (_defaults self)))
   else
     match Dict.get section (_sections self) with
     | None => Raise (NoSectionError section)
     | Some sectdict =>
         Ok (mk (Dict.set section
                   (Dict.set (optionxform option) value sectdict)
                   (_sections self))
                (_defaults self))
     end)%py.

(** [self.remove_option(section, option)]; the boolean it returns is
    dropped by the caller. *)
Definition remove_option (self : t) (section option : string) : PyResult t :=
  if (section =? "") || (section =? default_section) then
    Ok (mk (_sections self) (Dict.del (optionxform option) (_defaults self)))
  else
    match Dict.get section (_sections self) with
    | None => Raise (NoSectionError section)
    | Some sectdict =>
        Ok (mk (Dict.set section
                  (Dict.del (optionxform option) sectdict)
                  (_sections self))
               (_defaults self))
    end.

(** *** Writing *)

Definition write_item (kv : string * string) : string :=
  fst kv ++ " = " ++ Str.replace_lf (snd kv) ++ String Str.LF "".

Definition _write_section (section_name : string) (items : Dict.t string)
  : string :=
  "[" ++ section_name ++ "]" ++ String Str.LF ""
  ++ String.concat "" (map write_item items)
  ++ String Str.LF "".

(** [self.write(fp)]: the text that reaches the file. *)
Definition write (self : t) : string :=
  (match _defaults self with
   | [] => ""
   | items => _write_section default_section items
   end)
  ++ String.concat ""
       (map (fun s => _write_section (fst s) (snd s)) (_sections self)).

(** *** Reading *)

(** [SECTCRE.match(value)] for the pattern [\[(?P<header>.+)\]]: the text
    between the opening bracket and the last closing bracket. *)
Fixpoint before_last_rbracket (s : string) : option string :=
  match s with
  | String c r =>
      match before_last_rbracket r with
      | Some h => Some (String c h)
      | None => if Ascii.eqb c "]"%char then Some "" else None
      end
  | EmptyString => None
  end.

Definition sectcre_match (value : string) : option string :=
  match value with
  | String "["%char r =>
      match before_last_rbracket r with
      | Some (String c h) => Some (String c h)
      | _ => None
      end
  | _ => None
  end.

Definition is_delimiter (c : ascii) : bool :=
  Ascii.eqb c "="%char || Ascii.eqb c ":"%char.

(** The text before and after the first delimiter. *)
Fixpoint split_delimiter (s : string) : option (string * string) :=
  match s with
  | String c r =>
      if is_delimiter c then Some ("", r)
      else match split_delimiter r with
           | Some (a, b) => Some (String c a, b)
           | None => None
           end
  | EmptyString => None
  end.

(** [_optcre.match(value)]: the groups [option] and [value] of the option
    pattern. [option] is the shortest prefix that white space and a
    delimiter follow; [value] starts after the white space that follows
    this delimiter. *)
Definition optcre_match (value : string) : option (string * string) :=
  match split_delimiter value with
  | Some (a, b) => Some (Str.rstrip a, Str.lstrip b)
  | None => None
  end.

Definition is_comment (line : string) : bool :=
  match Str.strip line with
  | String c _ => Ascii.eqb c "#"%char || Ascii.eqb c ";"%char
  | EmptyString => false
  end.

(** The local variables of [_read]. While a file is read an option's
    value is the list of its lines. [sectname = None] is [cursect is
    None]; [cursect] is the dictionary of [sectname] otherwise. *)
Record ReadState : Type := mkRead {
  r_sections : Dict.t (Dict.t (list string));
  r_defaults : Dict.t (list string);
  sectname : option string;
  optname : option string;
  indent_level : nat;
  elements_added : list (string + string * string);
  e : list (nat * string)
}.

Definition read_start : ReadState := mkRead [] [] None None 0 [] [].

Definition element_eqb (x y : string + string * string) : bool :=
  match x, y with
  | inl a, inl b => a =? b
  | inr (a, o), inr (b, o') => (a =? b) && (o =? o')
  | _, _ => false
  end.

Definition added (x : string + string * string) (st : ReadState) : bool :=
  existsb (element_eqb x) (elements_added st).

(** [cursect] *)
Definition cursect (sn : string) (st : ReadState) : Dict.t (list string) :=
  if sn =? default_section then r_defaults st
  else match Dict.get sn (r_sections st) with
       | Some d => d
       | None => []
       end.

Definition set_cursect (sn : string) (d : Dict.t (list string))
    (st : ReadState) : ReadState :=
  if sn =? default_section then
    mkRead (r_sections st) d (sectname st) (optname st)
           (indent_level st) (elements_added st) (e st)
  else
    mkRead (Dict.set sn d (r_sections st)) (r_defaults st) (sectname st)
           (optname st) (indent_level st) (elements_added st) (e st).

(** [cursect[optname].append(value)] *)
Definition append_value (sn on value : string) (st : ReadState) : ReadState :=
  match Dict.get on (cursect sn st) with
  | Some l => set_cursect sn (Dict.set on (l ++ [value])%list (cursect sn st)) st
  | None => st
  end.

(** The option name when it is set and not empty. *)
Definition current_option (st : ReadState) : option (string * string) :=
  match sectname st, optname st with
  | Some sn, Some (String c on) => Some (sn, String c on)
  | _, _ => None
  end.

(** A line indented deeper than the option it follows continues the
    value of this option. *)
Definition continuation_line (cur_indent_level : nat) (value : string)
    (st : ReadState) : option ReadState :=
  match current_option st with
  | Some (sn, on) =>
      if (indent_level st <? cur_indent_level)%nat
      then Some (append_value sn on value st) else None
  | None => None
  end.

(** One iteration of the loop over the lines of the file. *)
Definition read_line (lineno : nat) (line : string) (st : ReadState)
  : PyResult ReadState :=
  let value := Str.strip line in
  if is_comment line then Ok st
  else if value =? "" then
    match current_option st with
    | Some (sn, on) => Ok (append_value sn on "" st)
    | None => Ok st
    end
  else
    let cur_indent_level := Str.indent line in
    match continuation_line cur_indent_level value st with
    | Some st' => Ok st'
    | None =>
        let st := mkRead (r_sections st) (r_defaults st) (sectname st)
                    (optname st) cur_indent_level (elements_added st) (e st) in
        match sectcre_match value with
        | Some header =>
            if Dict.has header (r_sections st) then
              if added (inl header) st then Raise (DuplicateSectionError header)
              else Ok (mkRead (r_sections st) (r_defaults st) (Some header) None
                         (indent_level st)
                         (inl header :: elements_added st) (e st))
            else if header =? default_section then
              Ok (mkRead (r_sections st) (r_defaults st) (Some header) None
                    (indent_level st) (elements_added st) (e st))
            else
              Ok (mkRead (Dict.set header [] (r_sections st)) (r_defaults st)
                    (Some header) None (indent_level st)
                    (inl header :: elements_added st) (e st))
        | None =>
            match sectname st with
            | None => Raise (MissingSectionHeaderError lineno line)
            | Some sn =>
                match optcre_match value with
                | Some (on, optval) =>
                    let e' := if on =? "" then (e st ++ [(lineno, line)])%list
                              else e st in
                    let on := optionxform (Str.rstrip on) in
                    if added (inr (sn, on)) st
                    then Raise (DuplicateOptionError sn on)
                    else
                      let st := mkRead (r_sections st) (r_defaults st)
                                  (sectname st) (Some on) (indent_level st)
                                  (inr (sn, on) :: elements_added st) e' in
                      Ok (set_cursect sn
                            (Dict.set on [Str.strip optval] (cursect sn st)) st)
                | None =>
                    Ok (mkRead (r_sections st) (r_defaults st) (sectname st)
                          (optname st) (indent_level st) (elements_added st)
                          (e st ++ [(lineno, line)])%list)
                end
            end
        end
    end.

Fixpoint read_lines (lineno : nat) (ls : list string) (st : ReadState)
  : PyResult ReadState :=
  match ls with
  | [] => Ok st
  | line :: ls' =>
      (let* st' := read_line lineno line st in
       read_lines (S lineno) ls' st')%py
  end.

(** [_join_multiline_values] *)
Definition join_value (val : list string) : string :=
  Str.rstrip (Str.join_lf val).

Definition join_options (d : Dict.t (list string)) : Dict.t string :=
  map (fun kv => (fst kv, join_value (snd kv))) d.

(** [ConfigParser().read_file(fp)] on the decoded text of a file. *)
Definition read_text (text : string) : PyResult t :=
  (let* st := read_lines 1 (Str.lines (Str.universal_newlines text)) read_start in
   match e st with
   | [] =>
       Ok (mk (map (fun s => (fst s, join_options (snd s))) (r_sections st))
              (join_options (r_defaults st)))
   | bad => Raise (ParsingError bad)
   end)%py.

End ConfigParser.

(** ** The process state: environment, file system, Spark, override slot *)

Module OS.

(** An inode: [st_mode] as [os.stat] reports it (file type and the twelve
    permission bits) and, for a regular file, its decoded text. A file
    system maps every path that names something to what it names, the
    directories included. The process is taken to own the files
    it meets, not to be the super user, and to be allowed to search and
    change the directories that exist; text is taken to be made of
    characters that the encoding of the files keeps. *)
Record File : Type := mkFile {
  st_mode : Z;
  content : string
}.

(** An octal literal, most significant digit first. *)
Definition oct (digits : list nat) : Z :=
  fold_left (fun acc d => 8 * acc + Z.of_nat d)%Z digits 0%Z.

Definition S_IFMT : Z := oct [1; 7; 0; 0; 0; 0].
Definition S_IFREG : Z := oct [1; 0; 0; 0; 0; 0].
Definition S_IFDIR : Z := oct [0; 4; 0; 0; 0; 0].
Definition S_IRUSR : Z := oct [4; 0; 0].
Definition S_IWUSR : Z := oct [2; 0; 0].

Definition S_ISDIR (mode : Z) : bool := (Z.land mode S_IFMT =? S_IFDIR)%Z.
Definition S_ISREG (mode : Z) : bool := (Z.land mode S_IFMT =? S_IFREG)%Z.

(** The permission bits of a mode, [stat.S_IMODE]. *)
Definition S_IMODE (mode : Z) : Z := Z.land mode (oct [7; 7; 7; 7]).

(** [posixpath.join(a, b)] for a relative [b]. *)
Fixpoint endswith_slash (a : string) : bool :=
  match a with
  | String c EmptyString => Ascii.eqb c "/"%char
  | String _ r => endswith_slash r
  | EmptyString => false
  end.

Definition join (a b : string) : string :=
  match b with
  | String "/"%char _ => b
  | _ => if (a =? "") || endswith_slash a then a ++ b else a ++ "/" ++ b
  end.

(** [path.rstrip("/")] *)
Fixpoint rstrip_slash (path : string) : string :=
  match path with
  | String c r =>
      match rstrip_slash r with
      | EmptyString =>
          if Ascii.eqb c "/"%char then EmptyString else String c EmptyString
      | r' => String c r'
      end
  | EmptyString => EmptyString
  end.

(** [path[:path.rfind("/") + 1]] *)
Fixpoint head_slash (path : string) : string :=
  match path with
  | String c r =>
      match head_slash r with
      | EmptyString =>
          if Ascii.eqb c "/"%char then String c EmptyString else EmptyString
      | h => String c h
      end
  | EmptyString => EmptyString
  end.

(** [posixpath.dirname(path)] *)
Definition dirname (path : string) : string :=
  let head := head_slash path in
  match rstrip_slash head with
  | EmptyString => head
  | h => h
  end.

(** The directory in which the last component of [path] is looked up:
    [""] is the current directory, a text of slashes the root. *)
Definition holder (path : string) : string := dirname (rstrip_slash path).

Section FileSystem.
Variable umask : Z.
Implicit Types fs : gmap string File.

(** What the kernel finds when it walks to the directory [d]: nothing
    when [d] is a directory, [ENOTDIR] when it or the nearest thing above
    it that exists is something else, [ENOENT] when it is missing. The
    current directory and the root exist. *)
Fixpoint walk_error (fuel : nat) fs (d path : string) : option PyError :=
  if (rstrip_slash d =? "") then None
  else
    match fs !! d with
    | Some f =>
        if S_ISDIR (st_mode f) then None else Some (NotADirectoryError path)
    | None =>
        match fuel with
        | O => Some (FileNotFoundError path)
        | S fuel' =>
            match walk_error fuel' fs (holder d) path with
            | Some err => Some err
            | None => Some (FileNotFoundError path)
            end
        end
    end.

(** The error of a system call on a path that names nothing. *)
Definition lookup_error fs (path : string) : PyError :=
  if path =? "" then FileNotFoundError path
  else
    match walk_error (String.length path) fs
            (if endswith_slash path then rstrip_slash path else holder path)
            path with
    | Some err => err
    | None => FileNotFoundError path
    end.

(** What stands in the way of creating a file at a path that names
    nothing: the empty path, a directory above it that is missing or is
    no directory, a trailing slash. *)
Definition create_error fs (path : string) : option PyError :=
  if path =? "" then Some (FileNotFoundError path)
  else
    match walk_error (String.length path) fs (holder path) path with
    | Some err => Some err
    | None =>
        if endswith_slash path then Some (IsADirectoryError path) else None
    end.

(** [os.path.exists(path)] *)
Definition path_exists fs (path : string) : bool :=
  match fs !! path with Some _ => true | None => false end.

(** [os.close(os.open(path, os.O_CREAT | os.O_RDWR, mode))] *)
Definition open_creat fs (path : string) (mode : Z)
  : PyResult (gmap string File) :=
  match fs !! path with
  | None =>
      match create_error fs path with
      | Some err => Raise err
      | None =>
          Ok (<[path := mkFile (Z.lor S_IFREG (Z.land mode (Z.lnot umask)))
                               ""]> fs)
      end
  | Some f =>
      if S_ISDIR (st_mode f) then Raise (IsADirectoryError path)
      else if ((Z.land (st_mode f) S_IRUSR =? 0) || (Z.land (st_mode f) S_IWUSR =? 0))%Z
      then Raise (PermissionError path)
      else Ok fs
  end.

(** [os.stat(path).st_mode] *)
Definition stat fs (path : string) : PyResult Z :=
  match fs !! path with
  | Some f => Ok (st_mode f)
  | None => Raise (lookup_error fs path)
  end.

(** [os.chmod(path, mode)] *)
Definition chmod fs (path : string) (mode : Z)
  : PyResult (gmap string File) :=
  match fs !! path with
  | Some f =>
      Ok (<[path := mkFile (Z.lor (Z.land (st_mode f) S_IFMT) (S_IMODE mode))
                           (content f)]> fs)
  | None => Raise (lookup_error fs path)
  end.

(** [with open(path, "w") as f: f.write(text)] *)
Definition write_text fs (path text : string)
  : PyResult (gmap string File) :=
  match fs !! path with
  | None =>
      match create_error fs path with
      | Some err => Raise err
      | None =>
          Ok (<[path := mkFile (Z.lor S_IFREG
                                  (Z.land (oct [6; 6; 6]) (Z.lnot umask)))
                               text]> fs)
      end
  | Some f =>
      if S_ISDIR (st_mode f) then Raise (IsADirectoryError path)
      else if (Z.land (st_mode f) S_IWUSR =? 0)%Z then Raise (PermissionError path)
      else Ok (<[path := mkFile (st_mode f) text]> fs)
  end.

(** [with open(path) as f: f.read()] *)
Definition read_text fs (path : string) : PyResult string :=
  match fs !! path with
  | None => Raise (lookup_error fs path)
  | Some f =>
      if S_ISDIR (st_mode f) then Raise (IsADirectoryError path)
      else if (Z.land (st_mode f) S_IRUSR =? 0)%Z then Raise (PermissionError path)
      else Ok (content f)
  end.
End FileSystem.

(** [isinstance(e, OSError)] *)
Definition is_OSError (e : PyError) : bool :=
  match e with
  | FileNotFoundError _ | IsADirectoryError _ | NotADirectoryError _
  | PermissionError _ => true
  | _ => false
  end.

End OS.

(** ** [provider.py] *)

Definition CONFIG_FILE_ENV_VAR : string := "DATABRICKS_CONFIG_FILE".
Definition HOST : string := "host".
Definition USERNAME : string := "username".
Definition PASSWORD : string := "password".
Definition TOKEN : string := "token".
Definition REFRESH_TOKEN : string := "refresh_token".
Definition INSECURE : string := "insecure".
Definition JOBS_API_VERSION : string := "jobs-api-version".
Definition DEFAULT_SECTION : string := "DEFAULT".

(** *** class DatabricksConfig *)

Record DatabricksConfig : Type := mkDatabricksConfig {
  host : option string;
  username : option string;
  password : option string;
  token : option string;
  refresh_token : option string;
  insecure : option string;
  jobs_api_version : option string
}.

Definition from_token (host token refresh_token insecure jobs_api_version
                       : option string) : DatabricksConfig :=
  mkDatabricksConfig host None None token refresh_token insecure
                     jobs_api_version.

Definition from_password (host username password insecure jobs_api_version
                          : option string) : DatabricksConfig :=
  mkDatabricksConfig host username password None None insecure
                     jobs_api_version.

Definition empty : DatabricksConfig :=
  mkDatabricksConfig None None None None None None None.

Definition is_valid_with_token (self : DatabricksConfig) : bool :=
  is_not_None (host self) && is_not_None (token self).

Definition is_valid_with_password (self : DatabricksConfig) : bool :=
  is_not_None (host self) && is_not_None (username self)
  && is_not_None (password self).

Definition is_valid (self : DatabricksConfig) : bool :=
  is_valid_with_token self || is_valid_with_password self.

(** *** The state of the process *)

(** Whether [pyspark] can be imported and, if so, what
    [TaskContext.get()] returns: [None] outside a task, the local
    properties of the task inside one. *)
Inductive PySpark : Type :=
| ImportError_pyspark
| TaskContext_get (context : option (gmap string string)).

Record World : Type := mkWorld {
  environ : gmap string string;
  fs : gmap string OS.File;
  umask : Z;
  _home : string;
  argv0 : string;
  pyspark : PySpark
}.

(** Instances of the classes that derive from [DatabricksConfigProvider].
    [DefaultChain] is [DefaultConfigProvider] with its [_providers];
    [CustomConfigProvider] is an instance of a subclass written by a
    caller: what [str] makes of it and what its [get_config] returns or
    raises in a given state of the process. None of these classes defines
    [__bool__] or [__len__]: their instances are true. *)
#[warnings="-register-all"]
Inductive Provider : Type :=
| SparkTaskContextConfigProvider
| EnvironmentVariableConfigProvider
| ProfileConfigProvider (profile : string)
| DefaultChain (_providers : list Provider)
| CustomConfigProvider (str : string)
    (custom_get_config : World -> PyResult (option DatabricksConfig)).

(** [DefaultConfigProvider()] *)
Definition DefaultConfigProvider : Provider :=
  DefaultChain [SparkTaskContextConfigProvider;
                EnvironmentVariableConfigProvider;
                ProfileConfigProvider DEFAULT_SECTION].

(** A value passed to [set_config_provider] or held by the module
    variable [_config_provider]: [None], a provider instance, or any
    other object, of which only [str] and [bool] matter. *)
Inductive PyValue : Type :=
| PyNone
| PyProvider (p : Provider)
| PyOther (str : string) (truth : bool).

Definition py_bool (v : PyValue) : bool :=
  match v with
  | PyNone => false
  | PyProvider _ => true
  | PyOther _ b => b
  end.

(** [str(v)]; the address that the default [str] of an object shows is
    left out. *)
Definition py_str (v : PyValue) : string :=
  match v with
  | PyNone => "None"
  | PyProvider SparkTaskContextConfigProvider =>
      "<SparkTaskContextConfigProvider object>"
  | PyProvider EnvironmentVariableConfigProvider =>
      "<EnvironmentVariableConfigProvider object>"
  | PyProvider (ProfileConfigProvider _) => "<ProfileConfigProvider object>"
  | PyProvider (DefaultChain _) => "<DefaultConfigProvider object>"
  | PyProvider (CustomConfigProvider s _) => s
  | PyOther s _ => s
  end.

(** [isinstance(v, DatabricksConfigProvider)] *)
Definition isinstance_DatabricksConfigProvider (v : PyValue) : bool :=
  match v with PyProvider _ => true | _ => false end.

(** A call of some provider's [get_config], recorded in the order in
    which the calls start. *)
Inductive Event : Type :=
| Called (p : Provider).

Record State : Type := mkState {
  world : World;
  _config_provider : PyValue;
  calls : list Event
}.

(** Computations that read and change the state and may raise. *)
Definition M (A : Type) : Type := State -> PyResult A * State.

Definition ret {A} (a : A) : M A := fun st => (Ok a, st).
Definition raise {A} (e : PyError) : M A := fun st => (Raise e, st).
Definition mbind {A B} (m : M A) (k : A -> M B) : M B :=
  fun st =>
    match m st with
    | (Ok a, st') => k a st'
    | (Raise e, st') => (Raise e, st')
    end.
Definition lift {A} (r : PyResult A) : M A := fun st => (r, st).
Definition get_world : M World := fun st => (Ok (world st), st).
Definition set_fs (fs' : gmap string OS.File) : M unit :=
  fun st =>
    let w := world st in
    (Ok tt,
     mkState (mkWorld (environ w) fs' (umask w) (_home w) (argv0 w) (pyspark w))
             (_config_provider st) (calls st)).
Definition record_call (p : Provider) : M unit :=
  fun st =>
    (Ok tt, mkState (world st) (_config_provider st) (calls st ++ [Called p])).

Notation "'let!' x ':=' m 'in' k" := (mbind m (fun x => k))
  (at level 10, x name, m at level 100, k at level 200) : py_scope.
Notation "m ';;' k" := (mbind m (fun _ => k))
  (at level 100, right associativity) : py_scope.

Local Open Scope py_scope.

(** *** class InvalidConfigurationError *)

Definition for_profile (argv0 : string) (profile : option string) : PyError :=
  match profile with
  | None =>
      InvalidConfigurationError
        ("You haven't configured the CLI yet! "
         ++ "Please configure by entering `" ++ argv0 ++ " configure`")
  | Some profile =>
      InvalidConfigurationError
        ("You haven't configured the CLI yet for the profile " ++ profile
         ++ "! " ++ "Please configure by entering "
         ++ "`" ++ argv0 ++ " configure --profile " ++ profile ++ "`")
  end.

(** *** The profile file *)

Definition _get_path : M string :=
  let! w := get_world in
  ret (match environ w !! CONFIG_FILE_ENV_VAR with
       | Some path => path
       | None => OS.join (_home w) ".databrickscfg"
       end).

(** [ConfigParser.read] skips a file that cannot be opened. *)
Definition _fetch_from_fs : M ConfigParser.t :=
  let! path := _get_path in
  let! w := get_world in
  match OS.read_text (fs w) path with
  | Ok text => lift (ConfigParser.read_text text)
  | Raise err =>
      if OS.is_OSError err then ret ConfigParser.new else raise err
  end.

Definition _create_section_if_absent (raw_config : ConfigParser.t)
    (profile : string) : PyResult ConfigParser.t :=
  if negb (ConfigParser.has_section raw_config profile)
     && negb (profile =? DEFAULT_SECTION)
  then ConfigParser.add_section raw_config profile
  else Ok raw_config.

(** [raw_config._sections.get(profile, {})] *)
Definition section_or_empty (raw_config : ConfigParser.t) (profile : string)
  : Dict.t string :=
  match Dict.get profile (ConfigParser._sections raw_config) with
  | Some d => d
  | None => []
  end.

Definition _get_option_if_exists (raw_config : ConfigParser.t)
    (profile option : string) : PyResult (Datatypes.option string) :=
  if profile =? DEFAULT_SECTION then
    if ConfigParser.has_option raw_config profile option
    then let* v := ConfigParser.get raw_config profile option in Ok (Some v)
    else Ok None
  else if negb (Dict.has option (section_or_empty raw_config profile))
  then Ok None
  else let* v := ConfigParser.get raw_config profile option in Ok (Some v).

Definition _set_option (raw_config : ConfigParser.t)
    (profile option : string) (value : Datatypes.option string)
  : PyResult ConfigParser.t :=
  match value with
  | Some v =>
      if truthy value then ConfigParser.set raw_config profile option v
      else ConfigParser.remove_option raw_config profile option
  | None => ConfigParser.remove_option raw_config profile option
  end.

Definition mode_rw_owner : Z := OS.oct [6; 0; 0].
Definition mode_regular_rw_owner : Z := OS.oct [1; 0; 0; 6; 0; 0].

Definition _overwrite_config (raw_config : ConfigParser.t) : M unit :=
  let! config_path := _get_path in
  let! w := get_world in
  (if negb (OS.path_exists (fs w) config_path) then
     let! fs' := lift (OS.open_creat (umask w) (fs w) config_path mode_rw_owner) in
     set_fs fs'
   else ret tt) ;;
  let! w := get_world in
  let! st_mode := lift (OS.stat (fs w) config_path) in
  (if negb (st_mode =? mode_regular_rw_owner)%Z then
     let! fs' := lift (OS.chmod (fs w) config_path mode_rw_owner) in
     set_fs fs'
   else ret tt) ;;
  let! w := get_world in
  let! fs' := lift (OS.write_text (umask w) (fs w) config_path
                      (ConfigParser.write raw_config)) in
  set_fs fs'.

(** [profile if profile else DEFAULT_SECTION] *)
Definition profile_or_default (profile : option string) : string :=
  match profile with
  | Some name => if truthy profile then name else DEFAULT_SECTION
  | None => DEFAULT_SECTION
  end.

Definition update_and_persist_config (profile : option string)
    (databricks_config : DatabricksConfig) : M unit :=
  let profile := profile_or_default profile in
  let! raw_config := _fetch_from_fs in
  let! raw_config := lift (
    let* raw_config := _create_section_if_absent raw_config profile in
    let* raw_config := _set_option raw_config profile HOST (host databricks_config) in
    let* raw_config := _set_option raw_config profile USERNAME (username databricks_config) in
    let* raw_config := _set_option raw_config profile PASSWORD (password databricks_config) in
    let* raw_config := _set_option raw_config profile TOKEN (token databricks_config) in
    let* raw_config := _set_option raw_config profile REFRESH_TOKEN (refresh_token databricks_config) in
    let* raw_config := _set_option raw_config profile INSECURE (insecure databricks_config) in
    _set_option raw_config profile JOBS_API_VERSION (jobs_api_version databricks_config)) in
  _overwrite_config raw_config.

(** *** The providers *)

(** [SparkTaskContextConfigProvider._get_spark_task_context_or_none] *)
Definition _get_spark_task_context_or_none (w : World)
  : option (gmap string string) :=
  match pyspark w with
  | TaskContext_get context => context
  | ImportError_pyspark => None
  end.

Definition SparkTaskContextConfigProvider_get_config
  : M (option DatabricksConfig) :=
  let! w := get_world in
  match _get_spark_task_context_or_none w with
  | Some context =>
      let host := context !! "spark.databricks.api.url" in
      let token := context !! "spark.databricks.token" in
      let insecure := context !! "spark.databricks.ignoreTls" in
      let config := from_token host token None insecure None in
      if is_valid config then ret (Some config) else ret None
  | None => ret None
  end.

Definition EnvironmentVariableConfigProvider_get_config
  : M (option DatabricksConfig) :=
  let! w := get_world in
  let host := environ w !! "DATABRICKS_HOST" in
  let username := environ w !! "DATABRICKS_USERNAME" in
  let password := environ w !! "DATABRICKS_PASSWORD" in
  let token := environ w !! "DATABRICKS_TOKEN" in
  let refresh_token := environ w !! "DATABRICKS_REFRESH_TOKEN" in
  let insecure := environ w !! "DATABRICKS_INSECURE" in
  let jobs_api_version := environ w !! "DATABRICKS_JOBS_API_VERSION" in
  let config := mkDatabricksConfig host username password token refresh_token
                  insecure jobs_api_version in
  if is_valid config then ret (Some config) else ret None.

Definition ProfileConfigProvider_get_config (profile : string)
  : M (option DatabricksConfig) :=
  let! raw_config := _fetch_from_fs in
  let! host := lift (_get_option_if_exists raw_config profile HOST) in
  let! username := lift (_get_option_if_exists raw_config profile USERNAME) in
  let! password := lift (_get_option_if_exists raw_config profile PASSWORD) in
  let! token := lift (_get_option_if_exists raw_config profile TOKEN) in
  let! refresh_token :=
    lift (_get_option_if_exists raw_config profile REFRESH_TOKEN) in
  let! insecure := lift (_get_option_if_exists raw_config profile INSECURE) in
  let! jobs_api_version :=
    lift (_get_option_if_exists raw_config profile JOBS_API_VERSION) in
  let config := mkDatabricksConfig host username password token refresh_token
                  insecure jobs_api_version in
  if is_valid config then ret (Some config) else ret None.

(** The loop of [DefaultConfigProvider.get_config] over [providers],
    where [get_config provider] is [provider.get_config()]. *)
Definition run_chain (get_config : Provider -> M (option DatabricksConfig))
  : list Provider -> M (option DatabricksConfig) :=
  fix loop (providers : list Provider) : M (option DatabricksConfig) :=
    match providers with
    | provider :: rest =>
        let! config := get_config provider in
        match config with
        | Some c => if is_valid c then ret (Some c) else loop rest
        | None => loop rest
        end
    | [] => ret None
    end.

(** [provider.get_config()], dispatched on the class of [provider]. *)
Fixpoint provider_get_config (provider : Provider)
  : M (option DatabricksConfig) :=
  record_call provider ;;
  match provider with
  | SparkTaskContextConfigProvider => SparkTaskContextConfigProvider_get_config
  | EnvironmentVariableConfigProvider =>
      EnvironmentVariableConfigProvider_get_config
  | ProfileConfigProvider profile => ProfileConfigProvider_get_config profile
  | CustomConfigProvider _ custom_get_config =>
      let! w := get_world in lift (custom_get_config w)
  | DefaultChain _providers => run_chain provider_get_config _providers
  end.

(** *** The resolver *)

Definition get_config : M DatabricksConfig :=
  fun st =>
    (if py_bool (_config_provider st) then
       match _config_provider st with
       | PyProvider provider =>
           let! config := provider_get_config provider in
           match config with
           | Some c => ret c
           | None =>
               raise (InvalidConfigurationError
                        ("Custom provider returned no DatabricksConfig: "
                         ++ py_str (_config_provider st)))
           end
       | other =>
           raise (AttributeError
                    ("object has no attribute 'get_config': " ++ py_str other))
       end
     else
       let! config := provider_get_config DefaultConfigProvider in
       match config with
       | Some c => ret c
       | None => raise (for_profile (argv0 (world st)) None)
       end) st.

Definition get_config_for_profile (profile : option string)
  : M DatabricksConfig :=
  let profile := profile_or_default profile in
  let from_profile : M DatabricksConfig :=
    let! config := provider_get_config (ProfileConfigProvider profile) in
    match config with
    | Some c => ret c
    | None => ret empty
    end in
  let! config := provider_get_config EnvironmentVariableConfigProvider in
  match config with
  | Some c => if is_valid c then ret c else from_profile
  | None => from_profile
  end.

Definition set_config_provider (provider : PyValue) : M unit :=
  fun st =>
    if py_bool provider && negb (isinstance_DatabricksConfigProvider provider)
    then
      (Raise (Exception ("Must be instance of DatabricksConfigProvider: "
                         ++ py_str (_config_provider st))), st)
    else (Ok tt, mkState (world st) provider (calls st)).

Definition get_config_provider : M PyValue :=
  fun st => (Ok (_config_provider st), st).

(** ** Predicates used in the statements *)

(** What a computation returns or raises, and the state it leaves. *)
Definition result_of {A} (m : M A) (st : State) : PyResult A := fst (m st).
Definition state_after {A} (m : M A) (st : State) : State := snd (m st).

(** The calls of [get_config] methods that a computation adds. *)
Definition calls_added {A} (m : M A) (st : State) (new : list Event) : Prop :=
  calls (state_after m st) = (calls st ++ new)%list.

(** The options that a profile holds itself: those of the default
    section for [DEFAULT_SECTION], those of its own section otherwise. *)
Definition own_options (raw_config : ConfigParser.t) (profile : string)
  : Dict.t string :=
  if profile =? DEFAULT_SECTION then ConfigParser._defaults raw_config
  else section_or_empty raw_config profile.

(** The option names of a parser are the images of [optionxform]. *)
Definition normal_keys (d : Dict.t string) : Prop :=
  Forall (fun k => ConfigParser.optionxform k = k) (Dict.keys d).

(** What every parser that was built through the interface of
    [ConfigParser] satisfies: option names are normalised and the default
    section is not among the named sections. *)
Definition parser_invariant (raw_config : ConfigParser.t) : Prop :=
  normal_keys (ConfigParser._defaults raw_config)
  /\ Forall (fun s => normal_keys (snd s)) (ConfigParser._sections raw_config)
  /\ Dict.get ConfigParser.default_section (ConfigParser._sections raw_config)
     = None.

(** The profile can be written to: it is the default section or a
    section of the parser. *)
Definition profile_present (raw_config : ConfigParser.t) (profile : string)
  : Prop :=
  profile = DEFAULT_SECTION
  \/ (profile <> "" /\ ConfigParser.has_section raw_config profile = true).

(** The seven option names of a profile. *)
Definition profile_keys : list string :=
  [HOST; USERNAME; PASSWORD; TOKEN; REFRESH_TOKEN; INSECURE; JOBS_API_VERSION].

(** A state in which nothing but the given world matters. *)
Definition state_of (w : World) (override : PyValue) : State :=
  mkState w override [].

(** The state with another record of calls. *)
Definition with_calls (st : State) (l : list Event) : State :=
  mkState (world st) (_config_provider st) l.

(** A computation that leaves the state as it finds it. *)
Definition readonly {A} (m : M A) : Prop := forall st, state_after m st = st.

(** A computation whose result is determined by the world: it looks
    neither at the override slot nor at the record of calls. *)
Definition world_only {A} (m : M A) : Prop :=
  forall st st', world st = world st' -> result_of m st = result_of m st'.

(** A provider that is not a chain of other providers. *)
Definition is_leaf (p : Provider) : bool :=
  match p with DefaultChain _ => false | _ => true end.

(** A computation that returns no record or a valid one. *)
Definition returns_valid (m : M (option DatabricksConfig)) : Prop :=
  forall st c, result_of m st = Ok (Some c) -> is_valid c = true.

(** ** Worlds and states used as examples *)

Definition mode_rw_all : Z := OS.oct [1; 0; 0; 6; 4; 4].

(** Nothing is configured: no variables, no file, no Spark. *)
Definition bare_world : World :=
  mkWorld ∅ ∅ (OS.oct [0; 2; 2]) "/home/user" "databricks" ImportError_pyspark.

Definition with_environ (env : gmap string string) (w : World) : World :=
  mkWorld env (fs w) (umask w) (_home w) (argv0 w) (pyspark w).

Definition with_file (path : string) (f : OS.File) (w : World) : World :=
  mkWorld (environ w) (<[path := f]> (fs w)) (umask w) (_home w) (argv0 w)
          (pyspark w).

Definition with_task_context (context : gmap string string) (w : World)
  : World :=
  mkWorld (environ w) (fs w) (umask w) (_home w) (argv0 w)
          (TaskContext_get (Some context)).

Definition token_environ : gmap string string :=
  <["DATABRICKS_HOST" := "https://x"]> (<["DATABRICKS_TOKEN" := "abc"]> ∅).

Definition task_properties : gmap string string :=
  <["spark.databricks.api.url" := "https://task"]>
    (<["spark.databricks.token" := "tasktoken"]> ∅).

Definition default_path : string := "/home/user/.databrickscfg".

(** A profile file whose default section holds a password login. *)
Definition password_file : OS.File :=
  OS.mkFile mode_regular_rw_owner
    ("[DEFAULT]" ++ String Str.LF "" ++
     "host = https://y" ++ String Str.LF "" ++
     "username = u" ++ String Str.LF "" ++
     "password = p" ++ String Str.LF "").

(** A provider written by a caller that never finds credentials. *)
Definition silent_provider : Provider :=
  CustomConfigProvider "<SilentProvider>" (fun _ => Ok None).

(** A provider written by a caller that returns a record without host. *)
Definition hostless_provider : Provider :=
  CustomConfigProvider "<HostlessProvider>" (fun _ => Ok (Some empty)).

(** A parser with a host in the default section and a profile [team]
    that holds a token only. *)
Definition team_parser : ConfigParser.t :=
  ConfigParser.mk [("team", [("token", "t")])] [("host", "https://h")].

(** The path that [_get_path] returns in a world. *)
Definition config_path (w : World) : string :=
  match environ w !! CONFIG_FILE_ENV_VAR with
  | Some path => path
  | None => OS.join (_home w) ".databrickscfg"
  end.

(** The path of the profile file names nothing or a regular file. *)
Definition absent_or_regular (w : World) : Prop :=
  fs w !! config_path w = None
  \/ exists f, fs w !! config_path w = Some f /\ OS.S_ISREG (OS.st_mode f) = true.

(** [_overwrite_config] can write the profile file: its path names a
    regular file, or it names nothing and nothing stands in the way of
    creating it (the path is not empty, has no trailing slash, and the
    directory that is to hold the file exists). *)
Definition persistable (w : World) : Prop :=
  (fs w !! config_path w = None
   /\ OS.create_error (fs w) (config_path w) = None)
  \/ exists f, fs w !! config_path w = Some f /\ OS.S_ISREG (OS.st_mode f) = true.

(** The profile file can be read for a profile: the file is absent or
    cannot be opened, or its text parses; and none of the seven lookups
    of the profile fails in the interpolation of a value. *)
Definition store_readable (st : State) (profile : string) : Prop :=
  exists raw_config,
    result_of _fetch_from_fs st = Ok raw_config
    /\ forall k, In k profile_keys ->
         exists v, _get_option_if_exists raw_config profile k = Ok v.

(** What [get_config_for_profile] is to return: the record of the
    environment, else the record of the profile, else the empty record. *)
Definition environment_else_profile
    (env prof : PyResult (option DatabricksConfig)) : DatabricksConfig :=
  match env with
  | Ok (Some c) => c
  | _ => match prof with
         | Ok (Some c) => c
         | _ => empty
         end
  end.

(** A profile file without a section header. *)
Definition headerless_file : OS.File :=
  OS.mkFile mode_regular_rw_owner ("host = x" ++ String Str.LF "").

(** ** Profile files that are read back as they were written *)

(** No white space at either end. *)
Definition stripped (s : string) : bool :=
  (Str.lstrip s =? s) && (Str.rstrip s =? s).

(** Neither a line feed nor a carriage return. *)
Definition one_line (s : string) : bool :=
  negb (Str.contains Str.LF s) && negb (Str.contains Str.CR s).

(** A value that the writer puts on one line and the reader returns
    unchanged. *)
Definition safe_value (v : string) : bool := stripped v && one_line v.

(** An option name as the reader produces them: normalised, not empty,
    without delimiter, on one line, and not taken for a comment or a
    section header. *)
Definition safe_key (k : string) : bool :=
  match k with
  | String c _ =>
      negb (Str.isspace c) && negb (Ascii.eqb c "#"%char)
      && negb (Ascii.eqb c ";"%char) && negb (Ascii.eqb c "["%char)
  | EmptyString => false
  end
  && (Str.rstrip k =? k) && one_line k
  && negb (Str.contains "="%char k) && negb (Str.contains ":"%char k)
  && (ConfigParser.optionxform k =? k).

(** The name of a section other than the default one. *)
Definition safe_section (n : string) : bool :=
  negb (n =? "") && one_line n && negb (n =? ConfigParser.default_section).

Fixpoint nodupb (l : list string) : bool :=
  match l with
  | [] => true
  | x :: l' => negb (existsb (String.eqb x) l') && nodupb l'
  end.

Definition safe_items (d : Dict.t string) : bool :=
  forallb (fun kv => safe_key (fst kv) && safe_value (snd kv)) d
  && nodupb (Dict.keys d).

(** A parser whose text [ConfigParser.write] the reader turns back into
    the same parser. *)
Definition writable (raw_config : ConfigParser.t) : bool :=
  safe_items (ConfigParser._defaults raw_config)
  && forallb (fun s => safe_section (fst s) && safe_items (snd s))
       (ConfigParser._sections raw_config)
  && nodupb (Dict.keys (ConfigParser._sections raw_config)).

(** The parser that the state of the reader stands for: each value is
    the join of its lines. *)
Definition view (st : ConfigParser.ReadState) : ConfigParser.t :=
  ConfigParser.mk
    (map (fun s => (fst s, ConfigParser.join_options (snd s)))
         (ConfigParser.r_sections st))
    (ConfigParser.join_options (ConfigParser.r_defaults st)).

(** The line of an option in the file. *)
Definition item_line (kv : string * string) : string :=
  fst kv ++ " = " ++ snd kv.

(** The lines of a section in the file. *)
Definition block_lines (name : string) (items : Dict.t string) : list string :=
  ("[" ++ name ++ "]") :: (map item_line items ++ [""])%list.

(** What the reader knows after a header line and after an option line,
    on parsers. *)
Definition with_option (c : ConfigParser.t) (section k v : string)
  : ConfigParser.t :=
  if section =? ConfigParser.default_section then
    ConfigParser.mk (ConfigParser._sections c)
                    (Dict.set k v (ConfigParser._defaults c))
  else
    ConfigParser.mk
      (Dict.set section (Dict.set k v (section_or_empty c section))
                (ConfigParser._sections c))
      (ConfigParser._defaults c).

Definition with_section (c : ConfigParser.t) (section : string)
  : ConfigParser.t :=
  if section =? ConfigParser.default_section then c
  else ConfigParser.mk (Dict.set section [] (ConfigParser._sections c))
                       (ConfigParser._defaults c).

(** The state of the reader after the header line of a section that it
    has not met, after an option line, and after an empty line. *)
Definition header_state (n : string) (st : ConfigParser.ReadState)
  : ConfigParser.ReadState :=
  if n =? ConfigParser.default_section then
    ConfigParser.mkRead (ConfigParser.r_sections st) (ConfigParser.r_defaults st)
      (Some n) None 0 (ConfigParser.elements_added st) (ConfigParser.e st)
  else
    ConfigParser.mkRead (Dict.set n [] (ConfigParser.r_sections st))
      (ConfigParser.r_defaults st) (Some n) None 0
      (inl n :: ConfigParser.elements_added st) (ConfigParser.e st).

Definition item_state (sn k v : string) (st : ConfigParser.ReadState)
  : ConfigParser.ReadState :=
  let st' := ConfigParser.mkRead (ConfigParser.r_sections st)
               (ConfigParser.r_defaults st) (ConfigParser.sectname st)
               (Some k) 0 (inr (sn, k) :: ConfigParser.elements_added st)
               (ConfigParser.e st) in
  ConfigParser.set_cursect sn (Dict.set k [v] (ConfigParser.cursect sn st')) st'.

Definition blank_state (st : ConfigParser.ReadState) : ConfigParser.ReadState :=
  match ConfigParser.current_option st with
  | Some (sn, on) => ConfigParser.append_value sn on "" st
  | None => st
  end.

(** The invariant of the reader between two lines of a written file. *)
Definition reader_ok (st : ConfigParser.ReadState) : Prop :=
  ConfigParser.e st = []
  /\ ConfigParser.indent_level st = 0
  /\ Dict.get ConfigParser.default_section (ConfigParser.r_sections st) = None
  /\ (forall s k, ConfigParser.added (inr (s, k)) st = true ->
        Dict.has k (ConfigParser.cursect s st) = true)
  /\ (forall sn on, ConfigParser.current_option st = Some (sn, on) ->
        Dict.has on (ConfigParser.cursect sn st) = true).

(** ** Records that are read back as they were stored *)

(** A field that is absent, empty, or a value on one line without [%]
    and without white space at its ends. *)
Definition storable (value : option string) : bool :=
  match value with
  | Some v => (v =? "") || (safe_value v && negb (Str.contains "%"%char v))
  | None => true
  end.

Definition storable_config (c : DatabricksConfig) : bool :=
  storable (host c) && storable (username c) && storable (password c)
  && storable (token c) && storable (refresh_token c)
  && storable (insecure c) && storable (jobs_api_version c).

(** A field as the profile file keeps it: a false value is dropped. *)
Definition kept (value : option string) : option string :=
  if truthy value then value else None.

Definition kept_config (c : DatabricksConfig) : DatabricksConfig :=
  mkDatabricksConfig (kept (host c)) (kept (username c)) (kept (password c))
    (kept (token c)) (kept (refresh_token c)) (kept (insecure c))
    (kept (jobs_api_version c)).

(** The options that [update_and_persist_config] sets, in its order. *)
Definition profile_options (c : DatabricksConfig)
  : list (string * option string) :=
  [(HOST, host c); (USERNAME, username c); (PASSWORD, password c);
   (TOKEN, token c); (REFRESH_TOKEN, refresh_token c);
   (INSECURE, insecure c); (JOBS_API_VERSION, jobs_api_version c)].

(** The name of the default section or of a section that can be
    written. *)
Definition safe_profile (p : string) : bool :=
  (p =? DEFAULT_SECTION) || safe_section p.

(** What [_set_option] does to the options of the profile. *)
Definition store_option (d : Dict.t string) (k : string)
    (value : option string) : Dict.t string :=
  match value with
  | Some v => if truthy value then Dict.set k v d else Dict.del k d
  | None => Dict.del k d
  end.

(** The parser with other options for a profile. *)
Definition put_own (raw_config : ConfigParser.t) (profile : string)
    (d : Dict.t string) : ConfigParser.t :=
  if profile =? DEFAULT_SECTION then
    ConfigParser.mk (ConfigParser._sections raw_config) d
  else
    ConfigParser.mk (Dict.set profile d (ConfigParser._sections raw_config))
                    (ConfigParser._defaults raw_config).

(** The options of a profile after the seven fields of a record are
    set. *)
Definition stored (d : Dict.t string) (c : DatabricksConfig) : Dict.t string :=
  fold_left (fun d kv => store_option d (fst kv) (snd kv))
            (profile_options c) d.

(** ** Further worlds used as examples *)

(** A directory with mode [0o755]. *)
Definition directory : OS.File := OS.mkFile (OS.oct [0; 4; 0; 7; 5; 5]) "".

(** The mode of a directory with permission bits [0o600]. *)
Definition mode_directory_rw_owner : Z := OS.oct [0; 4; 0; 6; 0; 0].

(** Nothing is configured, and the home directory exists. *)
Definition home_world : World := with_file "/home/user" directory bare_world.

Definition notes_path : string := "/home/user/notes".

(** A file that is not the profile file. *)
Definition notes_file : OS.File := OS.mkFile mode_rw_all "remember".


(** ** States in which the profile file was written *)

(** The state in which the profile file holds the text of a parser, with
    mode [0o100600]. *)
Definition persisted (raw_config : ConfigParser.t) (st : State) : State :=
  mkState (with_file (config_path (world st))
             (OS.mkFile mode_regular_rw_owner (ConfigParser.write raw_config))
             (world st))
          (_config_provider st) (calls st).

(** A token login. *)
Definition token_config : DatabricksConfig :=
  from_token (Some "https://x") (Some "abc") None None None.

(** ** Errors *)

(** Every error that a computation raises satisfies [P]. *)
Definition raises_only {A} (P : PyError -> Prop) (m : M A) : Prop :=
  forall st err, result_of m st = Raise err -> P err.

(** A field that [ConfigParser.set] refuses: it is not empty and has a
    [%] that is neither doubled nor the start of a reference. *)
Definition refused (value : option string) : bool :=
  match value with
  | Some v =>
      negb (v =? "")
      && match ConfigParser.before_set v with
         | Ok _ => false
         | Raise _ => true
         end
  | None => false
  end.

(** A password login whose password ends in a per cent sign. *)
Definition percent_config : DatabricksConfig :=
  from_password (Some "https://x") (Some "u") (Some "50%") None None.


(** The calls that the default chain makes when no source has a record. *)
Definition all_sources : list Event :=
  [Called DefaultConfigProvider; Called SparkTaskContextConfigProvider;
   Called EnvironmentVariableConfigProvider;
   Called (ProfileConfigProvider DEFAULT_SECTION)].


(** ** Further records, parsers and files used as examples *)


(** A parser with a section whose name is empty, as
    [add_section("")] makes it. *)
Definition empty_name_parser : ConfigParser.t := ConfigParser.mk [("", [])] [].

(** A regular file with no permission bits that holds the text of
    [team_parser]. *)
Definition unreadable_file : OS.File :=
  OS.mkFile (OS.oct [1; 0; 0; 0; 0; 0]) (ConfigParser.write team_parser).

(** [DATABRICKS_CONFIG_FILE] is set to the empty string. *)
Definition empty_path_environ : gmap string string :=
  <[CONFIG_FILE_ENV_VAR := ""]> ∅.

(** * Properties *)

(** ** Dictionaries *)

Section DictFacts.
Context {V : Type}.
Implicit Types d : Dict.t V.

Lemma dict_get_set_eq k v d : Dict.get k (Dict.set k v d) = Some v.
Proof.
  induction d as [|[k' v'] d IH]; simpl.
  - now rewrite String.eqb_refl.
  - destruct (k' =? k) eqn:E; simpl; rewrite E; auto.
Qed.

Lemma dict_get_set_ne k k' v d :
  k <> k' -> Dict.get k' (Dict.set k v d) = Dict.get k' d.
Proof.
  intros Hne. induction d as [|[k0 v0] d IH]; simpl.
  - destruct (k =? k') eqn:E; [apply String.eqb_eq in E; contradiction | reflexivity].
  - destruct (k0 =? k) eqn:E; simpl.
    + apply String.eqb_eq in E; subst k0.
      destruct (k =? k') eqn:E'; [apply String.eqb_eq in E'; contradiction | reflexivity].
    + destruct (k0 =? k'); auto.
Qed.

Lemma dict_get_del_eq k d : Dict.get k (Dict.del k d) = None.
Proof.
  induction d as [|[k' v'] d IH]; simpl; auto.
  destruct (k' =? k) eqn:E; simpl; [|rewrite E]; auto.
Qed.


Lemma dict_del_absent k d : Dict.get k d = None -> Dict.del k d = d.
Proof.
  induction d as [|[k' v'] d IH]; simpl; auto.
  destruct (k' =? k); [discriminate|]. intros H. now rewrite IH.
Qed.

Lemma dict_del_del k d : Dict.del k (Dict.del k d) = Dict.del k d.
Proof. apply dict_del_absent, dict_get_del_eq. Qed.

Lemma dict_set_set k v v' d :
  Dict.set k v (Dict.set k v' d) = Dict.set k v d.
Proof.
  induction d as [|[k' v0] d IH]; simpl.
  - now rewrite String.eqb_refl.
  - destruct (k' =? k) eqn:E; simpl; rewrite E; [reflexivity | now rewrite IH].
Qed.

Lemma dict_has_get k d :
  Dict.has k d = match Dict.get k d with Some _ => true | None => false end.
Proof. reflexivity. Qed.

Lemma dict_get_keys k d v : Dict.get k d = Some v -> In k (Dict.keys d).
Proof.
  induction d as [|[k' v'] d IH]; simpl; [discriminate|].
  destruct (k' =? k) eqn:E.
  - apply String.eqb_eq in E. auto.
  - auto.
Qed.

Lemma dict_keys_set k v d :
  forall x, In x (Dict.keys (Dict.set k v d)) -> x = k \/ In x (Dict.keys d).
Proof.
  induction d as [|[k' v'] d IH]; simpl; intros x.
  - intuition.
  - destruct (k' =? k) eqn:E; simpl; [intuition|].
    intros [->|H]; auto. destruct (IH _ H); auto.
Qed.

Lemma dict_keys_del k d :
  forall x, In x (Dict.keys (Dict.del k d)) -> In x (Dict.keys d).
Proof.
  induction d as [|[k' v'] d IH]; simpl; intros x; auto.
  destruct (k' =? k); simpl; intuition.
Qed.
End DictFacts.

(** ** The state monad *)

Lemma readonly_ret {A} (a : A) : readonly (ret a).
Proof. intros st. reflexivity. Qed.

Lemma readonly_raise {A} (err : PyError) : readonly (@raise A err).
Proof. intros st. reflexivity. Qed.

Lemma readonly_lift {A} (r : PyResult A) : readonly (lift r).
Proof. intros st. reflexivity. Qed.

Lemma readonly_get_world : readonly get_world.
Proof. intros st. reflexivity. Qed.

Lemma readonly_bind {A B} (m : M A) (k : A -> M B) :
  readonly m -> (forall a, readonly (k a)) -> readonly (mbind m k).
Proof.
  intros Hm Hk st. unfold state_after, mbind.
  specialize (Hm st). unfold state_after in Hm.
  destruct (m st) as [[a|err] st']; simpl in *; subst; [apply Hk | reflexivity].
Qed.

Create HintDb readonly.
#[local] Hint Resolve readonly_ret readonly_raise readonly_lift
  readonly_get_world : readonly.

Ltac readonly_step :=
  match goal with
  | |- readonly (mbind _ _) => apply readonly_bind; [|intros ?]
  | |- readonly (match ?x with _ => _ end) => destruct x
  | |- readonly _ => solve [auto with readonly]
  end.

Lemma readonly_get_path : readonly _get_path.
Proof. unfold _get_path. repeat readonly_step. Qed.

Lemma readonly_fetch_from_fs : readonly _fetch_from_fs.
Proof.
  unfold _fetch_from_fs. apply readonly_bind; [apply readonly_get_path|intros path].
  repeat readonly_step.
Qed.

#[local] Hint Resolve readonly_get_path readonly_fetch_from_fs : readonly.

Lemma readonly_spark : readonly SparkTaskContextConfigProvider_get_config.
Proof. unfold SparkTaskContextConfigProvider_get_config. repeat readonly_step. Qed.

Lemma readonly_environment : readonly EnvironmentVariableConfigProvider_get_config.
Proof.
  unfold EnvironmentVariableConfigProvider_get_config. repeat readonly_step.
Qed.

Lemma readonly_profile profile :
  readonly (ProfileConfigProvider_get_config profile).
Proof. unfold ProfileConfigProvider_get_config. repeat readonly_step. Qed.

Lemma record_then_readonly {A} p (body : M A) st :
  readonly body ->
  state_after (mbind (record_call p) (fun _ => body)) st
  = with_calls st (calls st ++ [Called p]).
Proof.
  intros Hbody. unfold state_after, mbind, record_call. simpl.
  apply (Hbody (mkState _ _ _)).
Qed.

#[local] Hint Resolve readonly_spark readonly_environment readonly_profile
  : readonly.

(** A leaf provider's [get_config] records its call and changes nothing
    else. *)
Lemma leaf_state_after p st :
  is_leaf p = true ->
  state_after (provider_get_config p) st
  = with_calls st (calls st ++ [Called p]).
Proof.
  intros Hleaf.
  destruct p; try discriminate; cbn [provider_get_config];
    apply record_then_readonly; auto with readonly; repeat readonly_step.
Qed.

Lemma world_only_bind {A B} (m : M A) (k : A -> M B) :
  (forall st, world (state_after m st) = world st) ->
  world_only m -> (forall a, world_only (k a)) -> world_only (mbind m k).
Proof.
  intros Hp Hm Hk st st' Hw. unfold result_of, mbind.
  pose proof (Hm st st' Hw) as Hres.
  pose proof (Hp st) as H1. pose proof (Hp st') as H2.
  unfold result_of, state_after in *.
  destruct (m st) as [[a|err] s1], (m st') as [[a'|err'] s1'];
    simpl in *; try congruence.
  inversion Hres; subst a'. apply Hk. congruence.
Qed.

Lemma readonly_preserves_world {A} (m : M A) :
  readonly m -> forall st, world (state_after m st) = world st.
Proof. intros H st. now rewrite H. Qed.

Lemma world_only_ret {A} (a : A) : world_only (ret a).
Proof. intros st st' _. reflexivity. Qed.

Lemma world_only_raise {A} (err : PyError) : world_only (@raise A err).
Proof. intros st st' _. reflexivity. Qed.

Lemma world_only_lift {A} (r : PyResult A) : world_only (lift r).
Proof. intros st st' _. reflexivity. Qed.

Lemma world_only_get_world : world_only get_world.
Proof. intros st st' Hw. unfold result_of, get_world. simpl. now rewrite Hw. Qed.

Lemma world_only_record_call p : world_only (record_call p).
Proof. intros st st' _. reflexivity. Qed.

Create HintDb world_only.
#[local] Hint Resolve world_only_ret world_only_raise world_only_lift
  world_only_get_world world_only_record_call : world_only.

Ltac world_only_step :=
  match goal with
  | |- world_only (mbind _ _) =>
      apply world_only_bind;
      [apply readonly_preserves_world; solve [auto with readonly] | | intros ?]
  | |- world_only (match ?x with _ => _ end) => destruct x
  | |- world_only _ => solve [auto with world_only]
  end.

Lemma world_only_get_path : world_only _get_path.
Proof. unfold _get_path. repeat world_only_step. Qed.

#[local] Hint Resolve world_only_get_path : world_only.

Lemma world_only_fetch_from_fs : world_only _fetch_from_fs.
Proof. unfold _fetch_from_fs. repeat world_only_step. Qed.

#[local] Hint Resolve world_only_fetch_from_fs : world_only.

Lemma world_only_spark : world_only SparkTaskContextConfigProvider_get_config.
Proof.
  unfold SparkTaskContextConfigProvider_get_config. repeat world_only_step.
Qed.

Lemma world_only_environment :
  world_only EnvironmentVariableConfigProvider_get_config.
Proof.
  unfold EnvironmentVariableConfigProvider_get_config. repeat world_only_step.
Qed.

Lemma world_only_profile profile :
  world_only (ProfileConfigProvider_get_config profile).
Proof. unfold ProfileConfigProvider_get_config. repeat world_only_step. Qed.

#[local] Hint Resolve world_only_spark world_only_environment
  world_only_profile : world_only.

(** What a leaf provider returns depends on the world only. *)
Lemma leaf_result_world p :
  is_leaf p = true -> world_only (provider_get_config p).
Proof.
  intros Hleaf.
  destruct p; try discriminate; cbn [provider_get_config];
    (apply world_only_bind; [reflexivity | auto with world_only | intros _]);
    auto with world_only.
  apply world_only_bind;
    [apply readonly_preserves_world; auto with readonly
    | auto with world_only | intros w].
  intros st st' _. reflexivity.
Qed.

Lemma run_bind {A B} (m : M A) (k : A -> M B) st :
  mbind m k st
  = match result_of m st with
    | Ok a => k a (state_after m st)
    | Raise err => (Raise err, state_after m st)
    end.
Proof.
  unfold mbind, result_of, state_after. now destruct (m st) as [[a|err] st'].
Qed.

Lemma leaf_run p st :
  is_leaf p = true ->
  provider_get_config p st
  = (result_of (provider_get_config p) st,
     with_calls st (calls st ++ [Called p])).
Proof.
  intros Hleaf. rewrite <- (leaf_state_after p st Hleaf).
  unfold result_of, state_after. now destruct (provider_get_config p st).
Qed.

Lemma leaf_result_same_world p st st' :
  is_leaf p = true -> world st = world st' ->
  result_of (provider_get_config p) st = result_of (provider_get_config p) st'.
Proof. intros Hleaf. now apply leaf_result_world. Qed.

(** ** The credential record *)

(** C1. A record is valid exactly when it is valid with a token or valid
    with a password; it is valid with a token exactly when host and token
    are both present, and valid with a password exactly when host,
    username and password are all present. *)
Theorem validity_predicates (c : DatabricksConfig) :
  (is_valid c = true
   <-> is_valid_with_token c = true \/ is_valid_with_password c = true)
  /\ (is_valid_with_token c = true <-> host c <> None /\ token c <> None)
  /\ (is_valid_with_password c = true
      <-> host c <> None /\ username c <> None /\ password c <> None).
Proof.
  unfold is_valid, is_valid_with_token, is_valid_with_password.
  destruct c as [[h|] [u|] [p|] [t|] r i j]; cbn;
    repeat split; intros; intuition congruence.
Qed.

(** ** The providers return valid records only *)

Lemma returns_valid_bind {A} (m : M A) (k : A -> M (option DatabricksConfig)) :
  (forall a, returns_valid (k a)) -> returns_valid (mbind m k).
Proof.
  intros Hk st c. unfold result_of. rewrite run_bind.
  destruct (result_of m st) as [a|err]; [apply Hk | discriminate].
Qed.

Lemma returns_valid_filter (config : DatabricksConfig) :
  returns_valid (if is_valid config then ret (Some config) else ret None).
Proof.
  intros st c. destruct (is_valid config) eqn:E; cbn; congruence.
Qed.

Lemma returns_valid_none : returns_valid (ret None).
Proof. intros st c. discriminate. Qed.

Lemma spark_returns_valid :
  returns_valid SparkTaskContextConfigProvider_get_config.
Proof.
  unfold SparkTaskContextConfigProvider_get_config.
  apply returns_valid_bind; intros w.
  destruct (_get_spark_task_context_or_none w);
    [apply returns_valid_filter | apply returns_valid_none].
Qed.

Lemma environment_returns_valid :
  returns_valid EnvironmentVariableConfigProvider_get_config.
Proof.
  unfold EnvironmentVariableConfigProvider_get_config.
  apply returns_valid_bind; intros w. apply returns_valid_filter.
Qed.

Lemma profile_returns_valid profile :
  returns_valid (ProfileConfigProvider_get_config profile).
Proof.
  unfold ProfileConfigProvider_get_config.
  repeat (apply returns_valid_bind; intros ?). apply returns_valid_filter.
Qed.

Lemma builtin_leaf_returns_valid p :
  match p with
  | SparkTaskContextConfigProvider | EnvironmentVariableConfigProvider
  | ProfileConfigProvider _ => returns_valid (provider_get_config p)
  | _ => True
  end.
Proof.
  destruct p; try exact I; cbn [provider_get_config];
    apply returns_valid_bind; intros _;
    auto using spark_returns_valid, environment_returns_valid,
      profile_returns_valid.
Qed.

(** ** The default chain *)

(** The default chain, unfolded: the task context first, then the
    environment, then the default profile; the first record that a source
    returns is the result. *)
Lemma default_chain_run st :
  let spark := result_of (provider_get_config SparkTaskContextConfigProvider) st in
  let env := result_of (provider_get_config EnvironmentVariableConfigProvider) st in
  let prof :=
    result_of (provider_get_config (ProfileConfigProvider DEFAULT_SECTION)) st in
  let D := Called DefaultConfigProvider in
  let S := Called SparkTaskContextConfigProvider in
  let E := Called EnvironmentVariableConfigProvider in
  let P := Called (ProfileConfigProvider DEFAULT_SECTION) in
  provider_get_config DefaultConfigProvider st
  = match spark with
    | Ok (Some c) => (Ok (Some c), with_calls st (calls st ++ [D; S]))
    | Raise err => (Raise err, with_calls st (calls st ++ [D; S]))
    | Ok None =>
        match env with
        | Ok (Some c) => (Ok (Some c), with_calls st (calls st ++ [D; S; E]))
        | Raise err => (Raise err, with_calls st (calls st ++ [D; S; E]))
        | Ok None =>
            (match prof with
             | Ok (Some c) => Ok (Some c)
             | Ok None => Ok None
             | Raise err => Raise err
             end,
             with_calls st (calls st ++ [D; S; E; P]))
        end
    end.
Proof.
  intros spark env prof D S E P.
  pose proof (builtin_leaf_returns_valid SparkTaskContextConfigProvider) as VS.
  pose proof (builtin_leaf_returns_valid EnvironmentVariableConfigProvider) as VE.
  pose proof (builtin_leaf_returns_valid (ProfileConfigProvider DEFAULT_SECTION)) as VP.
  cbn beta iota in VS, VE, VP.
  unfold DefaultConfigProvider at 1. cbn [provider_get_config].
  rewrite run_bind. cbn [result_of state_after record_call fst snd].
  cbn [run_chain]. rewrite run_bind, leaf_state_after by reflexivity.
  rewrite (leaf_result_same_world _ _ st) by reflexivity. fold spark.
  specialize (VS st). fold spark in VS.
  destruct spark as [[c|]|err].
  - rewrite (VS c eq_refl). cbn. unfold with_calls. cbn. now rewrite <- app_assoc.
  - clear VS. rewrite run_bind, leaf_state_after by reflexivity.
    rewrite (leaf_result_same_world _ _ st) by reflexivity. fold env.
    specialize (VE st). fold env in VE.
    destruct env as [[c|]|err].
    + rewrite (VE c eq_refl). cbn. unfold with_calls. cbn.
      now rewrite <- !app_assoc.
    + clear VE. rewrite run_bind, leaf_state_after by reflexivity.
      rewrite (leaf_result_same_world _ _ st) by reflexivity. fold prof.
      specialize (VP st). fold prof in VP.
      destruct prof as [[c|]|err].
      * rewrite (VP c eq_refl). cbn. unfold with_calls. cbn.
        now rewrite <- !app_assoc.
      * cbn. unfold with_calls. cbn. now rewrite <- !app_assoc.
      * cbn. unfold with_calls. cbn. now rewrite <- !app_assoc.
    + cbn. unfold with_calls. cbn. now rewrite <- !app_assoc.
  - cbn. unfold with_calls. cbn. now rewrite <- !app_assoc.
Qed.

(** C2. With no override installed, [get_config] consults the task
    context, then the environment, then the default profile, and returns
    the record of the first of them that yields a valid one: the task
    context wins over the environment, and the environment over the
    profile. The calls recorded show the order and that later sources are
    not consulted. *)
Theorem default_chain_first_valid_wins st :
  py_bool (_config_provider st) = false ->
  let spark := result_of (provider_get_config SparkTaskContextConfigProvider) st in
  let env := result_of (provider_get_config EnvironmentVariableConfigProvider) st in
  let prof :=
    result_of (provider_get_config (ProfileConfigProvider DEFAULT_SECTION)) st in
  let D := Called DefaultConfigProvider in
  let S := Called SparkTaskContextConfigProvider in
  let E := Called EnvironmentVariableConfigProvider in
  let P := Called (ProfileConfigProvider DEFAULT_SECTION) in
  (forall c, spark = Ok (Some c) ->
     is_valid c = true /\ result_of get_config st = Ok c
     /\ calls_added get_config st [D; S])
  /\ (spark = Ok None -> forall c, env = Ok (Some c) ->
      is_valid c = true /\ result_of get_config st = Ok c
      /\ calls_added get_config st [D; S; E])
  /\ (spark = Ok None -> env = Ok None -> forall c, prof = Ok (Some c) ->
      is_valid c = true /\ result_of get_config st = Ok c
      /\ calls_added get_config st [D; S; E; P]).
Proof.
  intros Hslot spark env prof D S E P.
  pose proof (builtin_leaf_returns_valid SparkTaskContextConfigProvider st) as VS.
  pose proof (builtin_leaf_returns_valid EnvironmentVariableConfigProvider st) as VE.
  pose proof (builtin_leaf_returns_valid (ProfileConfigProvider DEFAULT_SECTION) st) as VP.
  assert (Hrun : get_config st
                 = match provider_get_config DefaultConfigProvider st with
                   | (Ok (Some c), st') => (Ok c, st')
                   | (Ok None, st') =>
                       (Raise (for_profile (argv0 (world st)) None), st')
                   | (Raise err, st') => (Raise err, st')
                   end).
  { unfold get_config. rewrite Hslot. unfold mbind.
    destruct (provider_get_config DefaultConfigProvider st) as [[[c|]|err] st'];
      reflexivity. }
  unfold calls_added, result_of, state_after. rewrite Hrun, default_chain_run.
  fold spark env prof.
  repeat split; intros.
  all: repeat match goal with H : _ = Ok _ |- _ => rewrite H in * end; cbn; auto.
Qed.

(** The task context wins when the environment is configured too. *)
Lemma default_chain_first_valid_wins_witness :
  let st := state_of (with_task_context task_properties
                        (with_environ token_environ bare_world)) PyNone in
  result_of (provider_get_config EnvironmentVariableConfigProvider) st
  = Ok (Some (mkDatabricksConfig (Some "https://x") None None (Some "abc")
                None None None))
  /\ result_of get_config st
     = Ok (from_token (Some "https://task") (Some "tasktoken") None None None).
Proof.
  intros st. split; [reflexivity|].
  destruct (default_chain_first_valid_wins st eq_refl) as [H _].
  destruct (H (from_token (Some "https://task") (Some "tasktoken") None None None)
              eq_refl) as (_ & R & _).
  exact R.
Defined.

(** ** The override *)

Lemma get_config_with_override st p :
  _config_provider st = PyProvider p ->
  get_config st
  = match provider_get_config p st with
    | (Ok (Some c), st') => (Ok c, st')
    | (Ok None, st') =>
        (Raise (InvalidConfigurationError
                  ("Custom provider returned no DatabricksConfig: "
                   ++ py_str (PyProvider p))), st')
    | (Raise err, st') => (Raise err, st')
    end.
Proof.
  intros Hslot. unfold get_config. rewrite Hslot. cbn [py_bool]. unfold mbind.
  destruct (provider_get_config p st) as [[[c|]|err] st']; reflexivity.
Qed.

(** Every provider's [get_config] records its own call first, then the
    calls that it makes itself, and changes nothing else. *)
Lemma provider_state_after : forall p st,
  exists rest,
    state_after (provider_get_config p) st
    = with_calls st (calls st ++ Called p :: rest).
Proof.
  fix IH 1. intros p st.
  destruct p as [ | | profile | providers | str g].
  - exists []. now apply leaf_state_after.
  - exists []. now apply leaf_state_after.
  - exists []. now apply leaf_state_after.
  - assert (Hloop : forall st1, exists rest,
              state_after (run_chain provider_get_config providers) st1
              = with_calls st1 (calls st1 ++ rest)).
    { revert providers. fix IHl 1. intros [|q l] st1.
      - exists []. unfold with_calls. rewrite app_nil_r. now destruct st1.
      - cbn [run_chain]. unfold state_after. rewrite run_bind.
        destruct (IH q st1) as [r1 Hq]. fold (run_chain provider_get_config l).
        destruct (IHl l (state_after (provider_get_config q) st1)) as [r2 Hl].
        rewrite Hq in Hl. unfold with_calls in Hl.
        cbn [world _config_provider calls] in Hl.
        rewrite <- app_assoc in Hl.
        rewrite Hq. unfold state_after in Hl.
        destruct (result_of (provider_get_config q) st1) as [[c|]|err].
        + destruct (is_valid c).
          * exists (Called q :: r1). reflexivity.
          * exists ((Called q :: r1) ++ r2)%list. exact Hl.
        + exists ((Called q :: r1) ++ r2)%list. exact Hl.
        + exists (Called q :: r1). reflexivity. }
    cbn [provider_get_config]. unfold state_after. rewrite run_bind.
    cbn [result_of state_after record_call fst snd].
    match goal with
    | |- context [run_chain provider_get_config providers ?s] =>
        destruct (Hloop s) as [rest Hrest]
    end.
    exists rest. unfold state_after in Hrest. rewrite Hrest.
    unfold with_calls. cbn [world _config_provider calls].
    now rewrite <- app_assoc.
  - exists []. now apply leaf_state_after.
Qed.

(** C3. When an override is installed, whatever provider it is,
    [get_config] does what the [get_config] of the override does and
    nothing else: the first call recorded is the override's, every
    further call is one that the override made itself (none, for an
    override that is not a chain), and the world is unchanged. When the
    override returns [None], [get_config] raises the error that names
    the override, which is not the "not configured" error of the default
    chain; it does not fall back to the default chain, whatever that
    would have found. *)
Theorem override_returning_none_is_an_error st p :
  _config_provider st = PyProvider p ->
  let err := InvalidConfigurationError
               ("Custom provider returned no DatabricksConfig: "
                ++ py_str (PyProvider p)) in
  state_after get_config st = state_after (provider_get_config p) st
  /\ (exists rest, calls_added get_config st (Called p :: rest))
  /\ (is_leaf p = true -> calls_added get_config st [Called p])
  /\ world (state_after get_config st) = world st
  /\ (result_of (provider_get_config p) st = Ok None ->
      result_of get_config st = Raise err)
  /\ forall argv0 profile, err <> for_profile argv0 profile.
Proof.
  intros Hslot err.
  assert (Hstate : state_after get_config st
                   = state_after (provider_get_config p) st).
  { unfold state_after. rewrite (get_config_with_override st p Hslot).
    now destruct (provider_get_config p st) as [[[c|]|e] st']. }
  destruct (provider_state_after p st) as [rest Hrest].
  split; [exact Hstate|]. split; [|split; [|split; [|split]]].
  - exists rest. unfold calls_added. now rewrite Hstate, Hrest.
  - intros Hleaf. unfold calls_added.
    now rewrite Hstate, (leaf_state_after p st Hleaf).
  - now rewrite Hstate, Hrest.
  - intros Hnone. unfold result_of in *.
    rewrite (get_config_with_override st p Hslot).
    destruct (provider_get_config p st) as [[[c|]|e] st'];
      cbn [fst] in *; try discriminate. reflexivity.
  - intros argv0 [profile|]; unfold err, for_profile; cbn; intros H;
      inversion H.
Qed.

(** The environment holds valid credentials, yet the silent override
    makes [get_config] fail without looking at them. *)
Lemma override_returning_none_is_an_error_witness :
  let st := state_of (with_environ token_environ bare_world)
                     (PyProvider silent_provider) in
  result_of (provider_get_config DefaultConfigProvider) st
  = Ok (Some (mkDatabricksConfig (Some "https://x") None None (Some "abc")
                None None None))
  /\ result_of get_config st
     = Raise (InvalidConfigurationError
                "Custom provider returned no DatabricksConfig: <SilentProvider>")
  /\ calls (state_after get_config st) = [Called silent_provider].
Proof.
  intros st. split; [reflexivity|].
  destruct (override_returning_none_is_an_error st silent_provider eq_refl)
    as (_ & _ & C & _ & R & _).
  split; [exact (R eq_refl) | exact (C eq_refl)].
Defined.

Lemma default_chain_returns_valid st c :
  py_bool (_config_provider st) = false ->
  result_of get_config st = Ok c -> is_valid c = true.
Proof.
  intros Hslot.
  pose proof (builtin_leaf_returns_valid SparkTaskContextConfigProvider st) as VS.
  pose proof (builtin_leaf_returns_valid EnvironmentVariableConfigProvider st) as VE.
  pose proof (builtin_leaf_returns_valid (ProfileConfigProvider DEFAULT_SECTION) st) as VP.
  unfold result_of at 1, get_config. rewrite Hslot, run_bind.
  unfold result_of at 1, state_after. rewrite default_chain_run.
  revert VS VE VP.
  destruct (result_of (provider_get_config SparkTaskContextConfigProvider) st)
    as [[c1|]|err1];
  destruct (result_of (provider_get_config EnvironmentVariableConfigProvider) st)
    as [[c2|]|err2];
  destruct (result_of (provider_get_config (ProfileConfigProvider DEFAULT_SECTION)) st)
    as [[c3|]|err3];
  cbn [fst ret raise]; intros VS VE VP H; inversion H; subst; auto.
Qed.

(** C10. When the installed override returns a record, [get_config]
    returns this record as it is, valid or not; a record that comes out
    of the default chain is always valid. *)
Theorem override_record_is_not_filtered st p c :
  _config_provider st = PyProvider p ->
  result_of (provider_get_config p) st = Ok (Some c) ->
  result_of get_config st = Ok c
  /\ (forall st' c', py_bool (_config_provider st') = false ->
        result_of get_config st' = Ok c' -> is_valid c' = true).
Proof.
  intros Hslot Hsome. split; [|intros; eapply default_chain_returns_valid; eauto].
  unfold result_of in *. rewrite (get_config_with_override st p Hslot).
  destruct (provider_get_config p st) as [[[c0|]|err] st']; cbn in *; congruence.
Qed.

(** An override hands out a record without host, and [get_config]
    passes it on. *)
Lemma override_record_is_not_filtered_witness :
  is_valid empty = false
  /\ result_of get_config (state_of bare_world (PyProvider hostless_provider))
     = Ok empty.
Proof.
  split; [reflexivity|].
  exact (proj1 (override_record_is_not_filtered
                  (state_of bare_world (PyProvider hostless_provider))
                  hostless_provider empty eq_refl eq_refl)).
Defined.

(** What [set_config_provider] does for the values it is meant for:
    [None] and providers are installed, a true value that is no provider
    is refused and the slot keeps its value. *)
Lemma set_config_provider_intended st provider :
  (provider = PyNone \/ isinstance_DatabricksConfigProvider provider = true ->
   set_config_provider provider st
   = (Ok tt, mkState (world st) provider (calls st))
   /\ result_of get_config_provider
        (state_after (set_config_provider provider) st) = Ok provider)
  /\ (isinstance_DatabricksConfigProvider provider = false ->
      py_bool provider = true ->
      exists msg, set_config_provider provider st = (Raise (Exception msg), st)).
Proof.
  split.
  - intros [->|Hinst]; [split; reflexivity|].
    destruct provider; try discriminate. split; reflexivity.
  - intros Hinst Htrue. unfold set_config_provider. rewrite Htrue, Hinst. cbn.
    eauto.
Qed.

(** C8 fails on the code: a value that is neither [None] nor a provider
    but is false as a condition, such as the empty string, is installed
    in the slot and nothing is raised. *)
Theorem falsy_non_provider_is_installed st str :
  isinstance_DatabricksConfigProvider (PyOther str false) = false
  /\ PyOther str false <> PyNone
  /\ set_config_provider (PyOther str false) st
     = (Ok tt, mkState (world st) (PyOther str false) (calls st))
  /\ result_of get_config_provider
       (state_after (set_config_provider (PyOther str false)) st)
     = Ok (PyOther str false).
Proof. repeat split. discriminate. Qed.

(** ** Options of a profile *)

Lemma lower_char_idempotent c :
  Str.lower_char (Str.lower_char c) = Str.lower_char c.
Proof. destruct c as [[] [] [] [] [] [] [] []]; reflexivity. Qed.

Lemma optionxform_idempotent s :
  ConfigParser.optionxform (ConfigParser.optionxform s)
  = ConfigParser.optionxform s.
Proof.
  unfold ConfigParser.optionxform.
  induction s as [|c s IH]; cbn; [reflexivity|].
  now rewrite lower_char_idempotent, IH.
Qed.

Section PlainValues.
Variable self : ConfigParser.t.
Variable sectiondict : Dict.t string.
Variables option section : string.

(** A value without [%] is its own interpolation. *)
Lemma interpolate_loop_plain deeper v :
  Str.contains "%"%char v = false ->
  forall fuel, String.length v <= fuel ->
  ConfigParser.interpolate_loop self sectiondict option section deeper fuel v
  = Ok v.
Proof.
  induction v as [|c v IH]; intros Hplain fuel Hfuel.
  - now destruct fuel.
  - destruct fuel as [|fuel]; [cbn in Hfuel; lia|].
    cbn in Hplain. destruct (Ascii.eqb c "%"%char) eqn:E; [discriminate|].
    cbn [ConfigParser.interpolate_loop]. rewrite E. cbn [negb].
    rewrite IH by (auto; cbn in Hfuel; lia). reflexivity.
Qed.

Lemma before_get_plain v :
  Str.contains "%"%char v = false ->
  ConfigParser.before_get self sectiondict option section v = Ok v.
Proof.
  intros Hplain. unfold ConfigParser.before_get. cbn.
  now apply interpolate_loop_plain.
Qed.
End PlainValues.

(** C9. For a profile other than the default one, an option that is not
    among the section's own entries reads as [None], even where the
    parser's plain [get] answers with the value of the default section. *)
Theorem named_profile_does_not_inherit raw_config profile option :
  profile <> DEFAULT_SECTION ->
  Dict.has option (section_or_empty raw_config profile) = false ->
  _get_option_if_exists raw_config profile option = Ok None
  /\ (forall d v,
        Dict.get profile (ConfigParser._sections raw_config) = Some d ->
        Dict.get (ConfigParser.optionxform option) d = None ->
        Dict.get (ConfigParser.optionxform option)
                 (ConfigParser._defaults raw_config) = Some v ->
        Str.contains "%"%char v = false ->
        ConfigParser.get raw_config profile option = Ok v).
Proof.
  intros Hnamed Habsent. split.
  - unfold _get_option_if_exists.
    destruct (profile =? DEFAULT_SECTION) eqn:E;
      [apply String.eqb_eq in E; contradiction|].
    now rewrite Habsent.
  - intros d v Hd Hown Hdefault Hplain.
    unfold ConfigParser.get, ConfigParser._unify_values. rewrite Hd. cbn.
    unfold ConfigParser.chain_get. rewrite Hown, Hdefault.
    now apply before_get_plain.
Qed.

(** The profile [team] has no host of its own: the lookup yields [None]
    although [get] finds the host of the default section. *)
Lemma named_profile_does_not_inherit_witness :
  _get_option_if_exists team_parser "team" HOST = Ok None
  /\ ConfigParser.get team_parser "team" HOST = Ok "https://h".
Proof.
  assert (Hne : "team" <> DEFAULT_SECTION) by discriminate.
  destruct (named_profile_does_not_inherit team_parser "team" HOST Hne eq_refl)
    as [Hnone Hget].
  split; [exact Hnone|].
  exact (Hget [("token", "t")] "https://h" eq_refl eq_refl eq_refl eq_refl).
Defined.

Lemma dict_get_In {V} k (d : Dict.t V) v : Dict.get k d = Some v -> In (k, v) d.
Proof.
  induction d as [|[k' v'] d IH]; cbn; [discriminate|].
  destruct (k' =? k) eqn:E.
  - apply String.eqb_eq in E. intros H; inversion H; subst. now left.
  - auto.
Qed.

Lemma normal_keys_section raw_config profile d :
  parser_invariant raw_config ->
  Dict.get profile (ConfigParser._sections raw_config) = Some d ->
  normal_keys d.
Proof.
  intros (_ & Hsections & _) Hd. apply dict_get_In in Hd.
  rewrite List.Forall_forall in Hsections. exact (Hsections _ Hd).
Qed.

(** In a dictionary with normalised names, removing the normal form of a
    name leaves no entry under the name itself. *)
Lemma removed_option_is_absent option (d : Dict.t string) :
  normal_keys d ->
  Dict.get option (Dict.del (ConfigParser.optionxform option) d) = None.
Proof.
  intros Hnormal.
  destruct (Dict.get option (Dict.del (ConfigParser.optionxform option) d))
    as [v|] eqn:E; [|reflexivity].
  assert (Hkey : In option (Dict.keys d)).
  { eapply dict_keys_del, dict_get_keys, E. }
  unfold normal_keys in Hnormal. rewrite List.Forall_forall in Hnormal.
  rewrite <- (Hnormal _ Hkey) in E at 1.
  rewrite (Hnormal _ Hkey) in E. rewrite dict_get_del_eq in E. discriminate.
Qed.

Lemma has_section_get raw_config profile :
  ConfigParser.has_section raw_config profile = true ->
  exists d, Dict.get profile (ConfigParser._sections raw_config) = Some d.
Proof.
  unfold ConfigParser.has_section, Dict.has.
  destruct (Dict.get profile (ConfigParser._sections raw_config)); eauto.
  discriminate.
Qed.

Lemma get_plain raw_config section option d v :
  ConfigParser._unify_values raw_config section = Ok d ->
  ConfigParser.chain_get raw_config d (ConfigParser.optionxform option) = Some v ->
  Str.contains "%"%char v = false ->
  ConfigParser.get raw_config section option = Ok v.
Proof.
  intros Hd Hv Hplain. unfold ConfigParser.get. rewrite Hd. cbn [bind].
  rewrite Hv. now apply before_get_plain.
Qed.

(** C7, as the code has it. For a parser built through the interface of
    [ConfigParser] (its option names are lower-case and [DEFAULT] is not
    among its sections) and a profile that is the default section or a
    name, not the empty one, among the parser's sections: setting an
    option to a false value removes it, reading it back gives [None], and
    removing it again changes nothing and raises nothing; setting it to a
    true value that passes the check of the interpolation syntax stores
    this value under the lower-case option name, and a value without [%]
    is read back as it is under the lower-case option name. *)
Theorem set_option_on_present_profile raw_config profile option value :
  parser_invariant raw_config ->
  profile_present raw_config profile ->
  (truthy value = false ->
   exists raw', _set_option raw_config profile option value = Ok raw'
     /\ _get_option_if_exists raw' profile option = Ok None
     /\ _set_option raw' profile option value = Ok raw')
  /\ (forall v, value = Some v -> truthy value = true ->
      ConfigParser.before_set v = Ok v ->
      exists raw', _set_option raw_config profile option value = Ok raw'
        /\ Dict.get (ConfigParser.optionxform option) (own_options raw' profile)
           = Some v
        /\ (Str.contains "%"%char v = false ->
            _get_option_if_exists raw' profile (ConfigParser.optionxform option)
            = Ok (Some v))).
Proof.
  intros Hinv Hpresent.
  assert (Hremove : truthy value = false ->
            _set_option raw_config profile option value
            = ConfigParser.remove_option raw_config profile option).
  { unfold _set_option. destruct value as [v|]; [|reflexivity].
    intros ->. reflexivity. }
  assert (Hremove' : forall raw', truthy value = false ->
            _set_option raw' profile option value
            = ConfigParser.remove_option raw' profile option).
  { intros raw'. unfold _set_option. destruct value as [v|]; [|reflexivity].
    intros ->. reflexivity. }
  destruct Hpresent as [->|[Hnonempty Hsection]].
  - (* the default section *)
    split.
    + intros Hfalse. rewrite Hremove by assumption.
      eexists. split; [reflexivity|]. split.
      * unfold _get_option_if_exists, ConfigParser.has_option. cbn.
        unfold Dict.has. now rewrite dict_get_del_eq.
      * rewrite Hremove' by assumption. unfold ConfigParser.remove_option. cbn.
        now rewrite dict_del_del.
    + intros v -> Htrue Hcheck. unfold _set_option. rewrite Htrue.
      unfold ConfigParser.set. cbn in Htrue.
      destruct (v =? "") eqn:Ev; [discriminate|]. rewrite Hcheck. cbn.
      eexists. split; [reflexivity|]. split.
      * unfold own_options. cbn. apply dict_get_set_eq.
      * intros Hplain.
        unfold _get_option_if_exists, ConfigParser.has_option. cbn.
        unfold Dict.has. rewrite optionxform_idempotent, dict_get_set_eq.
        destruct Hinv as (_ & _ & Hnodefault).
        rewrite (get_plain _ _ _ [] v); auto.
        -- unfold ConfigParser._unify_values. cbn [ConfigParser._sections].
           change DEFAULT_SECTION with ConfigParser.default_section.
           now rewrite Hnodefault, String.eqb_refl.
        -- unfold ConfigParser.chain_get. cbn.
           now rewrite optionxform_idempotent, dict_get_set_eq.
  - (* a named section *)
    destruct (has_section_get _ _ Hsection) as [d Hd].
    assert (Hne : (profile =? "") = false) by now apply String.eqb_neq.
    destruct (profile =? DEFAULT_SECTION) eqn:Edef.
    { apply String.eqb_eq in Edef. subst profile.
      destruct Hinv as (_ & _ & Hnodefault).
      unfold ConfigParser.default_section in Hnodefault.
      unfold DEFAULT_SECTION in Hd. congruence. }
    pose proof (normal_keys_section _ _ _ Hinv Hd) as Hnormal.
    split.
    + intros Hfalse. rewrite Hremove by assumption.
      unfold ConfigParser.remove_option.
      unfold ConfigParser.default_section. unfold DEFAULT_SECTION in Edef.
      rewrite Hne, Edef, Hd. cbn.
      eexists. split; [reflexivity|]. split.
      * unfold _get_option_if_exists. unfold DEFAULT_SECTION. rewrite Edef.
        unfold section_or_empty. cbn. rewrite dict_get_set_eq.
        unfold Dict.has. now rewrite removed_option_is_absent.
      * rewrite Hremove' by assumption. unfold ConfigParser.remove_option.
        unfold ConfigParser.default_section. rewrite Hne, Edef. cbn.
        rewrite dict_get_set_eq. cbn.
        now rewrite dict_del_del, dict_set_set.
    + intros v -> Htrue Hcheck. unfold _set_option. rewrite Htrue.
      unfold ConfigParser.set. cbn in Htrue.
      destruct (v =? "") eqn:Ev; [discriminate|]. rewrite Hcheck. cbn.
      unfold ConfigParser.default_section. unfold DEFAULT_SECTION in Edef.
      rewrite Hne, Edef, Hd. cbn.
      eexists. split; [reflexivity|]. split.
      * unfold own_options, DEFAULT_SECTION. rewrite Edef.
        unfold section_or_empty. cbn. rewrite dict_get_set_eq.
        apply dict_get_set_eq.
      * intros Hplain.
        unfold _get_option_if_exists, DEFAULT_SECTION. rewrite Edef.
        unfold section_or_empty. cbn. rewrite dict_get_set_eq.
        unfold Dict.has. rewrite dict_get_set_eq. cbn [negb].
        rewrite (get_plain _ _ _ (Dict.set (ConfigParser.optionxform option) v d) v);
          auto.
        -- unfold ConfigParser._unify_values. cbn [ConfigParser._sections].
           now rewrite dict_get_set_eq.
        -- unfold ConfigParser.chain_get.
           now rewrite optionxform_idempotent, dict_get_set_eq.
Qed.

Lemma team_parser_invariant : parser_invariant team_parser.
Proof. unfold parser_invariant, normal_keys. cbn. repeat constructor. Defined.

Lemma team_present : profile_present team_parser "team".
Proof. right. split; [discriminate | reflexivity]. Defined.

(** Removing the token of the profile [team], twice. *)
Lemma set_option_on_present_profile_witness :
  exists raw', _set_option team_parser "team" TOKEN None = Ok raw'
    /\ _get_option_if_exists raw' "team" TOKEN = Ok None
    /\ _set_option raw' "team" TOKEN None = Ok raw'.
Proof.
  exact (proj1 (set_option_on_present_profile team_parser "team" TOKEN None
                  team_parser_invariant team_present) eq_refl).
Defined.

(** The empty profile name is left out of C7: the parser writes to the
    default section for it, while the lookup reads the section that is
    named by the empty string. *)
Lemma set_option_on_empty_profile_name :
  exists raw',
    _set_option empty_name_parser "" HOST (Some "h") = Ok raw'
    /\ Dict.get HOST (ConfigParser._defaults raw') = Some "h"
    /\ _get_option_if_exists raw' "" HOST = Ok None.
Proof. eexists. repeat split. Qed.

(** C7 fails as stated: on a parser without the section of the profile,
    removing an option raises [NoSectionError]. *)
Lemma set_option_without_section_raises :
  _set_option ConfigParser.new "team" HOST None = Raise (NoSectionError "team")
  /\ ~ (exists raw', _set_option ConfigParser.new "team" HOST None = Ok raw'
          /\ _get_option_if_exists raw' "team" HOST = Ok None
          /\ _set_option raw' "team" HOST None = Ok raw').
Proof.
  split; [reflexivity|]. intros (raw' & H & _). discriminate.
Qed.

(** ** Writing the profile file *)

Lemma walk_error_OSError fuel : forall fs d path err,
  OS.walk_error fuel fs d path = Some err -> OS.is_OSError err = true.
Proof.
  induction fuel as [|fuel IH]; intros fs d path err; cbn [OS.walk_error];
    destruct (OS.rstrip_slash d =? ""); try discriminate;
    destruct (fs !! d) as [f|];
    try (destruct (OS.S_ISDIR (OS.st_mode f)); intros [= <-]; reflexivity).
  - intros [= <-]. reflexivity.
  - destruct (OS.walk_error fuel fs (OS.holder d) path) as [err'|] eqn:E.
    + intros [= <-]. exact (IH _ _ _ _ E).
    + intros [= <-]. reflexivity.
Qed.

(** A system call on a path that names nothing raises an [OSError]. *)
Lemma lookup_error_OSError fs path :
  OS.is_OSError (OS.lookup_error fs path) = true.
Proof.
  unfold OS.lookup_error. destruct (path =? ""); [reflexivity|].
  match goal with
  | |- context [OS.walk_error ?n ?fs ?d ?p] =>
      destruct (OS.walk_error n fs d p) as [err|] eqn:E
  end; [exact (walk_error_OSError _ _ _ _ _ E) | reflexivity].
Qed.

Lemma create_error_OSError fs path err :
  OS.create_error fs path = Some err -> OS.is_OSError err = true.
Proof.
  unfold OS.create_error. destruct (path =? "");
    [intros [= <-]; reflexivity|].
  match goal with
  | |- context [OS.walk_error ?n ?fs ?d ?p] =>
      destruct (OS.walk_error n fs d p) as [err'|] eqn:E
  end.
  - intros [= <-]. exact (walk_error_OSError _ _ _ _ _ E).
  - destruct (OS.endswith_slash path); [intros [= <-]; reflexivity|].
    discriminate.
Qed.

Lemma get_path_run st : _get_path st = (Ok (config_path (world st)), st).
Proof. reflexivity. Qed.

Lemma regular_type_bits mode :
  OS.S_ISREG mode = true -> Z.land mode OS.S_IFMT = OS.S_IFREG.
Proof. unfold OS.S_ISREG. intros H. now apply Z.eqb_eq in H. Qed.

(** A file created with mode [0o600] under any umask is a regular file. *)
Lemma created_type_bits umask :
  Z.land (Z.lor OS.S_IFREG (Z.land mode_rw_owner (Z.lnot umask))) OS.S_IFMT
  = OS.S_IFREG.
Proof.
  rewrite Z.land_lor_distr_l.
  rewrite (Z.land_comm mode_rw_owner), <- Z.land_assoc.
  change (Z.land mode_rw_owner OS.S_IFMT) with 0%Z.
  rewrite Z.land_0_r, Z.lor_0_r. reflexivity.
Qed.

(** The last two steps of [_overwrite_config] on a path that holds a
    regular file of any mode. *)
Lemma overwrite_existing_regular umask fs path f text :
  fs !! path = Some f -> OS.S_ISREG (OS.st_mode f) = true ->
  let fs1 := if negb (OS.st_mode f =? mode_regular_rw_owner)%Z
             then <[path := OS.mkFile mode_regular_rw_owner (OS.content f)]> fs
             else fs in
  (if negb (OS.st_mode f =? mode_regular_rw_owner)%Z
   then OS.chmod fs path mode_rw_owner else Ok fs) = Ok fs1
  /\ OS.write_text umask fs1 path text
     = Ok (<[path := OS.mkFile mode_regular_rw_owner text]> fs1).
Proof.
  intros Hf Hreg fs1. subst fs1.
  destruct (OS.st_mode f =? mode_regular_rw_owner)%Z eqn:E; cbn [negb].
  - apply Z.eqb_eq in E. split; [reflexivity|].
    unfold OS.write_text. rewrite Hf, E. reflexivity.
  - split.
    + unfold OS.chmod. rewrite Hf, (regular_type_bits _ Hreg). reflexivity.
    + unfold OS.write_text. rewrite lookup_insert_eq. reflexivity.
Qed.

(** [_overwrite_config] on a profile file that can be written: it
    completes and leaves a regular file with permission bits [0o600]
    that holds the text of the parser. *)
Lemma overwrite_config_completes st raw_config :
  persistable (world st) ->
  result_of (_overwrite_config raw_config) st = Ok tt
  /\ exists f,
       fs (world (state_after (_overwrite_config raw_config) st))
         !! config_path (world st) = Some f
       /\ OS.st_mode f = mode_regular_rw_owner
       /\ OS.S_IMODE (OS.st_mode f) = mode_rw_owner
       /\ OS.content f = ConfigParser.write raw_config.
Proof.
  intros Hfile. destruct st as [[env files um home argv spark] slot log].
  unfold persistable in Hfile. cbn [world fs] in Hfile.
  set (w := mkWorld env files um home argv spark) in *.
  set (path := config_path w) in *.
  unfold result_of, state_after, _overwrite_config.
  rewrite run_bind.
  change (result_of _get_path (mkState w slot log)) with (Ok path).
  change (state_after _get_path (mkState w slot log)) with (mkState w slot log).
  cbv beta iota.
  rewrite run_bind. cbn [result_of state_after get_world fst snd world].
  change (fs w) with files. change (umask w) with um.
  destruct Hfile as [[Habsent Hcreate] | (f & Hf & Hreg)].
  - (* the file is created first *)
    set (f0 := OS.mkFile
                 (Z.lor OS.S_IFREG (Z.land mode_rw_owner (Z.lnot um))) "").
    assert (Hreg0 : OS.S_ISREG (OS.st_mode f0) = true).
    { unfold OS.S_ISREG, f0. cbn [OS.st_mode].
      rewrite created_type_bits. reflexivity. }
    destruct (overwrite_existing_regular um (<[path := f0]> files) path f0
                (ConfigParser.write raw_config)
                (lookup_insert_eq _ _ _) Hreg0) as [Hchmod Hwrite].
    unfold OS.path_exists, OS.open_creat. rewrite Habsent, Hcreate.
    cbn [negb]. fold f0.
    unfold mbind, lift, set_fs, get_world, ret.
    cbn [world fs umask environ _home argv0 pyspark _config_provider calls w].
    unfold OS.stat. rewrite lookup_insert_eq. cbn [OS.st_mode].
    destruct (negb (OS.st_mode f0 =? mode_regular_rw_owner)%Z) eqn:E.
    + rewrite Hchmod.
      cbn [world fs umask environ _home argv0 pyspark _config_provider calls].
      rewrite Hwrite. cbn [fst snd world fs]. split; [reflexivity|].
      eexists. rewrite lookup_insert_eq. repeat split.
    + cbn [world fs umask environ _home argv0 pyspark _config_provider calls].
      rewrite Hwrite. cbn [fst snd world fs]. split; [reflexivity|].
      eexists. rewrite lookup_insert_eq. repeat split.
  - (* the file is there *)
    destruct (overwrite_existing_regular um files path f
                (ConfigParser.write raw_config) Hf Hreg) as [Hchmod Hwrite].
    unfold OS.path_exists. rewrite Hf. cbn [negb].
    unfold mbind, lift, set_fs, get_world, ret.
    cbn [world fs umask environ _home argv0 pyspark _config_provider calls w].
    unfold OS.stat. rewrite Hf. cbv beta iota.
    destruct (negb (OS.st_mode f =? mode_regular_rw_owner)%Z) eqn:E.
    + rewrite Hchmod.
      cbn [world fs umask environ _home argv0 pyspark _config_provider calls].
      change (umask w) with um. change (fs w) with files.
      rewrite Hwrite. cbn [fst snd world fs]. split; [reflexivity|].
      eexists. rewrite lookup_insert_eq. repeat split.
    + cbn [world fs umask environ _home argv0 pyspark _config_provider calls].
      change (umask w) with um. change (fs w) with files.
      rewrite Hwrite. cbn [fst snd world fs]. split; [reflexivity|].
      eexists. rewrite lookup_insert_eq. repeat split.
Qed.

(** [_overwrite_config] on a path that names nothing and cannot be
    created: [os.open] raises and nothing has changed. *)
Lemma overwrite_config_blocked st raw_config err :
  fs (world st) !! config_path (world st) = None ->
  OS.create_error (fs (world st)) (config_path (world st)) = Some err ->
  _overwrite_config raw_config st = (Raise err, st).
Proof.
  intros Habsent Hcreate. unfold _overwrite_config.
  rewrite run_bind.
  change (result_of _get_path st) with (Ok (config_path (world st))).
  change (state_after _get_path st) with st.
  cbv beta iota.
  rewrite run_bind. cbn [result_of state_after get_world fst snd].
  unfold OS.path_exists, OS.open_creat. rewrite Habsent, Hcreate.
  reflexivity.
Qed.

(** C4. Let the profile file be absent or a regular file with any
    permission bits. [_overwrite_config] completes exactly when the file
    is there or can be created; and after it completes, the file exists,
    is a regular file whose permission bits are exactly [0o600], and
    holds the text of the parser. *)
Theorem overwrite_config_sets_owner_only_mode st raw_config :
  absent_or_regular (world st) ->
  (result_of (_overwrite_config raw_config) st = Ok tt
   <-> persistable (world st))
  /\ (result_of (_overwrite_config raw_config) st = Ok tt ->
      exists f,
        fs (world (state_after (_overwrite_config raw_config) st))
          !! config_path (world st) = Some f
        /\ OS.st_mode f = mode_regular_rw_owner
        /\ OS.S_IMODE (OS.st_mode f) = mode_rw_owner
        /\ OS.content f = ConfigParser.write raw_config).
Proof.
  intros Hfile.
  assert (Hiff : result_of (_overwrite_config raw_config) st = Ok tt
                 <-> persistable (world st)).
  { split; [|intros Hp; now apply overwrite_config_completes].
    intros Hok. destruct Hfile as [Habsent | Hregular]; [|now right].
    destruct (OS.create_error (fs (world st)) (config_path (world st)))
      as [err|] eqn:Hcreate; [|now left].
    unfold result_of in Hok.
    rewrite (overwrite_config_blocked st raw_config err Habsent Hcreate) in Hok.
    discriminate. }
  split; [exact Hiff|].
  intros Hok. apply overwrite_config_completes. now apply Hiff.
Qed.

(** A file with mode [0o644] is brought to [0o600]. *)
Lemma overwrite_config_sets_owner_only_mode_witness :
  let st := state_of (with_file default_path (OS.mkFile mode_rw_all "old")
                        bare_world) PyNone in
  result_of (_overwrite_config team_parser) st = Ok tt
  /\ exists f,
       fs (world (state_after (_overwrite_config team_parser) st))
         !! config_path (world st) = Some f
       /\ OS.st_mode f = mode_regular_rw_owner
       /\ OS.S_IMODE (OS.st_mode f) = mode_rw_owner
       /\ OS.content f = ConfigParser.write team_parser.
Proof.
  intros st.
  destruct (overwrite_config_sets_owner_only_mode st team_parser)
    as [Hiff Hmode].
  - right. eexists. split; reflexivity.
  - assert (Hok : result_of (_overwrite_config team_parser) st = Ok tt).
    { apply Hiff. right. eexists. split; reflexivity. }
    split; [exact Hok | exact (Hmode Hok)].
Defined.

(** ** The legacy lookup by profile *)

Lemma run_bind_lift {A B} (r : PyResult A) (k : A -> M B) st :
  mbind (lift r) k st
  = match r with
    | Ok a => k a st
    | Raise err => (Raise err, st)
    end.
Proof. unfold mbind, lift. now destruct r. Qed.

Lemma environment_never_raises st :
  exists r, result_of (provider_get_config EnvironmentVariableConfigProvider) st
            = Ok r.
Proof.
  unfold result_of. cbn [provider_get_config]. rewrite run_bind.
  cbn [result_of state_after record_call fst snd].
  unfold EnvironmentVariableConfigProvider_get_config. rewrite run_bind.
  cbn [result_of state_after get_world fst snd].
  match goal with |- context [if ?b then _ else _] => destruct b end;
    cbn; eauto.
Qed.

(** The profile provider returns when the profile file is readable. *)
Lemma profile_provider_total st profile :
  store_readable st profile ->
  exists r, result_of (provider_get_config (ProfileConfigProvider profile)) st
            = Ok r.
Proof.
  intros (raw_config & Hfetch & Hkeys).
  unfold result_of. cbn [provider_get_config]. rewrite run_bind.
  cbn [result_of state_after record_call fst snd].
  set (st1 := mkState _ _ _).
  assert (Hfetch1 : result_of _fetch_from_fs st1 = Ok raw_config).
  { rewrite <- Hfetch. now apply world_only_fetch_from_fs. }
  unfold ProfileConfigProvider_get_config. rewrite run_bind, Hfetch1.
  rewrite readonly_fetch_from_fs.
  assert (Hk : forall k, In k profile_keys ->
                 exists v, _get_option_if_exists raw_config profile k = Ok v)
    by exact Hkeys.
  destruct (Hk HOST) as [v1 H1]; [cbn; tauto|].
  destruct (Hk USERNAME) as [v2 H2]; [cbn; tauto|].
  destruct (Hk PASSWORD) as [v3 H3]; [cbn; tauto|].
  destruct (Hk TOKEN) as [v4 H4]; [cbn; tauto|].
  destruct (Hk REFRESH_TOKEN) as [v5 H5]; [cbn; tauto|].
  destruct (Hk INSECURE) as [v6 H6]; [cbn; tauto|].
  destruct (Hk JOBS_API_VERSION) as [v7 H7]; [cbn; tauto|].
  rewrite !run_bind_lift, H1. rewrite !run_bind_lift, H2.
  rewrite !run_bind_lift, H3. rewrite !run_bind_lift, H4.
  rewrite !run_bind_lift, H5. rewrite !run_bind_lift, H6.
  rewrite !run_bind_lift, H7.
  match goal with |- context [if ?b then _ else _] => destruct b end;
    cbn; eauto.
Qed.

(** C6, as the code has it. [get_config_for_profile] returns, and does
    not raise, whenever the environment yields a valid record or the
    profile file is readable for the profile; it then returns the record
    of the environment if there is one, else the record of the profile
    source if there is one, else the empty record. *)
Theorem get_config_for_profile_returns st profile :
  let p := profile_or_default profile in
  let env := result_of (provider_get_config EnvironmentVariableConfigProvider) st in
  let prof := result_of (provider_get_config (ProfileConfigProvider p)) st in
  (exists c, env = Ok (Some c)) \/ store_readable st p ->
  result_of (get_config_for_profile profile) st
  = Ok (environment_else_profile env prof).
Proof.
  intros p env prof Hok.
  pose proof (builtin_leaf_returns_valid EnvironmentVariableConfigProvider st) as VE.
  fold env in VE.
  unfold result_of at 1, get_config_for_profile. fold p.
  rewrite run_bind, leaf_state_after by reflexivity. fold env.
  destruct (environment_never_raises st) as [r Hr]. fold env in Hr.
  rewrite Hr in *. destruct r as [c|].
  - rewrite (VE c eq_refl). reflexivity.
  - destruct Hok as [[c Hc]|Hstore]; [discriminate|].
    destruct (profile_provider_total st p Hstore) as [r Hp]. fold prof in Hp.
    rewrite run_bind, (leaf_result_same_world _ _ st) by reflexivity.
    fold prof. rewrite Hp. now destruct r.
Qed.

(** A profile without a section in a parsed file is readable: each
    lookup is [None]. *)
Lemma missing_section_is_readable st profile raw_config :
  result_of _fetch_from_fs st = Ok raw_config ->
  profile <> DEFAULT_SECTION ->
  Dict.get profile (ConfigParser._sections raw_config) = None ->
  store_readable st profile.
Proof.
  intros Hfetch Hnamed Hmissing. exists raw_config. split; [exact Hfetch|].
  intros k _. exists None. unfold _get_option_if_exists.
  destruct (profile =? DEFAULT_SECTION) eqn:E;
    [apply String.eqb_eq in E; contradiction|].
  unfold section_or_empty. now rewrite Hmissing.
Qed.

(** An absent profile file is readable for every profile. *)
Lemma absent_file_is_readable st profile :
  fs (world st) !! config_path (world st) = None ->
  store_readable st profile.
Proof.
  intros Habsent. exists ConfigParser.new. split.
  - unfold result_of, _fetch_from_fs. rewrite run_bind.
    change (result_of _get_path st) with (Ok (config_path (world st))).
    change (state_after _get_path st) with st. cbv beta iota.
    rewrite run_bind. cbn [result_of state_after get_world fst snd].
    unfold OS.read_text. rewrite Habsent, lookup_error_OSError. reflexivity.
  - intros k _. exists None. unfold _get_option_if_exists.
    destruct (profile =? DEFAULT_SECTION) eqn:E;
      [apply String.eqb_eq in E; subst profile|]; reflexivity.
Qed.

(** No variable is set and the file has a default section only: the
    profile [team] yields the empty record. *)
Lemma get_config_for_profile_returns_witness :
  let st := state_of (with_file default_path password_file bare_world) PyNone in
  result_of (get_config_for_profile (Some "team")) st = Ok empty
  /\ is_valid empty = false.
Proof.
  intros st. split; [|reflexivity].
  assert (Hfetch : result_of _fetch_from_fs st
                   = Ok (ConfigParser.mk []
                           [("host", "https://y"); ("username", "u");
                            ("password", "p")]))
    by (vm_compute; reflexivity).
  assert (Hstore : store_readable st "team").
  { eapply missing_section_is_readable;
      [exact Hfetch | discriminate | reflexivity]. }
  rewrite (get_config_for_profile_returns st (Some "team") (or_intror Hstore)).
  vm_compute. reflexivity.
Defined.

(** C6 fails as stated: with a profile file that has no section header
    and no credentials in the environment, [get_config_for_profile]
    raises the error of the parser. *)
Lemma get_config_for_profile_raises_on_malformed_file :
  let st := state_of (with_file default_path headerless_file bare_world) PyNone in
  result_of (get_config_for_profile (Some "team")) st
  = Raise (MissingSectionHeaderError 1 "host = x")
  /\ ~ (exists c, result_of (get_config_for_profile (Some "team")) st = Ok c).
Proof.
  intros st.
  assert (H : result_of (get_config_for_profile (Some "team")) st
              = Raise (MissingSectionHeaderError 1 "host = x"))
    by (vm_compute; reflexivity).
  split; [exact H|]. intros [c Hc]. rewrite H in Hc. discriminate.
Qed.

(** ** Strings *)

Lemma append_cons c a b : String c a ++ b = String c (a ++ b).
Proof. reflexivity. Qed.

Lemma append_empty b : "" ++ b = b.
Proof. reflexivity. Qed.

Lemma append_assoc a b c : (a ++ b) ++ c = a ++ (b ++ c).
Proof.
  induction a as [|x a IH]; [reflexivity|].
  rewrite !append_cons. now rewrite IH.
Qed.

Lemma append_empty_r a : a ++ "" = a.
Proof.
  induction a as [|x a IH]; [reflexivity|]. rewrite append_cons. now rewrite IH.
Qed.

Lemma contains_app c a b :
  Str.contains c (a ++ b) = Str.contains c a || Str.contains c b.
Proof.
  induction a as [|x a IH]; [reflexivity|].
  rewrite append_cons. cbn [Str.contains].
  destruct (Ascii.eqb x c); [reflexivity | exact IH].
Qed.

Lemma lines_app a rest :
  Str.contains Str.LF a = false ->
  Str.lines (a ++ String Str.LF rest) = a :: Str.lines rest.
Proof.
  induction a as [|c a IH]; intros Hline.
  - reflexivity.
  - cbn in Hline. destruct (Ascii.eqb c Str.LF) eqn:E; [discriminate|].
    rewrite append_cons. cbn [Str.lines]. rewrite E, (IH Hline). reflexivity.
Qed.

Lemma universal_newlines_id s :
  Str.contains Str.CR s = false -> Str.universal_newlines s = s.
Proof.
  induction s as [|c s IH]; intros Hline; [reflexivity|].
  cbn in Hline. destruct (Ascii.eqb c Str.CR) eqn:E; [discriminate|].
  cbn [Str.universal_newlines]. rewrite E, (IH Hline). reflexivity.
Qed.

Lemma rstrip_app_nonempty a b :
  Str.rstrip b <> "" -> Str.rstrip (a ++ b) = a ++ Str.rstrip b.
Proof.
  intros Hb. induction a as [|c a IH]; [reflexivity|].
  rewrite !append_cons. cbn [Str.rstrip]. rewrite IH.
  destruct (a ++ Str.rstrip b) eqn:E; [|reflexivity].
  destruct a; [rewrite append_empty in E; contradiction
              | rewrite append_cons in E; discriminate].
Qed.

Lemma rstrip_app_space a b :
  Str.rstrip b = "" -> Str.rstrip (a ++ b) = Str.rstrip a.
Proof.
  intros Hb. induction a as [|c a IH]; [exact Hb|].
  rewrite append_cons. cbn [Str.rstrip]. now rewrite IH.
Qed.

Lemma rstrip_idempotent s : Str.rstrip (Str.rstrip s) = Str.rstrip s.
Proof.
  induction s as [|c s IH]; [reflexivity|].
  cbn [Str.rstrip]. destruct (Str.rstrip s) as [|c' r'] eqn:E.
  - destruct (Str.isspace c) eqn:Ec; [reflexivity|]. cbn. now rewrite Ec.
  - cbn [Str.rstrip]. cbn [Str.rstrip] in IH. rewrite IH. reflexivity.
Qed.

Lemma before_last_rbracket_app n :
  ConfigParser.before_last_rbracket (n ++ "]") = Some n.
Proof.
  induction n as [|c n IH]; [reflexivity|].
  rewrite append_cons. cbn [ConfigParser.before_last_rbracket]. now rewrite IH.
Qed.

Lemma split_delimiter_app k c rest :
  Str.contains "="%char k = false -> Str.contains ":"%char k = false ->
  ConfigParser.is_delimiter c = true ->
  ConfigParser.split_delimiter (k ++ String c rest) = Some (k, rest).
Proof.
  intros Heq Hcolon Hc. induction k as [|x k IH].
  - rewrite append_empty. cbn [ConfigParser.split_delimiter]. now rewrite Hc.
  - cbn in Heq, Hcolon.
    destruct (Ascii.eqb x "="%char) eqn:E1; [discriminate|].
    destruct (Ascii.eqb x ":"%char) eqn:E2; [discriminate|].
    rewrite append_cons. cbn [ConfigParser.split_delimiter].
    unfold ConfigParser.is_delimiter at 1. rewrite E1, E2. cbn [orb].
    now rewrite IH.
Qed.

Lemma join_lf_blank l :
  Str.join_lf (l ++ [""])
  = match l with [] => "" | _ => Str.join_lf l ++ String Str.LF "" end.
Proof.
  induction l as [|x l IH]; [reflexivity|].
  destruct l as [|y l]; [reflexivity|].
  change (Str.join_lf ((x :: y :: l) ++ [""]))
    with (x ++ String Str.LF (Str.join_lf ((y :: l) ++ [""]))).
  rewrite IH.
  change (Str.join_lf (x :: y :: l))
    with (x ++ String Str.LF (Str.join_lf (y :: l))).
  rewrite append_assoc, append_cons. reflexivity.
Qed.

Lemma join_value_blank l :
  ConfigParser.join_value (l ++ [""]) = ConfigParser.join_value l.
Proof.
  unfold ConfigParser.join_value. rewrite join_lf_blank.
  destruct l; [reflexivity|]. now apply rstrip_app_space.
Qed.

(** ** The reader on the lines that the writer produces *)

Lemma safe_key_facts k :
  safe_key k = true ->
  (exists c r, k = String c r /\ Str.isspace c = false
     /\ Ascii.eqb c "#"%char = false /\ Ascii.eqb c ";"%char = false
     /\ Ascii.eqb c "["%char = false)
  /\ Str.rstrip k = k
  /\ Str.contains "="%char k = false /\ Str.contains ":"%char k = false
  /\ ConfigParser.optionxform k = k.
Proof.
  unfold safe_key. intros H.
  repeat (apply andb_prop in H; destruct H as [H ?]).
  repeat match goal with
         | H : negb _ = true |- _ => apply negb_true_iff in H
         | H : (_ =? _) = true |- _ => apply String.eqb_eq in H
         end.
  destruct k as [|c r]; [discriminate|].
  repeat (apply andb_prop in H; destruct H as [H ?]).
  repeat match goal with
         | H : negb _ = true |- _ => apply negb_true_iff in H
         end.
  repeat split; eauto 10.
Qed.

Lemma safe_value_facts v :
  safe_value v = true -> Str.lstrip v = v /\ Str.rstrip v = v.
Proof.
  unfold safe_value, stripped. intros H.
  repeat (apply andb_prop in H; destruct H as [H ?]).
  split; now apply String.eqb_eq.
Qed.

Lemma strip_stable v : safe_value v = true -> Str.strip v = v.
Proof.
  intros H. destruct (safe_value_facts v H) as [Hl Hr].
  unfold Str.strip. now rewrite Hl, Hr.
Qed.

(** The text of an option line, without the white space around it. *)
Lemma strip_item_line k v :
  safe_key k = true -> safe_value v = true ->
  Str.strip (item_line (k, v)) = (k ++ " ") ++ String "="%char
                                   (if v =? "" then "" else " " ++ v).
Proof.
  intros Hk Hv.
  destruct (safe_key_facts k Hk) as ((c & r & -> & Hc & _) & Hrk & _).
  destruct (safe_value_facts v Hv) as [_ Hrv].
  unfold item_line, Str.strip. cbn [fst snd].
  rewrite append_cons. cbn [Str.lstrip]. rewrite Hc.
  rewrite <- append_cons.
  destruct (v =? "") eqn:Ev.
  - apply String.eqb_eq in Ev. subst v.
    change (String c r ++ " = " ++ "") with (String c r ++ " =" ++ " ").
    rewrite <- append_assoc, rstrip_app_space by reflexivity.
    rewrite rstrip_app_nonempty by discriminate.
    now rewrite append_assoc.
  - apply String.eqb_neq in Ev.
    replace (String c r ++ " = " ++ v) with ((String c r ++ " = ") ++ v)
      by now rewrite append_assoc.
    rewrite rstrip_app_nonempty by (rewrite Hrv; exact Ev).
    rewrite Hrv. now rewrite !append_assoc.
Qed.

Lemma optcre_item_line k v :
  safe_key k = true -> safe_value v = true ->
  ConfigParser.optcre_match (Str.strip (item_line (k, v))) = Some (k, v).
Proof.
  intros Hk Hv. rewrite (strip_item_line k v Hk Hv).
  destruct (safe_key_facts k Hk) as (_ & Hrk & Heq & Hcolon & _).
  destruct (safe_value_facts v Hv) as [Hlv _].
  unfold ConfigParser.optcre_match.
  rewrite split_delimiter_app;
    [| rewrite contains_app, Heq; reflexivity
     | rewrite contains_app, Hcolon; reflexivity
     | reflexivity].
  rewrite rstrip_app_space, Hrk by reflexivity.
  destruct (v =? "") eqn:Ev.
  - apply String.eqb_eq in Ev. now subst v.
  - rewrite append_cons, append_empty. cbn [Str.lstrip].
    change (Str.isspace " "%char) with true. cbv iota. now rewrite Hlv.
Qed.

Lemma sectcre_other c s :
  Ascii.eqb c "["%char = false -> ConfigParser.sectcre_match (String c s) = None.
Proof.
  destruct c as [[] [] [] [] [] [] [] []]; intros H; try reflexivity;
    discriminate.
Qed.

Lemma continuation_line_flush value st :
  ConfigParser.continuation_line 0 value st = None.
Proof.
  unfold ConfigParser.continuation_line.
  destruct (ConfigParser.current_option st) as [[sn on]|]; reflexivity.
Qed.

(** An option line adds the option to the current section. *)
Lemma read_line_item lineno k v sn st :
  safe_key k = true -> safe_value v = true ->
  ConfigParser.sectname st = Some sn ->
  ConfigParser.added (inr (sn, k)) st = false ->
  ConfigParser.read_line lineno (item_line (k, v)) st
  = Ok (item_state sn k v st).
Proof.
  intros Hk Hv Hsn Hfresh.
  pose proof (optcre_item_line k v Hk Hv) as Hopt.
  pose proof (strip_item_line k v Hk Hv) as Hstrip.
  destruct (safe_key_facts k Hk)
    as ((c & r & Hkc & Hc & Hhash & Hsemi & Hbracket) & Hrk & _ & _ & Hlower).
  assert (Hhead : exists rest, Str.strip (item_line (k, v)) = String c rest).
  { rewrite Hstrip, Hkc. rewrite !append_cons. eauto. }
  destruct Hhead as [rest Hhead].
  assert (Hindent : Str.indent (item_line (k, v)) = 0).
  { unfold item_line. cbn [fst snd]. rewrite Hkc, append_cons.
    cbn [Str.indent]. now rewrite Hc. }
  unfold ConfigParser.read_line. cbv zeta.
  unfold ConfigParser.is_comment. rewrite Hindent, continuation_line_flush.
  rewrite Hopt. rewrite Hhead. rewrite Hhash, Hsemi. cbn [orb].
  change (String c rest =? "") with false. cbv iota.
  rewrite (sectcre_other c rest Hbracket).
  cbn [ConfigParser.sectname]. rewrite Hsn.
  assert (Hne : (k =? "") = false) by (rewrite Hkc; reflexivity).
  rewrite Hne, Hrk, Hlower.
  unfold ConfigParser.added in *. cbn [ConfigParser.elements_added].
  rewrite Hfresh. rewrite (strip_stable v Hv).
  unfold item_state. rewrite Hsn. reflexivity.
Qed.

(** The header line of a section that the reader has not met opens the
    section. *)
Lemma read_line_header lineno n st :
  n <> "" ->
  Dict.has n (ConfigParser.r_sections st) = false ->
  ConfigParser.read_line lineno ("[" ++ n ++ "]") st = Ok (header_state n st).
Proof.
  intros Hn Hfresh.
  assert (Hstrip : Str.strip ("[" ++ n ++ "]") = "[" ++ n ++ "]").
  { unfold Str.strip. rewrite append_cons, append_empty. cbn [Str.lstrip].
    change (Str.isspace "["%char) with false. cbv iota.
    rewrite <- append_cons. rewrite rstrip_app_nonempty by discriminate.
    reflexivity. }
  assert (Hmatch : ConfigParser.sectcre_match ("[" ++ n ++ "]") = Some n).
  { rewrite append_cons, append_empty. cbn [ConfigParser.sectcre_match].
    rewrite before_last_rbracket_app. destruct n; [contradiction|reflexivity]. }
  unfold ConfigParser.read_line. cbv zeta.
  unfold ConfigParser.is_comment. rewrite Hstrip.
  rewrite Hmatch.
  rewrite append_cons at 1. cbv iota.
  change (Ascii.eqb "["%char "#"%char || Ascii.eqb "["%char ";"%char) with false.
  cbv iota.
  change (Str.indent (String "["%char ("" ++ n ++ "]"))) with 0.
  rewrite append_cons at 1.
  change (String "["%char ("" ++ n ++ "]") =? "") with false. cbv iota.
  rewrite continuation_line_flush.
  cbn [ConfigParser.r_sections ConfigParser.r_defaults ConfigParser.sectname
       ConfigParser.indent_level ConfigParser.elements_added ConfigParser.e].
  rewrite Hfresh. unfold header_state.
  destruct (n =? ConfigParser.default_section); reflexivity.
Qed.

(** An empty line is added to the value of the current option, if there
    is one. *)
Lemma read_line_blank lineno st :
  ConfigParser.read_line lineno "" st = Ok (blank_state st).
Proof.
  unfold ConfigParser.read_line, blank_state. cbn.
  now destruct (ConfigParser.current_option st) as [[sn on]|].
Qed.

(** ** Dictionaries whose values are mapped *)

Section DictMap.
Context {V W : Type} (f : V -> W).
Let F := fun kv : string * V => (fst kv, f (snd kv)).

Lemma dict_get_map k (d : Dict.t V) :
  Dict.get k (map F d) = option_map f (Dict.get k d).
Proof.
  induction d as [|[k' v'] d IH]; [reflexivity|].
  cbn. destruct (k' =? k); [reflexivity | exact IH].
Qed.

Lemma dict_has_map k (d : Dict.t V) : Dict.has k (map F d) = Dict.has k d.
Proof. unfold Dict.has. rewrite dict_get_map. now destruct (Dict.get k d). Qed.

Lemma dict_set_map k v (d : Dict.t V) :
  map F (Dict.set k v d) = Dict.set k (f v) (map F d).
Proof.
  induction d as [|[k' v'] d IH]; [reflexivity|].
  cbn. destruct (k' =? k); cbn; [reflexivity | now rewrite IH].
Qed.
End DictMap.

Lemma dict_set_same {V} k (v : V) d : Dict.get k d = Some v -> Dict.set k v d = d.
Proof.
  induction d as [|[k' v'] d IH]; cbn; [discriminate|].
  destruct (k' =? k) eqn:E.
  - intros H; inversion H; now subst.
  - intros H. now rewrite IH.
Qed.

Lemma dict_set_absent {V} k (v : V) d :
  Dict.get k d = None -> Dict.set k v d = (d ++ [(k, v)])%list.
Proof.
  induction d as [|[k' v'] d IH]; cbn; [reflexivity|].
  destruct (k' =? k); [discriminate|]. intros H. now rewrite IH.
Qed.

Lemma dict_get_app_absent {V} k (d d' : Dict.t V) :
  Dict.get k d = None -> Dict.get k (d ++ d')%list = Dict.get k d'.
Proof.
  induction d as [|[k' v'] d IH]; cbn; [reflexivity|].
  destruct (k' =? k); [discriminate | exact IH].
Qed.

Lemma dict_set_app_absent {V} k (v : V) (d d' : Dict.t V) :
  Dict.get k d = None ->
  Dict.set k v (d ++ d')%list = (d ++ Dict.set k v d')%list.
Proof.
  induction d as [|[k' v'] d IH]; cbn; [reflexivity|].
  destruct (k' =? k); [discriminate|]. intros H. now rewrite IH.
Qed.

Lemma dict_has_set {V} k k' (v : V) d :
  Dict.has k' (Dict.set k v d) = (k =? k') || Dict.has k' d.
Proof.
  unfold Dict.has. destruct (k =? k') eqn:E.
  - apply String.eqb_eq in E. subst k'. now rewrite dict_get_set_eq.
  - apply String.eqb_neq in E. now rewrite dict_get_set_ne.
Qed.

(** ** The current section of the reader *)

Lemma cursect_set_same sn d st :
  ConfigParser.cursect sn (ConfigParser.set_cursect sn d st) = d.
Proof.
  unfold ConfigParser.cursect, ConfigParser.set_cursect.
  destruct (sn =? ConfigParser.default_section); cbn; [reflexivity|].
  now rewrite dict_get_set_eq.
Qed.

Lemma cursect_set_other s sn d st :
  s <> sn ->
  ConfigParser.cursect s (ConfigParser.set_cursect sn d st)
  = ConfigParser.cursect s st.
Proof.
  intros Hne. unfold ConfigParser.cursect, ConfigParser.set_cursect.
  destruct (sn =? ConfigParser.default_section) eqn:E1;
    destruct (s =? ConfigParser.default_section) eqn:E2; cbn;
    try reflexivity.
  - apply String.eqb_eq in E1, E2. congruence.
  - rewrite dict_get_set_ne by congruence. reflexivity.
Qed.

Lemma set_cursect_fields sn d st :
  ConfigParser.sectname (ConfigParser.set_cursect sn d st) = ConfigParser.sectname st
  /\ ConfigParser.optname (ConfigParser.set_cursect sn d st) = ConfigParser.optname st
  /\ ConfigParser.indent_level (ConfigParser.set_cursect sn d st)
     = ConfigParser.indent_level st
  /\ ConfigParser.elements_added (ConfigParser.set_cursect sn d st)
     = ConfigParser.elements_added st
  /\ ConfigParser.e (ConfigParser.set_cursect sn d st) = ConfigParser.e st
  /\ Dict.get ConfigParser.default_section
       (ConfigParser.r_sections (ConfigParser.set_cursect sn d st))
     = Dict.get ConfigParser.default_section (ConfigParser.r_sections st).
Proof.
  unfold ConfigParser.set_cursect.
  destruct (sn =? ConfigParser.default_section) eqn:E; cbn; repeat split.
  apply String.eqb_neq in E. now rewrite dict_get_set_ne.
Qed.

(** Replacing the current section by one with the same joined values
    does not change the view. *)
Lemma view_set_cursect sn d st :
  view (ConfigParser.set_cursect sn d st)
  = if sn =? ConfigParser.default_section then
      ConfigParser.mk (ConfigParser._sections (view st))
                      (ConfigParser.join_options d)
    else
      ConfigParser.mk
        (Dict.set sn (ConfigParser.join_options d)
                  (ConfigParser._sections (view st)))
        (ConfigParser._defaults (view st)).
Proof.
  unfold view, ConfigParser.set_cursect.
  destruct (sn =? ConfigParser.default_section); cbn; [reflexivity|].
  now rewrite (dict_set_map ConfigParser.join_options).
Qed.

Lemma join_options_cursect sn st :
  ConfigParser.join_options (ConfigParser.cursect sn st)
  = if sn =? ConfigParser.default_section
    then ConfigParser._defaults (view st)
    else section_or_empty (view st) sn.
Proof.
  unfold ConfigParser.cursect, section_or_empty, view.
  destruct (sn =? ConfigParser.default_section); cbn; [reflexivity|].
  rewrite (dict_get_map ConfigParser.join_options).
  now destruct (Dict.get sn (ConfigParser.r_sections st)).
Qed.

Lemma join_options_set k l d :
  ConfigParser.join_options (Dict.set k l d)
  = Dict.set k (ConfigParser.join_value l) (ConfigParser.join_options d).
Proof. unfold ConfigParser.join_options. apply dict_set_map. Qed.

Lemma view_item sn k v st :
  safe_value v = true ->
  view (item_state sn k v st) = with_option (view st) sn k v.
Proof.
  intros Hv. unfold item_state. cbv zeta. rewrite view_set_cursect.
  rewrite join_options_set.
  replace (ConfigParser.join_value [v]) with v
    by (unfold ConfigParser.join_value; cbn [Str.join_lf];
        now destruct (safe_value_facts v Hv) as [_ ->]).
  match goal with
  | |- context [ConfigParser.cursect sn ?s] =>
      replace (ConfigParser.cursect sn s) with (ConfigParser.cursect sn st)
        by reflexivity;
      replace (view s) with (view st) by reflexivity
  end.
  rewrite join_options_cursect. unfold with_option.
  destruct (sn =? ConfigParser.default_section); reflexivity.
Qed.

Lemma view_header n st : view (header_state n st) = with_section (view st) n.
Proof.
  unfold header_state, with_section, view.
  destruct (n =? ConfigParser.default_section); cbn; [reflexivity|].
  now rewrite (dict_set_map ConfigParser.join_options).
Qed.

Lemma view_blank st : view (blank_state st) = view st.
Proof.
  unfold blank_state.
  destruct (ConfigParser.current_option st) as [[sn on]|]; [|reflexivity].
  unfold ConfigParser.append_value.
  destruct (Dict.get on (ConfigParser.cursect sn st)) as [l|] eqn:El;
    [|reflexivity].
  rewrite view_set_cursect, join_options_set, join_value_blank.
  assert (Hsame : Dict.set on (ConfigParser.join_value l)
                    (ConfigParser.join_options (ConfigParser.cursect sn st))
                  = ConfigParser.join_options (ConfigParser.cursect sn st)).
  { apply dict_set_same. unfold ConfigParser.join_options.
    rewrite (dict_get_map ConfigParser.join_value), El. reflexivity. }
  rewrite Hsame. clear Hsame.
  unfold ConfigParser.cursect in *. unfold view.
  destruct (sn =? ConfigParser.default_section); [reflexivity|].
  cbn [ConfigParser._sections ConfigParser._defaults].
  destruct (Dict.get sn (ConfigParser.r_sections st)) as [d|] eqn:Ed;
    [|discriminate].
  f_equal. apply dict_set_same.
  rewrite (dict_get_map ConfigParser.join_options), Ed. reflexivity.
Qed.

(** ** The invariant of the reader *)

Lemma reader_ok_start : reader_ok ConfigParser.read_start.
Proof.
  unfold reader_ok. repeat split; try reflexivity.
  - intros s k H. discriminate.
  - intros sn on H. discriminate.
Qed.

Lemma reader_ok_header n st :
  reader_ok st ->
  Dict.has n (ConfigParser.r_sections st) = false ->
  reader_ok (header_state n st).
Proof.
  intros (He & Hi & Hd & Ha & Hc) Hfresh. unfold header_state.
  destruct (n =? ConfigParser.default_section) eqn:En;
    unfold reader_ok; cbn; repeat split; auto; try discriminate.
  - apply String.eqb_neq in En. now rewrite dict_get_set_ne.
  - intros s k Hadded.
    change (ConfigParser.added (inr (s, k)) st = true) in Hadded.
    specialize (Ha s k Hadded).
    unfold ConfigParser.cursect in *. cbn.
    destruct (s =? ConfigParser.default_section); [exact Ha|].
    destruct (String.eqb_spec n s) as [->|Hne].
    + unfold Dict.has in Hfresh.
      destruct (Dict.get s (ConfigParser.r_sections st)); [discriminate|].
      discriminate.
    + now rewrite dict_get_set_ne.
Qed.

Lemma reader_ok_item sn k v st :
  reader_ok st ->
  ConfigParser.sectname st = Some sn ->
  k <> "" ->
  reader_ok (item_state sn k v st).
Proof.
  intros (He & Hi & Hd & Ha & Hc) Hsn Hk. unfold item_state. cbv zeta.
  set (st' := ConfigParser.mkRead _ _ _ _ _ _ _).
  destruct (set_cursect_fields sn
              (Dict.set k [v] (ConfigParser.cursect sn st')) st')
    as (Fs & Fo & Fi & Fa & Fe & Fd).
  unfold reader_ok. rewrite Fe, Fi, Fd. repeat split; auto.
  - intros s k' Hadded. unfold ConfigParser.added in Hadded.
    rewrite Fa in Hadded. cbn [ConfigParser.elements_added st' existsb] in Hadded.
    destruct (String.eqb_spec s sn) as [->|Hne].
    + rewrite cursect_set_same, dict_has_set.
      apply orb_true_iff in Hadded. destruct Hadded as [Hnew|Hold].
      * cbn in Hnew. apply andb_prop in Hnew. destruct Hnew as [_ Hnew].
        apply String.eqb_eq in Hnew. subst k'. now rewrite String.eqb_refl.
      * rewrite (Ha sn k' Hold : Dict.has k' (ConfigParser.cursect sn st') = true).
        apply orb_true_r.
    + rewrite cursect_set_other by exact Hne.
      apply orb_true_iff in Hadded. destruct Hadded as [Hnew|Hold].
      * cbn in Hnew. apply andb_prop in Hnew. destruct Hnew as [Hnew _].
        apply String.eqb_eq in Hnew. contradiction.
      * exact (Ha s k' Hold).
  - intros sn' on Hcur. unfold ConfigParser.current_option in Hcur.
    rewrite Fs, Fo in Hcur. cbn [ConfigParser.sectname ConfigParser.optname st'] in Hcur.
    rewrite Hsn in Hcur. destruct k as [|c r]; [contradiction|].
    inversion Hcur; subst sn' on.
    rewrite cursect_set_same, dict_has_set. now rewrite String.eqb_refl.
Qed.

Lemma reader_ok_blank st : reader_ok st -> reader_ok (blank_state st).
Proof.
  intros Hok. unfold blank_state.
  destruct (ConfigParser.current_option st) as [[sn on]|] eqn:Ecur; [|exact Hok].
  unfold ConfigParser.append_value.
  destruct (Dict.get on (ConfigParser.cursect sn st)) as [l|] eqn:El;
    [|exact Hok].
  destruct Hok as (He & Hi & Hd & Ha & Hc).
  destruct (set_cursect_fields sn
              (Dict.set on (l ++ [""])%list (ConfigParser.cursect sn st)) st)
    as (Fs & Fo & Fi & Fa & Fe & Fd).
  assert (Hhas : forall s k,
             Dict.has k (ConfigParser.cursect s st) = true ->
             Dict.has k (ConfigParser.cursect s
                           (ConfigParser.set_cursect sn
                              (Dict.set on (l ++ [""])%list
                                 (ConfigParser.cursect sn st)) st)) = true).
  { intros s k H. destruct (String.eqb_spec s sn) as [->|Hne].
    - rewrite cursect_set_same, dict_has_set, H. apply orb_true_r.
    - now rewrite cursect_set_other. }
  unfold reader_ok. rewrite Fe, Fi, Fd. repeat split; auto.
  - intros s k Hadded. apply Hhas, Ha.
    unfold ConfigParser.added in *. now rewrite Fa in Hadded.
  - intros sn' on' Hcur. apply Hhas, Hc.
    unfold ConfigParser.current_option in *. now rewrite Fs, Fo in Hcur.
Qed.

Lemma blank_state_sectname st :
  ConfigParser.sectname (blank_state st) = ConfigParser.sectname st.
Proof.
  unfold blank_state.
  destruct (ConfigParser.current_option st) as [[sn on]|]; [|reflexivity].
  unfold ConfigParser.append_value.
  destruct (Dict.get on (ConfigParser.cursect sn st)); [|reflexivity].
  apply set_cursect_fields.
Qed.

Lemma item_state_sectname sn k v st :
  ConfigParser.sectname (item_state sn k v st) = ConfigParser.sectname st.
Proof.
  unfold item_state. cbv zeta.
  exact (proj1 (set_cursect_fields _ _ _)).
Qed.

(** ** Reading the lines of a section *)

Lemma read_lines_app l1 l2 lineno st :
  ConfigParser.read_lines lineno (l1 ++ l2)%list st
  = (let* st' := ConfigParser.read_lines lineno l1 st in
     ConfigParser.read_lines (lineno + length l1) l2 st').
Proof.
  revert lineno st. induction l1 as [|x l1 IH]; intros lineno st.
  - cbn. now rewrite Nat.add_0_r.
  - cbn [app ConfigParser.read_lines length].
    destruct (ConfigParser.read_line lineno x st) as [st'|err]; cbn [bind];
      [|reflexivity].
    rewrite IH. now rewrite Nat.add_succ_comm.
Qed.

(** The options of the current section, seen through the view. *)
Lemma has_cursect_view sn k st :
  Dict.has k (ConfigParser.cursect sn st)
  = Dict.has k (if sn =? ConfigParser.default_section
                then ConfigParser._defaults (view st)
                else section_or_empty (view st) sn).
Proof.
  rewrite <- join_options_cursect. unfold ConfigParser.join_options.
  now rewrite (dict_has_map ConfigParser.join_value).
Qed.

Lemma has_with_option c sn k v k' :
  Dict.has k' (if sn =? ConfigParser.default_section
               then ConfigParser._defaults (with_option c sn k v)
               else section_or_empty (with_option c sn k v) sn)
  = (k =? k')
    || Dict.has k' (if sn =? ConfigParser.default_section
                    then ConfigParser._defaults c
                    else section_or_empty c sn).
Proof.
  unfold with_option, section_or_empty.
  destruct (sn =? ConfigParser.default_section); cbn.
  - apply dict_has_set.
  - rewrite dict_get_set_eq. apply dict_has_set.
Qed.

Lemma read_items items : forall lineno st sn,
  reader_ok st ->
  ConfigParser.sectname st = Some sn ->
  forallb (fun kv => safe_key (fst kv) && safe_value (snd kv)) items = true ->
  nodupb (Dict.keys items) = true ->
  (forall k, In k (Dict.keys items) ->
     Dict.has k (ConfigParser.cursect sn st) = false) ->
  exists st',
    ConfigParser.read_lines lineno (map item_line items) st = Ok st'
    /\ reader_ok st'
    /\ ConfigParser.sectname st' = Some sn
    /\ view st'
       = fold_left (fun c kv => with_option c sn (fst kv) (snd kv)) items
                   (view st).
Proof.
  induction items as [|[k v] items IH]; intros lineno st sn Hok Hsn Hsafe Hnodup Hfresh.
  - exists st. split; [reflexivity|]. split; [exact Hok|].
    split; [exact Hsn | reflexivity].
  - cbn [forallb fst snd] in Hsafe. apply andb_prop in Hsafe.
    destruct Hsafe as [Hkv Hsafe]. apply andb_prop in Hkv.
    destruct Hkv as [Hk Hv].
    cbn [Dict.keys map fst nodupb] in Hnodup. apply andb_prop in Hnodup.
    destruct Hnodup as [Hk_new Hnodup]. apply negb_true_iff in Hk_new.
    assert (Hk_ne : k <> "").
    { destruct (safe_key_facts k Hk) as ((c & r & -> & _) & _). discriminate. }
    assert (Hadded : ConfigParser.added (inr (sn, k)) st = false).
    { destruct (ConfigParser.added (inr (sn, k)) st) eqn:E; [|reflexivity].
      destruct Hok as (_ & _ & _ & Ha & _). specialize (Ha sn k E).
      rewrite Hfresh in Ha; [discriminate | now left]. }
    cbn [map ConfigParser.read_lines].
    rewrite (read_line_item lineno k v sn st Hk Hv Hsn Hadded). cbn [bind].
    destruct (IH (S lineno) (item_state sn k v st) sn) as (st' & Hrun & Hok' & Hsn' & Hview).
    + now apply reader_ok_item.
    + now rewrite item_state_sectname.
    + exact Hsafe.
    + exact Hnodup.
    + intros k' Hin. rewrite has_cursect_view, view_item by exact Hv.
      rewrite has_with_option, <- has_cursect_view.
      rewrite Hfresh by now right.
      destruct (String.eqb_spec k k') as [->|Hne]; [|reflexivity].
      exfalso. clear - Hk_new Hin.
      assert (H : existsb (String.eqb k') (Dict.keys items) = true).
      { apply existsb_exists. exists k'. split; [exact Hin | apply String.eqb_refl]. }
      unfold Dict.keys in H. congruence.
    + exists st'. split; [exact Hrun|]. split; [exact Hok'|].
      split; [exact Hsn'|].
      rewrite Hview, view_item by exact Hv. reflexivity.
Qed.

Lemma header_state_sectname n st :
  ConfigParser.sectname (header_state n st) = Some n.
Proof.
  unfold header_state. now destruct (n =? ConfigParser.default_section).
Qed.

(** The lines of a section of the written file bring the reader to the
    parser extended by this section. *)
Lemma read_block n items lineno st :
  reader_ok st ->
  n <> "" ->
  Dict.has n (ConfigParser.r_sections st) = false ->
  forallb (fun kv => safe_key (fst kv) && safe_value (snd kv)) items = true ->
  nodupb (Dict.keys items) = true ->
  (forall k, In k (Dict.keys items) ->
     Dict.has k (ConfigParser.cursect n (header_state n st)) = false) ->
  exists st',
    ConfigParser.read_lines lineno (block_lines n items) st = Ok st'
    /\ reader_ok st'
    /\ view st'
       = fold_left (fun c kv => with_option c n (fst kv) (snd kv)) items
                   (with_section (view st) n).
Proof.
  intros Hok Hn Hfresh Hsafe Hnodup Hkeys.
  unfold block_lines. cbn [ConfigParser.read_lines].
  rewrite (read_line_header lineno n st Hn Hfresh). cbn [bind].
  rewrite read_lines_app.
  destruct (read_items items (S lineno) (header_state n st) n)
    as (st1 & Hrun & Hok1 & Hsn1 & Hview1); auto.
  - now apply reader_ok_header.
  - apply header_state_sectname.
  - rewrite Hrun. cbn [bind ConfigParser.read_lines].
    rewrite read_line_blank. cbn [bind].
    exists (blank_state st1). split; [reflexivity|].
    split; [now apply reader_ok_blank|].
    now rewrite view_blank, Hview1, view_header.
Qed.

(** ** Rebuilding a parser option by option *)

Lemma nodupb_cons_fresh k (l : list string) k' :
  existsb (String.eqb k) l = false -> In k' l -> k <> k'.
Proof.
  intros Hfresh Hin Heq. subst k'.
  assert (H : existsb (String.eqb k) l = true).
  { apply existsb_exists. exists k. split; [exact Hin | apply String.eqb_refl]. }
  congruence.
Qed.

Lemma dict_get_none_keys {V} k (d : Dict.t V) :
  existsb (String.eqb k) (Dict.keys d) = false -> Dict.get k d = None.
Proof.
  induction d as [|[k' v'] d IH]; [reflexivity|].
  cbn. rewrite String.eqb_sym.
  destruct (k' =? k); [discriminate | exact IH].
Qed.

Lemma dict_keys_get_none {V} k (d : Dict.t V) :
  Dict.get k d = None -> existsb (String.eqb k) (Dict.keys d) = false.
Proof.
  induction d as [|[k' v'] d IH]; [reflexivity|].
  cbn. rewrite (String.eqb_sym k k').
  destruct (k' =? k); [discriminate | exact IH].
Qed.

Lemma fold_with_option_named n secs defs items : forall acc,
  n <> ConfigParser.default_section ->
  Dict.get n secs = None ->
  nodupb (Dict.keys items) = true ->
  (forall k, In k (Dict.keys items) -> Dict.get k acc = None) ->
  fold_left (fun c kv => with_option c n (fst kv) (snd kv)) items
            (ConfigParser.mk (secs ++ [(n, acc)])%list defs)
  = ConfigParser.mk (secs ++ [(n, (acc ++ items)%list)])%list defs.
Proof.
  induction items as [|[k v] items IH]; intros acc Hn Hsec Hnodup Hfresh.
  - cbn. now rewrite app_nil_r.
  - cbn [Dict.keys map fst nodupb] in Hnodup. apply andb_prop in Hnodup.
    destruct Hnodup as [Hk Hnodup]. apply negb_true_iff in Hk.
    cbn [fold_left fst snd]. unfold with_option at 2.
    apply String.eqb_neq in Hn. rewrite Hn. apply String.eqb_neq in Hn.
    unfold section_or_empty. cbn [ConfigParser._sections ConfigParser._defaults].
    rewrite (dict_get_app_absent n secs _ Hsec). cbn [Dict.get].
    rewrite String.eqb_refl.
    rewrite (dict_set_app_absent n _ secs _ Hsec). cbn [Dict.set].
    rewrite String.eqb_refl.
    rewrite (dict_set_absent k v acc) by (apply Hfresh; now left).
    rewrite IH; auto.
    + now rewrite <- app_assoc.
    + intros k' Hin. rewrite dict_get_app_absent by (apply Hfresh; now right).
      cbn. pose proof (nodupb_cons_fresh k _ k' Hk Hin) as Hne.
      apply String.eqb_neq in Hne. now rewrite Hne.
Qed.

Lemma fold_with_option_default secs items : forall acc,
  nodupb (Dict.keys items) = true ->
  (forall k, In k (Dict.keys items) -> Dict.get k acc = None) ->
  fold_left (fun c kv => with_option c ConfigParser.default_section
                           (fst kv) (snd kv)) items
            (ConfigParser.mk secs acc)
  = ConfigParser.mk secs (acc ++ items)%list.
Proof.
  induction items as [|[k v] items IH]; intros acc Hnodup Hfresh.
  - cbn. now rewrite app_nil_r.
  - cbn [Dict.keys map fst nodupb] in Hnodup. apply andb_prop in Hnodup.
    destruct Hnodup as [Hk Hnodup]. apply negb_true_iff in Hk.
    cbn [fold_left fst snd]. unfold with_option at 2.
    rewrite String.eqb_refl. cbn [ConfigParser._sections ConfigParser._defaults].
    rewrite (dict_set_absent k v acc) by (apply Hfresh; now left).
    rewrite IH; auto.
    + now rewrite <- app_assoc.
    + intros k' Hin. rewrite dict_get_app_absent by (apply Hfresh; now right).
      cbn. pose proof (nodupb_cons_fresh k _ k' Hk Hin) as Hne.
      apply String.eqb_neq in Hne. now rewrite Hne.
Qed.

Lemma nodupb_app_fresh (l1 l2 : list string) x :
  nodupb (l1 ++ x :: l2) = true -> existsb (String.eqb x) l1 = false.
Proof.
  induction l1 as [|y l1 IH]; [reflexivity|].
  cbn [app nodupb existsb]. intros H. apply andb_prop in H.
  destruct H as [Hy H]. apply negb_true_iff in Hy.
  rewrite (IH H), orb_false_r.
  destruct (String.eqb_spec x y) as [->|Hne]; [|reflexivity].
  rewrite existsb_app in Hy. cbn in Hy. rewrite String.eqb_refl in Hy.
  rewrite orb_true_r in Hy. discriminate.
Qed.

(** The lines of the named sections of a written file bring the reader
    to the parser with these sections. *)
Lemma read_sections todo : forall done defs lineno st,
  reader_ok st ->
  view st = ConfigParser.mk done defs ->
  forallb (fun s => safe_section (fst s) && safe_items (snd s)) todo = true ->
  nodupb (Dict.keys (done ++ todo)) = true ->
  exists st',
    ConfigParser.read_lines lineno
      (concat (map (fun s => block_lines (fst s) (snd s)) todo)) st = Ok st'
    /\ reader_ok st'
    /\ view st' = ConfigParser.mk (done ++ todo)%list defs.
Proof.
  induction todo as [|[n items] todo IH]; intros done defs lineno st Hok Hview Hsafe Hnodup.
  - exists st. split; [reflexivity|]. split; [exact Hok|].
    now rewrite app_nil_r.
  - cbn [forallb fst snd] in Hsafe. apply andb_prop in Hsafe.
    destruct Hsafe as [Hblock Hsafe]. apply andb_prop in Hblock.
    destruct Hblock as [Hn Hitems].
    unfold safe_section in Hn. apply andb_prop in Hn. destruct Hn as [Hn Hnd].
    apply andb_prop in Hn. destruct Hn as [Hne _].
    apply negb_true_iff, String.eqb_neq in Hne, Hnd.
    unfold safe_items in Hitems. apply andb_prop in Hitems.
    destruct Hitems as [Hkv Hkeys].
    assert (Hfresh : Dict.get n done = None).
    { apply dict_get_none_keys. unfold Dict.keys in *.
      rewrite map_app in Hnodup. cbn [map fst] in Hnodup.
      exact (nodupb_app_fresh _ _ _ Hnodup). }
    assert (Hfresh' : Dict.has n (ConfigParser.r_sections st) = false).
    { pose proof (f_equal ConfigParser._sections Hview) as Hs.
      unfold view in Hs. cbn [ConfigParser._sections] in Hs.
      rewrite <- (dict_has_map ConfigParser.join_options), Hs.
      unfold Dict.has. now rewrite Hfresh. }
    cbn [map concat fst snd]. rewrite read_lines_app.
    destruct (read_block n items lineno st) as (st1 & Hrun & Hok1 & Hview1); auto.
    { intros k _. unfold header_state, ConfigParser.cursect.
      apply String.eqb_neq in Hnd. rewrite Hnd. cbn.
      now rewrite dict_get_set_eq. }
    rewrite Hrun. cbn [bind].
    destruct (IH (done ++ [(n, items)])%list defs
                 (lineno + length (block_lines n items)) st1)
      as (st2 & Hrun2 & Hok2 & Hview2); auto.
    + rewrite Hview1, Hview. unfold with_section.
      apply String.eqb_neq in Hnd. rewrite Hnd. apply String.eqb_neq in Hnd.
      cbn [ConfigParser._sections ConfigParser._defaults].
      rewrite (dict_set_absent n [] done Hfresh).
      rewrite (fold_with_option_named n done defs items []); auto.
    + now rewrite <- app_assoc.
    + exists st2. split; [exact Hrun2|]. split; [exact Hok2|].
      now rewrite Hview2, <- app_assoc.
Qed.

(** ** The lines of a written file *)

Lemma concat_empty_cons x l :
  String.concat "" (x :: l) = x ++ String.concat "" l.
Proof.
  destruct l as [|y l]; cbn [String.concat].
  - now rewrite append_empty_r.
  - now rewrite append_empty.
Qed.

Lemma replace_lf_id v :
  Str.contains Str.LF v = false -> Str.replace_lf v = v.
Proof.
  induction v as [|c v IH]; [reflexivity|].
  cbn. destruct (Ascii.eqb c Str.LF); [discriminate|].
  intros H. now rewrite IH.
Qed.

Lemma one_line_facts s :
  one_line s = true ->
  Str.contains Str.LF s = false /\ Str.contains Str.CR s = false.
Proof.
  unfold one_line. intros H. apply andb_prop in H. destruct H as [H1 H2].
  now apply negb_true_iff in H1, H2.
Qed.

Lemma safe_key_one_line k : safe_key k = true -> one_line k = true.
Proof.
  unfold safe_key. intros H.
  repeat (apply andb_prop in H; destruct H as [H ?]). assumption.
Qed.

Lemma safe_value_one_line v : safe_value v = true -> one_line v = true.
Proof.
  unfold safe_value. intros H. apply andb_prop in H. tauto.
Qed.

Lemma item_one_line kv :
  safe_key (fst kv) && safe_value (snd kv) = true ->
  forall c, c = Str.LF \/ c = Str.CR -> Str.contains c (item_line kv) = false.
Proof.
  intros H c Hc. apply andb_prop in H. destruct H as [Hk Hv].
  destruct (one_line_facts _ (safe_key_one_line _ Hk)) as [Hk1 Hk2].
  destruct (one_line_facts _ (safe_value_one_line _ Hv)) as [Hv1 Hv2].
  unfold item_line. rewrite !contains_app.
  destruct Hc as [->| ->]; [rewrite Hk1, Hv1 | rewrite Hk2, Hv2]; reflexivity.
Qed.

Lemma write_item_line kv :
  safe_key (fst kv) && safe_value (snd kv) = true ->
  ConfigParser.write_item kv = item_line kv ++ String Str.LF "".
Proof.
  intros H. apply andb_prop in H. destruct H as [_ Hv].
  destruct (one_line_facts _ (safe_value_one_line _ Hv)) as [Hv1 _].
  unfold ConfigParser.write_item, item_line. rewrite (replace_lf_id _ Hv1).
  now rewrite !append_assoc.
Qed.

Lemma lines_items items rest :
  forallb (fun kv => safe_key (fst kv) && safe_value (snd kv)) items = true ->
  Str.lines (String.concat "" (map ConfigParser.write_item items) ++ rest)
  = (map item_line items ++ Str.lines rest)%list.
Proof.
  induction items as [|kv items IH]; intros Hsafe; [reflexivity|].
  cbn [forallb] in Hsafe. apply andb_prop in Hsafe. destruct Hsafe as [Hkv Hsafe].
  cbn [map]. rewrite concat_empty_cons, (write_item_line kv Hkv).
  rewrite !append_assoc, append_cons, append_empty.
  rewrite lines_app by (apply (item_one_line kv Hkv); now left).
  now rewrite IH.
Qed.

Lemma lines_section n items rest :
  Str.contains Str.LF n = false ->
  forallb (fun kv => safe_key (fst kv) && safe_value (snd kv)) items = true ->
  Str.lines (ConfigParser._write_section n items ++ rest)
  = (block_lines n items ++ Str.lines rest)%list.
Proof.
  intros Hn Hsafe. unfold ConfigParser._write_section, block_lines.
  replace (("[" ++ n ++ "]" ++ String Str.LF ""
            ++ String.concat "" (map ConfigParser.write_item items)
            ++ String Str.LF "") ++ rest)
    with (("[" ++ n ++ "]")
          ++ String Str.LF
               (String.concat "" (map ConfigParser.write_item items)
                ++ String Str.LF rest))
    by (rewrite !append_assoc; reflexivity).
  rewrite lines_app by (rewrite !contains_app, Hn; reflexivity).
  rewrite lines_items by exact Hsafe.
  cbn [app]. rewrite <- app_assoc. reflexivity.
Qed.

Lemma lines_sections sections rest :
  forallb (fun s => safe_section (fst s) && safe_items (snd s)) sections = true ->
  Str.lines (String.concat ""
               (map (fun s => ConfigParser._write_section (fst s) (snd s))
                    sections) ++ rest)
  = (concat (map (fun s => block_lines (fst s) (snd s)) sections)
     ++ Str.lines rest)%list.
Proof.
  induction sections as [|[n items] sections IH]; intros Hsafe; [reflexivity|].
  cbn [forallb fst snd] in Hsafe. apply andb_prop in Hsafe.
  destruct Hsafe as [Hblock Hsafe]. apply andb_prop in Hblock.
  destruct Hblock as [Hn Hitems].
  unfold safe_section in Hn. apply andb_prop in Hn. destruct Hn as [Hn _].
  apply andb_prop in Hn. destruct Hn as [_ Hline].
  destruct (one_line_facts _ Hline) as [Hlf _].
  unfold safe_items in Hitems. apply andb_prop in Hitems.
  destruct Hitems as [Hkv _].
  cbn [map concat fst snd]. rewrite concat_empty_cons, append_assoc.
  rewrite lines_section by assumption. rewrite IH by assumption.
  now rewrite app_assoc.
Qed.

Lemma forallb_map_compose {A B} (f : B -> bool) (g : A -> B) l :
  forallb f (map g l) = forallb (fun x => f (g x)) l.
Proof. induction l as [|x l IH]; cbn; [reflexivity | now rewrite IH]. Qed.

Lemma contains_concat c l :
  forallb (fun x => negb (Str.contains c x)) l = true ->
  Str.contains c (String.concat "" l) = false.
Proof.
  induction l as [|x l IH]; intros H; [reflexivity|].
  cbn [forallb] in H. apply andb_prop in H. destruct H as [Hx H].
  apply negb_true_iff in Hx.
  rewrite concat_empty_cons, contains_app, Hx. now apply IH.
Qed.

Lemma section_without_cr n items :
  Str.contains Str.CR n = false ->
  forallb (fun kv => safe_key (fst kv) && safe_value (snd kv)) items = true ->
  Str.contains Str.CR (ConfigParser._write_section n items) = false.
Proof.
  intros Hn Hsafe. unfold ConfigParser._write_section.
  rewrite !contains_app, Hn. cbn [Str.contains orb].
  change (Ascii.eqb "["%char Str.CR) with false.
  change (Ascii.eqb "]"%char Str.CR) with false.
  change (Ascii.eqb Str.LF Str.CR) with false. cbv iota. cbn [orb].
  rewrite orb_false_r. apply contains_concat.
  rewrite forallb_map_compose. rewrite List.forallb_forall in *. intros kv Hin.
  specialize (Hsafe kv Hin). rewrite (write_item_line kv Hsafe).
  rewrite contains_app, (item_one_line kv Hsafe) by now right.
  reflexivity.
Qed.

Lemma write_without_cr raw_config :
  writable raw_config = true ->
  Str.contains Str.CR (ConfigParser.write raw_config) = false.
Proof.
  unfold writable. intros H. apply andb_prop in H. destruct H as [H _].
  apply andb_prop in H. destruct H as [Hdef Hsec].
  unfold ConfigParser.write. rewrite contains_app.
  apply orb_false_iff. split.
  - destruct (ConfigParser._defaults raw_config) as [|kv items] eqn:E;
      [reflexivity|].
    apply section_without_cr; [reflexivity|].
    unfold safe_items in Hdef. apply andb_prop in Hdef. tauto.
  - apply contains_concat. rewrite forallb_map_compose.
    rewrite List.forallb_forall in *. intros [n items] Hin.
    specialize (Hsec _ Hin). cbn [fst snd] in *.
    apply andb_prop in Hsec. destruct Hsec as [Hn Hitems].
    unfold safe_section in Hn. apply andb_prop in Hn. destruct Hn as [Hn _].
    apply andb_prop in Hn. destruct Hn as [_ Hline].
    destruct (one_line_facts _ Hline) as [_ Hcr].
    unfold safe_items in Hitems. apply andb_prop in Hitems.
    destruct Hitems as [Hkv _].
    now rewrite section_without_cr.
Qed.

(** ** Reading what was written *)

(** The reader turns the text of a writable parser back into the
    parser. *)
Lemma read_written raw_config :
  writable raw_config = true ->
  ConfigParser.read_text (ConfigParser.write raw_config) = Ok raw_config.
Proof.
  intros Hw. pose proof (write_without_cr raw_config Hw) as Hcr.
  unfold writable in Hw. apply andb_prop in Hw. destruct Hw as [Hw Hnodup].
  apply andb_prop in Hw. destruct Hw as [Hdef Hsec].
  destruct raw_config as [sections defaults].
  cbn [ConfigParser._sections ConfigParser._defaults] in *.
  unfold ConfigParser.read_text. rewrite (universal_newlines_id _ Hcr).
  unfold ConfigParser.write.
  cbn [ConfigParser._sections ConfigParser._defaults].
  rewrite <- (append_empty_r (String.concat "" _)).
  destruct defaults as [|kv items].
  - (* no default section in the file *)
    rewrite append_empty, lines_sections by exact Hsec.
    rewrite app_nil_r.
    destruct (read_sections sections [] [] 1 ConfigParser.read_start
                reader_ok_start eq_refl Hsec Hnodup)
      as (st' & Hrun' & Hok' & Hview').
    rewrite Hrun'. cbn [bind].
    destruct Hok' as (He & _). rewrite He.
    exact (f_equal Ok Hview').
  - (* the default section comes first *)
    set (defaults := kv :: items) in *.
    unfold safe_items in Hdef. apply andb_prop in Hdef.
    destruct Hdef as [Hkv Hkeys].
    rewrite lines_section by (auto; reflexivity).
    rewrite lines_sections by exact Hsec. rewrite app_nil_r.
    assert (Hname : ConfigParser.default_section <> "")
      by (intros H; inversion H).
    destruct (read_block ConfigParser.default_section defaults 1
                ConfigParser.read_start reader_ok_start Hname eq_refl
                Hkv Hkeys (fun _ _ => eq_refl))
      as (st & Hrun & Hok & Hview).
    assert (Hview0 : view st = ConfigParser.mk [] defaults).
    { rewrite Hview.
      change (with_section (view ConfigParser.read_start)
                ConfigParser.default_section)
        with (ConfigParser.mk [] []).
      now rewrite (fold_with_option_default [] defaults []). }
    rewrite read_lines_app, Hrun. cbn [bind].
    destruct (read_sections sections [] defaults
                (1 + length (block_lines ConfigParser.default_section defaults))
                st Hok Hview0 Hsec Hnodup)
      as (st' & Hrun' & Hok' & Hview').
    rewrite Hrun'. cbn [bind].
    destruct Hok' as (He & _). rewrite He.
    exact (f_equal Ok Hview').
Qed.

(** ** Storing the fields of a record in a parser *)

Lemma keycre_match_other c r :
  Ascii.eqb c "%"%char = false -> ConfigParser.keycre_match (String c r) = None.
Proof.
  destruct c as [[] [] [] [] [] [] [] []]; intros H; try reflexivity;
    discriminate.
Qed.

Lemma drop_escaped_percent_plain v :
  Str.contains "%"%char v = false -> ConfigParser.drop_escaped_percent v = v.
Proof.
  induction v as [|c v IH]; [reflexivity|].
  intros H. cbn [Str.contains] in H.
  destruct (Ascii.eqb c "%"%char) eqn:E; [discriminate|].
  cbn [ConfigParser.drop_escaped_percent]. destruct v as [|c' v']; [reflexivity|].
  rewrite E. cbn [andb]. now rewrite (IH H).
Qed.

Lemma keycre_sub_plain v : forall fuel,
  Str.contains "%"%char v = false -> ConfigParser.keycre_sub fuel v = v.
Proof.
  induction v as [|c v IH]; intros fuel H; [now destruct fuel|].
  cbn [Str.contains] in H.
  destruct (Ascii.eqb c "%"%char) eqn:E; [discriminate|].
  destruct fuel as [|fuel]; [reflexivity|].
  cbn [ConfigParser.keycre_sub]. rewrite (keycre_match_other c v E).
  now rewrite (IH fuel H).
Qed.

Lemma before_set_plain v :
  Str.contains "%"%char v = false -> ConfigParser.before_set v = Ok v.
Proof.
  intros H. unfold ConfigParser.before_set.
  rewrite (drop_escaped_percent_plain v H), (keycre_sub_plain v _ H), H.
  reflexivity.
Qed.

Lemma storable_truthy v :
  storable (Some v) = true -> truthy (Some v) = true ->
  safe_value v = true /\ Str.contains "%"%char v = false.
Proof.
  cbn. intros Hs Ht. destruct (v =? ""); [discriminate|]. cbn in Hs.
  apply andb_prop in Hs. destruct Hs as [Hv Hp].
  now apply negb_true_iff in Hp.
Qed.

Lemma own_put_own raw_config profile d :
  own_options (put_own raw_config profile d) profile = d.
Proof.
  unfold own_options, put_own, section_or_empty.
  destruct (profile =? DEFAULT_SECTION); cbn; [reflexivity|].
  now rewrite dict_get_set_eq.
Qed.

Lemma put_own_put_own raw_config profile d d' :
  put_own (put_own raw_config profile d) profile d' = put_own raw_config profile d'.
Proof.
  unfold put_own. destruct (profile =? DEFAULT_SECTION); cbn; [reflexivity|].
  now rewrite dict_set_set.
Qed.

Lemma present_put_own raw_config profile d :
  profile_present raw_config profile ->
  profile_present (put_own raw_config profile d) profile.
Proof.
  intros [->|[Hne Hsec]]; [now left|]. right. split; [exact Hne|].
  unfold put_own, ConfigParser.has_section.
  destruct (profile =? DEFAULT_SECTION); cbn; [exact Hsec|].
  unfold Dict.has. now rewrite dict_get_set_eq.
Qed.

(** [_set_option] on a profile that is present. *)
Lemma set_option_run raw_config profile option value :
  writable raw_config = true ->
  profile_present raw_config profile ->
  storable value = true ->
  _set_option raw_config profile option value
  = Ok (put_own raw_config profile
          (store_option (own_options raw_config profile)
                        (ConfigParser.optionxform option) value)).
Proof.
  intros Hw Hpresent Hstorable.
  assert (Hset : forall v, value = Some v -> truthy value = true ->
                   (v =? "") = false /\ ConfigParser.before_set v = Ok v).
  { intros v -> Ht. destruct (storable_truthy v Hstorable Ht) as [_ Hp].
    split; [|now apply before_set_plain].
    cbn in Ht. now apply negb_true_iff in Ht. }
  unfold _set_option, store_option, put_own, own_options.
  destruct Hpresent as [->|[Hne Hsec]].
  - rewrite String.eqb_refl.
    destruct value as [v|]; [|reflexivity].
    destruct (truthy (Some v)) eqn:Ht; [|reflexivity].
    destruct (Hset v eq_refl eq_refl) as [Hv Hb].
    unfold ConfigParser.set. rewrite Hv, Hb. reflexivity.
  - destruct (has_section_get _ _ Hsec) as [d Hd].
    assert (Hnd : (profile =? DEFAULT_SECTION) = false).
    { destruct (String.eqb_spec profile DEFAULT_SECTION) as [->|]; [|reflexivity].
      exfalso. unfold writable in Hw. apply andb_prop in Hw.
      destruct Hw as [Hw _]. apply andb_prop in Hw. destruct Hw as [_ Hw].
      rewrite List.forallb_forall in Hw.
      specialize (Hw _ (dict_get_In _ _ _ Hd)). cbn [fst snd] in Hw.
      apply andb_prop in Hw. destruct Hw as [Hw _].
      unfold safe_section in Hw. apply andb_prop in Hw. destruct Hw as [_ Hw].
      now rewrite String.eqb_refl in Hw. }
    apply String.eqb_neq in Hne.
    rewrite Hnd. unfold section_or_empty. rewrite Hd.
    assert (Hremove : ConfigParser.remove_option raw_config profile option
                      = Ok (ConfigParser.mk
                              (Dict.set profile
                                 (Dict.del (ConfigParser.optionxform option) d)
                                 (ConfigParser._sections raw_config))
                              (ConfigParser._defaults raw_config))).
    { unfold ConfigParser.remove_option.
      change ConfigParser.default_section with DEFAULT_SECTION.
      now rewrite Hne, Hnd, Hd. }
    destruct value as [v|]; [|exact Hremove].
    destruct (truthy (Some v)) eqn:Ht; [|exact Hremove].
    destruct (Hset v eq_refl eq_refl) as [Hv Hb].
    unfold ConfigParser.set. rewrite Hv, Hb. cbn [bind].
    change ConfigParser.default_section with DEFAULT_SECTION.
    now rewrite Hne, Hnd, Hd.
Qed.



(** ** Parsers that stay writable *)

Section DictKeys.
Context {V : Type}.
Implicit Types d : Dict.t V.

Lemma existsb_keys_set x k v d :
  existsb (String.eqb x) (Dict.keys (Dict.set k v d))
  = (x =? k) || existsb (String.eqb x) (Dict.keys d).
Proof.
  unfold Dict.keys. induction d as [|[k' v'] d IH]; cbn.
  - reflexivity.
  - destruct (String.eqb_spec k' k) as [->|Hne]; cbn.
    + now destruct (x =? k).
    + rewrite IH. now destruct (x =? k'), (x =? k).
Qed.

Lemma existsb_keys_del x k d :
  existsb (String.eqb x) (Dict.keys (Dict.del k d)) = true ->
  existsb (String.eqb x) (Dict.keys d) = true.
Proof.
  unfold Dict.keys. induction d as [|[k' v'] d IH]; cbn; [auto|].
  destruct (k' =? k); cbn.
  - intros H. rewrite (IH H). apply orb_true_r.
  - destruct (x =? k'); [reflexivity | exact IH].
Qed.

Lemma nodupb_keys_set k v d :
  nodupb (Dict.keys d) = true -> nodupb (Dict.keys (Dict.set k v d)) = true.
Proof.
  pose proof (fun x => existsb_keys_set x k v) as Hset.
  unfold Dict.keys in *. induction d as [|[k' v'] d IH]; cbn; [reflexivity|].
  intros H. apply andb_prop in H. destruct H as [Hk' H].
  destruct (String.eqb_spec k' k) as [->|Hne]; cbn.
  - now rewrite Hk', H.
  - rewrite Hset, (IH H).
    apply negb_true_iff in Hk'. rewrite Hk'.
    apply String.eqb_neq in Hne. now rewrite Hne.
Qed.

Lemma nodupb_keys_del k d :
  nodupb (Dict.keys d) = true -> nodupb (Dict.keys (Dict.del k d)) = true.
Proof.
  pose proof (fun x => existsb_keys_del x k) as Hdel.
  unfold Dict.keys in *. induction d as [|[k' v'] d IH]; cbn; [reflexivity|].
  intros H. apply andb_prop in H. destruct H as [Hk' H].
  destruct (k' =? k); cbn; [now apply IH|].
  rewrite (IH H), andb_true_r. apply negb_true_iff in Hk'.
  apply negb_true_iff.
  destruct (existsb (String.eqb k') (map fst (Dict.del k d))) eqn:E;
    [|reflexivity].
  apply Hdel in E. congruence.
Qed.

Lemma forallb_dict_set (P : string * V -> bool) k v d :
  forallb P d = true -> P (k, v) = true -> forallb P (Dict.set k v d) = true.
Proof.
  intros Hd Hkv. induction d as [|[k' v'] d IH]; cbn.
  - now rewrite Hkv.
  - cbn in Hd. apply andb_prop in Hd. destruct Hd as [Hk' Hd].
    destruct (String.eqb_spec k' k) as [->|Hne]; cbn.
    + now rewrite Hkv, Hd.
    + now rewrite Hk', IH.
Qed.

Lemma forallb_dict_del (P : string * V -> bool) k d :
  forallb P d = true -> forallb P (Dict.del k d) = true.
Proof.
  intros Hd. induction d as [|[k' v'] d IH]; cbn; [reflexivity|].
  cbn in Hd. apply andb_prop in Hd. destruct Hd as [Hk' Hd].
  destruct (k' =? k); cbn; [now apply IH | now rewrite Hk', IH].
Qed.

Lemma keys_set_present k v d :
  Dict.has k d = true -> Dict.keys (Dict.set k v d) = Dict.keys d.
Proof.
  unfold Dict.has, Dict.keys.
  induction d as [|[k' v'] d IH]; cbn; [discriminate|].
  destruct (k' =? k); cbn; [reflexivity|]. intros H. now rewrite IH.
Qed.
End DictKeys.

Lemma safe_items_store d k value :
  safe_items d = true -> safe_key k = true -> storable value = true ->
  safe_items (store_option d k value) = true.
Proof.
  unfold safe_items. intros Hd Hk Hv. apply andb_prop in Hd.
  destruct Hd as [Hall Hnodup].
  assert (Hdel : forallb (fun kv => safe_key (fst kv) && safe_value (snd kv))
                   (Dict.del k d)
                 && nodupb (Dict.keys (Dict.del k d)) = true)
    by now rewrite forallb_dict_del, nodupb_keys_del.
  unfold store_option. destruct value as [v|]; [|exact Hdel].
  destruct (truthy (Some v)) eqn:Ht; [|exact Hdel].
  destruct (storable_truthy v Hv Ht) as [Hsafe _].
  rewrite forallb_dict_set, nodupb_keys_set; auto.
  cbn [fst snd]. now rewrite Hk, Hsafe.
Qed.

Lemma writable_put_own raw_config profile d :
  writable raw_config = true ->
  profile_present raw_config profile ->
  safe_items d = true ->
  writable (put_own raw_config profile d) = true.
Proof.
  unfold writable. intros Hw Hpresent Hd.
  apply andb_prop in Hw. destruct Hw as [Hw Hnodup].
  apply andb_prop in Hw. destruct Hw as [Hdef Hsec].
  unfold put_own.
  destruct (profile =? DEFAULT_SECTION) eqn:E;
    cbn [ConfigParser._sections ConfigParser._defaults].
  - now rewrite Hd, Hsec, Hnodup.
  - destruct Hpresent as [->|[Hne Hhas]]; [discriminate|].
    unfold ConfigParser.has_section in Hhas.
    rewrite Hdef, (keys_set_present _ _ _ Hhas), Hnodup.
    rewrite forallb_dict_set; auto. cbn [fst snd]. rewrite Hd, andb_true_r.
    destruct (has_section_get _ _ Hhas) as [d0 Hd0].
    rewrite List.forallb_forall in Hsec.
    specialize (Hsec _ (dict_get_In _ _ _ Hd0)). cbn [fst snd] in Hsec.
    apply andb_prop in Hsec. tauto.
Qed.

Lemma forallb_snoc {A} (P : A -> bool) l x :
  forallb P (l ++ [x]) = forallb P l && P x.
Proof. rewrite forallb_app. cbn. now rewrite andb_true_r. Qed.

Lemma nodupb_snoc l x :
  nodupb l = true -> existsb (String.eqb x) l = false ->
  nodupb (l ++ [x]) = true.
Proof.
  induction l as [|y l IH]; cbn; [reflexivity|].
  intros H Hx. apply andb_prop in H. destruct H as [Hy H].
  apply orb_false_iff in Hx. destruct Hx as [Hxy Hx].
  rewrite (IH H Hx), andb_true_r. rewrite existsb_app. cbn.
  apply negb_true_iff in Hy. rewrite Hy. cbn.
  rewrite String.eqb_sym, Hxy. reflexivity.
Qed.

(** [_create_section_if_absent] on a writable parser. *)
Lemma create_section_run raw_config profile :
  writable raw_config = true ->
  safe_profile profile = true ->
  exists raw',
    _create_section_if_absent raw_config profile = Ok raw'
    /\ writable raw' = true
    /\ profile_present raw' profile.
Proof.
  intros Hw Hp. unfold _create_section_if_absent.
  destruct (String.eqb_spec profile DEFAULT_SECTION) as [->|Hnd].
  - rewrite andb_false_r. exists raw_config. repeat split; auto. now left.
  - unfold safe_profile in Hp. apply String.eqb_neq in Hnd. rewrite Hnd in Hp.
    cbn [orb] in Hp. pose proof Hp as Hsafe.
    unfold safe_section in Hp. apply andb_prop in Hp. destruct Hp as [Hp _].
    apply andb_prop in Hp. destruct Hp as [Hne _].
    apply negb_true_iff, String.eqb_neq in Hne.
    destruct (ConfigParser.has_section raw_config profile) eqn:Ehas; cbn.
    + exists raw_config. repeat split; auto. now right.
    + unfold ConfigParser.add_section.
      change ConfigParser.default_section with DEFAULT_SECTION.
      unfold ConfigParser.has_section in Ehas. rewrite Hnd, Ehas.
      eexists. split; [reflexivity|].
      assert (Hget : Dict.get profile (ConfigParser._sections raw_config) = None).
      { unfold Dict.has in Ehas.
        now destruct (Dict.get profile (ConfigParser._sections raw_config)). }
      split.
      * unfold writable in *.
        cbn [ConfigParser._sections ConfigParser._defaults].
        apply andb_prop in Hw. destruct Hw as [Hw Hnodup].
        apply andb_prop in Hw. destruct Hw as [Hdef Hsec].
        rewrite (dict_set_absent _ _ _ Hget). unfold Dict.keys.
        rewrite map_app, forallb_snoc. cbn [map fst snd].
        rewrite Hdef, Hsec, Hsafe. cbn.
        apply nodupb_snoc; [exact Hnodup|].
        now apply dict_keys_get_none.
      * right. split; [exact Hne|].
        unfold ConfigParser.has_section, Dict.has. cbn.
        now rewrite dict_get_set_eq.
Qed.


Lemma safe_items_own raw_config profile :
  writable raw_config = true ->
  safe_items (own_options raw_config profile) = true.
Proof.
  intros Hw. unfold writable in Hw. apply andb_prop in Hw.
  destruct Hw as [Hw _]. apply andb_prop in Hw. destruct Hw as [Hdef Hsec].
  unfold own_options, section_or_empty.
  destruct (profile =? DEFAULT_SECTION); [exact Hdef|].
  destruct (Dict.get profile (ConfigParser._sections raw_config)) as [d|] eqn:E;
    [|reflexivity].
  rewrite List.forallb_forall in Hsec.
  specialize (Hsec _ (dict_get_In _ _ _ E)). cbn [fst snd] in Hsec.
  apply andb_prop in Hsec. tauto.
Qed.

Lemma put_own_own raw_config profile :
  profile_present raw_config profile ->
  put_own raw_config profile (own_options raw_config profile) = raw_config.
Proof.
  intros Hpresent. unfold put_own, own_options, section_or_empty.
  destruct raw_config as [sections defaults]. cbn.
  destruct (profile =? DEFAULT_SECTION) eqn:E; [reflexivity|].
  destruct Hpresent as [->|[_ Hsec]]; [discriminate|].
  destruct (has_section_get _ _ Hsec) as [d Hd]. cbn in Hd. rewrite Hd.
  now rewrite (dict_set_same _ _ _ Hd).
Qed.

(** One [_set_option] of [update_and_persist_config]. *)
Lemma set_option_step raw_config profile d option value :
  writable raw_config = true ->
  profile_present raw_config profile ->
  safe_items d = true ->
  storable value = true ->
  _set_option (put_own raw_config profile d) profile option value
  = Ok (put_own raw_config profile
          (store_option d (ConfigParser.optionxform option) value)).
Proof.
  intros Hw Hpresent Hd Hv.
  rewrite set_option_run; auto.
  - now rewrite own_put_own, put_own_put_own.
  - now apply writable_put_own.
  - now apply present_put_own.
Qed.


(** The seven [_set_option] of [update_and_persist_config], after the
    section of the profile is there. *)
Lemma set_options_run raw_config profile c :
  writable raw_config = true ->
  profile_present raw_config profile ->
  storable_config c = true ->
  let raw' := put_own raw_config profile
                (stored (own_options raw_config profile) c) in
  (let* raw_config := _set_option raw_config profile HOST (host c) in
   let* raw_config := _set_option raw_config profile USERNAME (username c) in
   let* raw_config := _set_option raw_config profile PASSWORD (password c) in
   let* raw_config := _set_option raw_config profile TOKEN (token c) in
   let* raw_config :=
     _set_option raw_config profile REFRESH_TOKEN (refresh_token c) in
   let* raw_config := _set_option raw_config profile INSECURE (insecure c) in
   _set_option raw_config profile JOBS_API_VERSION (jobs_api_version c))
  = Ok raw'
  /\ writable raw' = true
  /\ profile_present raw' profile.
Proof.
  intros Hw Hpresent Hc raw'.
  pose proof (safe_items_own raw_config profile Hw) as Hown.
  unfold storable_config in Hc.
  repeat (apply andb_prop in Hc; destruct Hc as [Hc ?]).
  assert (Hstep : forall d k value,
            safe_items d = true -> safe_key k = true ->
            ConfigParser.optionxform k = k -> storable value = true ->
            _set_option (put_own raw_config profile d) profile k value
            = Ok (put_own raw_config profile (store_option d k value))
              /\ safe_items (store_option d k value) = true).
  { intros d k value Hd Hk Hx Hv. split.
    - rewrite set_option_step by assumption. now rewrite Hx.
    - now apply safe_items_store. }
  rewrite <- (put_own_own raw_config profile Hpresent) at 1.
  destruct (Hstep _ HOST (host c) Hown eq_refl eq_refl) as [-> Hs1]; auto.
  cbn [bind].
  destruct (Hstep _ USERNAME (username c) Hs1 eq_refl eq_refl) as [-> Hs2]; auto.
  cbn [bind].
  destruct (Hstep _ PASSWORD (password c) Hs2 eq_refl eq_refl) as [-> Hs3]; auto.
  cbn [bind].
  destruct (Hstep _ TOKEN (token c) Hs3 eq_refl eq_refl) as [-> Hs4]; auto.
  cbn [bind].
  destruct (Hstep _ REFRESH_TOKEN (refresh_token c) Hs4 eq_refl eq_refl)
    as [-> Hs5]; auto.
  cbn [bind].
  destruct (Hstep _ INSECURE (insecure c) Hs5 eq_refl eq_refl) as [-> Hs6]; auto.
  cbn [bind].
  destruct (Hstep _ JOBS_API_VERSION (jobs_api_version c) Hs6 eq_refl eq_refl)
    as [-> Hs7]; auto.
  split; [reflexivity|]. split.
  - apply writable_put_own; auto.
  - now apply present_put_own.
Qed.



(** ** Writing the profile file and reading it again *)

Lemma bind_get_path {B} (k : string -> M B) st :
  mbind _get_path k st = k (config_path (world st)) st.
Proof. reflexivity. Qed.

Lemma bind_get_world {B} (k : World -> M B) st :
  mbind get_world k st = k (world st) st.
Proof. reflexivity. Qed.

Lemma bind_ret {A B} (a : A) (k : A -> M B) st : mbind (ret a) k st = k a st.
Proof. reflexivity. Qed.

Lemma bind_set_fs {B} fs' (k : unit -> M B) st :
  mbind (set_fs fs') k st
  = k tt (mkState (mkWorld (environ (world st)) fs' (umask (world st))
                           (_home (world st)) (argv0 (world st))
                           (pyspark (world st)))
                  (_config_provider st) (calls st)).
Proof. reflexivity. Qed.

Lemma bind_bind {A B C} (m : M A) (f : A -> M B) (g : B -> M C) st :
  mbind (mbind m f) g st = mbind m (fun a => mbind (f a) g) st.
Proof. unfold mbind. now destruct (m st) as [[a|err] st']. Qed.

(** [_overwrite_config] on a profile file that can be written: the file
    at the path is replaced, nothing else changes. *)
Lemma overwrite_config_run st raw_config :
  persistable (world st) ->
  _overwrite_config raw_config st
  = (Ok tt,
     mkState (with_file (config_path (world st))
                (OS.mkFile mode_regular_rw_owner
                           (ConfigParser.write raw_config))
                (world st))
             (_config_provider st) (calls st)).
Proof.
  intros Hfile. destruct st as [[env files um home argv spark] slot log].
  unfold persistable in Hfile. cbn [world fs] in Hfile.
  unfold with_file. cbn [world fs umask environ _home argv0 pyspark
                         _config_provider calls].
  set (path := config_path (mkWorld env files um home argv spark)) in *.
  unfold _overwrite_config. rewrite bind_get_path, bind_get_world.
  cbn [world fs umask]. fold path.
  destruct Hfile as [[Habsent Hcreate] | (f & Hf & Hreg)].
  - set (f0 := OS.mkFile
                 (Z.lor OS.S_IFREG (Z.land mode_rw_owner (Z.lnot um))) "").
    assert (Hreg0 : OS.S_ISREG (OS.st_mode f0) = true).
    { unfold OS.S_ISREG, f0. cbn [OS.st_mode].
      rewrite created_type_bits. reflexivity. }
    destruct (overwrite_existing_regular um (<[path := f0]> files) path f0
                (ConfigParser.write raw_config)
                (lookup_insert_eq _ _ _) Hreg0) as [Hchmod Hwrite].
    unfold OS.path_exists, OS.open_creat. rewrite Habsent, Hcreate.
    cbn [negb].
    fold f0. rewrite bind_bind, run_bind_lift, bind_set_fs, bind_get_world.
    cbn [world fs umask environ _home argv0 pyspark _config_provider calls].
    rewrite run_bind_lift. unfold OS.stat. rewrite lookup_insert_eq.
    destruct (negb (OS.st_mode f0 =? mode_regular_rw_owner)%Z) eqn:E.
    + rewrite bind_bind, run_bind_lift, Hchmod, bind_set_fs, bind_get_world.
      cbn [world fs umask environ _home argv0 pyspark _config_provider calls].
      rewrite run_bind_lift, Hwrite. unfold set_fs.
      cbn [world fs umask environ _home argv0 pyspark _config_provider calls].
      now rewrite !insert_insert_eq.
    + rewrite bind_ret, bind_get_world.
      cbn [world fs umask environ _home argv0 pyspark _config_provider calls].
      rewrite run_bind_lift, Hwrite. unfold set_fs.
      cbn [world fs umask environ _home argv0 pyspark _config_provider calls].
      now rewrite !insert_insert_eq.
  - destruct (overwrite_existing_regular um files path f
                (ConfigParser.write raw_config) Hf Hreg) as [Hchmod Hwrite].
    unfold OS.path_exists. rewrite Hf. cbn [negb].
    rewrite bind_ret, bind_get_world.
    cbn [world fs umask environ _home argv0 pyspark _config_provider calls].
    rewrite run_bind_lift. unfold OS.stat. rewrite Hf.
    destruct (negb (OS.st_mode f =? mode_regular_rw_owner)%Z) eqn:E.
    + rewrite bind_bind, run_bind_lift, Hchmod, bind_set_fs, bind_get_world.
      cbn [world fs umask environ _home argv0 pyspark _config_provider calls].
      rewrite run_bind_lift, Hwrite. unfold set_fs.
      cbn [world fs umask environ _home argv0 pyspark _config_provider calls].
      now rewrite !insert_insert_eq.
    + rewrite bind_ret, bind_get_world.
      cbn [world fs umask environ _home argv0 pyspark _config_provider calls].
      rewrite run_bind_lift, Hwrite. unfold set_fs.
      cbn [world fs umask environ _home argv0 pyspark _config_provider calls].
      reflexivity.
Qed.

(** [_fetch_from_fs] on a profile file that the owner can read. *)
Lemma fetch_run st f :
  fs (world st) !! config_path (world st) = Some f ->
  OS.st_mode f = mode_regular_rw_owner ->
  _fetch_from_fs st = (ConfigParser.read_text (OS.content f), st).
Proof.
  intros Hf Hmode. unfold _fetch_from_fs.
  rewrite bind_get_path, bind_get_world. unfold OS.read_text.
  rewrite Hf, Hmode. reflexivity.
Qed.

(** [_fetch_from_fs] where the path names nothing. *)
Lemma fetch_absent st :
  fs (world st) !! config_path (world st) = None ->
  _fetch_from_fs st = (Ok ConfigParser.new, st).
Proof.
  intros Hf. unfold _fetch_from_fs.
  rewrite bind_get_path, bind_get_world. unfold OS.read_text.
  rewrite Hf, lookup_error_OSError. reflexivity.
Qed.

Lemma config_path_with_file path f w :
  config_path (with_file path f w) = config_path w.
Proof. reflexivity. Qed.

(** What [_overwrite_config] writes is what [_fetch_from_fs] reads next. *)
Lemma fetch_after_overwrite st raw_config :
  persistable (world st) ->
  writable raw_config = true ->
  let st' := state_after (_overwrite_config raw_config) st in
  _fetch_from_fs st' = (Ok raw_config, st').
Proof.
  intros Hfile Hw st'. unfold st', state_after.
  rewrite (overwrite_config_run st raw_config Hfile). cbn [snd].
  rewrite (fetch_run _ (OS.mkFile mode_regular_rw_owner
                                  (ConfigParser.write raw_config))).
  - cbn [OS.content]. now rewrite read_written.
  - cbn [world]. rewrite config_path_with_file. unfold with_file. cbn [fs].
    apply lookup_insert_eq.
  - reflexivity.
Qed.

(** ** Updating a profile and reading it again *)

(** [update_and_persist_config] on a writable profile file: the section
    is created, the seven fields are stored, the parser is written. *)
Lemma update_run st profile c raw0 :
  result_of _fetch_from_fs st = Ok raw0 ->
  writable raw0 = true ->
  safe_profile (profile_or_default profile) = true ->
  storable_config c = true ->
  let p := profile_or_default profile in
  exists raw1,
    _create_section_if_absent raw0 p = Ok raw1
    /\ writable raw1 = true
    /\ profile_present raw1 p
    /\ writable (put_own raw1 p (stored (own_options raw1 p) c)) = true
    /\ update_and_persist_config profile c st
       = _overwrite_config (put_own raw1 p (stored (own_options raw1 p) c)) st.
Proof.
  intros Hfetch Hw Hp Hc p. fold p in Hp.
  destruct (create_section_run raw0 p Hw Hp)
    as (raw1 & Hcreate & Hw1 & Hpresent).
  destruct (set_options_run raw1 p c Hw1 Hpresent Hc) as (Hset & Hw' & _).
  exists raw1. split; [exact Hcreate|]. split; [exact Hw1|].
  split; [exact Hpresent|]. split; [exact Hw'|].
  unfold update_and_persist_config. cbv zeta. fold p.
  rewrite run_bind, Hfetch, readonly_fetch_from_fs.
  rewrite run_bind_lift, Hcreate. cbn [bind]. rewrite Hset. reflexivity.
Qed.

(** The record that [ProfileConfigProvider(profile).get_config()] makes
    of the seven lookups. *)
Lemma profile_provider_run st profile raw_config c :
  result_of _fetch_from_fs st = Ok raw_config ->
  Forall (fun kv => _get_option_if_exists raw_config profile (fst kv)
                    = Ok (kept (snd kv)))
         (profile_options c) ->
  result_of (provider_get_config (ProfileConfigProvider profile)) st
  = Ok (if is_valid (kept_config c) then Some (kept_config c) else None).
Proof.
  intros Hfetch Hall. rewrite List.Forall_forall in Hall.
  assert (Hk : forall k value, In (k, value) (profile_options c) ->
                 _get_option_if_exists raw_config profile k = Ok (kept value))
    by (intros k value Hin; exact (Hall (k, value) Hin)).
  unfold profile_options in Hk.
  unfold result_of. cbn [provider_get_config]. rewrite run_bind.
  cbn [result_of state_after record_call fst snd].
  set (st1 := mkState _ _ _).
  assert (Hfetch1 : result_of _fetch_from_fs st1 = Ok raw_config).
  { rewrite <- Hfetch. now apply world_only_fetch_from_fs. }
  unfold ProfileConfigProvider_get_config. rewrite run_bind, Hfetch1.
  rewrite readonly_fetch_from_fs.
  rewrite !run_bind_lift, (Hk HOST (host c)) by (cbn; tauto).
  rewrite !run_bind_lift, (Hk USERNAME (username c)) by (cbn; tauto).
  rewrite !run_bind_lift, (Hk PASSWORD (password c)) by (cbn; tauto).
  rewrite !run_bind_lift, (Hk TOKEN (token c)) by (cbn; tauto).
  rewrite !run_bind_lift, (Hk REFRESH_TOKEN (refresh_token c))
    by (cbn; tauto).
  rewrite !run_bind_lift, (Hk INSECURE (insecure c)) by (cbn; tauto).
  rewrite !run_bind_lift, (Hk JOBS_API_VERSION (jobs_api_version c))
    by (cbn; tauto).
  fold (kept_config c). now destruct (is_valid (kept_config c)).
Qed.


(** ** What [_overwrite_config] does to the file system *)

(** X1. What [_overwrite_config] writes is what [_fetch_from_fs] reads
    next: for a parser that survives the text format ([writable]) and a
    profile file that can be written (its path names a regular file, or
    names nothing and can be created: [persistable]), writing and then
    reading gives the parser back. *)
Theorem overwritten_config_is_fetched st raw_config :
  persistable (world st) ->
  writable raw_config = true ->
  result_of (_overwrite_config raw_config ;; _fetch_from_fs) st
  = Ok raw_config.
Proof.
  intros Hfile Hw.
  pose proof (fetch_after_overwrite st raw_config Hfile Hw) as Hfetch.
  cbv zeta in Hfetch. unfold state_after in Hfetch.
  unfold result_of. rewrite run_bind. unfold result_of, state_after.
  rewrite (overwrite_config_run st raw_config Hfile) in *.
  cbn [fst snd] in *. now rewrite Hfetch.
Qed.

Lemma overwritten_config_is_fetched_witness :
  result_of (_overwrite_config team_parser ;; _fetch_from_fs)
            (state_of home_world PyNone)
  = Ok team_parser.
Proof.
  apply (overwritten_config_is_fetched (state_of home_world PyNone) team_parser).
  - left. split; vm_compute; reflexivity.
  - vm_compute. reflexivity.
Defined.

(** X4. [_overwrite_config] changes the profile file and nothing else:
    every other path, the environment, the override and the record of
    calls are as before. *)
Theorem overwrite_config_touches_one_file st raw_config :
  absent_or_regular (world st) ->
  let st' := state_after (_overwrite_config raw_config) st in
  (forall path, path <> config_path (world st) ->
     fs (world st') !! path = fs (world st) !! path)
  /\ environ (world st') = environ (world st)
  /\ _config_provider st' = _config_provider st
  /\ calls st' = calls st.
Proof.
  intros Hfile st'. unfold st', state_after.
  assert (Hcases : persistable (world st)
                   \/ exists err,
                        _overwrite_config raw_config st = (Raise err, st)).
  { destruct Hfile as [Habsent | Hregular]; [|left; now right].
    destruct (OS.create_error (fs (world st)) (config_path (world st)))
      as [err|] eqn:Hcreate; [|left; now left].
    right. exists err. now apply overwrite_config_blocked. }
  destruct Hcases as [Hp | [err Hrun]].
  - rewrite (overwrite_config_run st raw_config Hp). cbn [snd].
    cbn [world _config_provider calls]. unfold with_file. cbn [fs environ].
    repeat split. intros path Hpath. now apply lookup_insert_ne.
  - rewrite Hrun. cbn [snd]. repeat split.
Qed.

Lemma overwrite_config_touches_one_file_witness :
  let st := state_of (with_file notes_path notes_file home_world) PyNone in
  let st' := state_after (_overwrite_config team_parser) st in
  (forall path, path <> config_path (world st) ->
     fs (world st') !! path = fs (world st) !! path)
  /\ environ (world st') = environ (world st)
  /\ _config_provider st' = _config_provider st
  /\ calls st' = calls st.
Proof.
  intros st.
  apply (overwrite_config_touches_one_file st team_parser).
  left. vm_compute. reflexivity.
Defined.

Lemma directory_mode_differs mode :
  OS.S_ISDIR mode = true -> (mode =? mode_regular_rw_owner)%Z = false.
Proof.
  intros Hdir. destruct (Z.eqb_spec mode mode_regular_rw_owner) as [->|];
    [discriminate | reflexivity].
Qed.

(** X5. When the path of the profile file names a directory,
    [_overwrite_config] raises [IsADirectoryError] from [open], after
    [os.chmod] has set the permission bits of the directory to [0o600]. *)
Theorem overwrite_config_on_directory st raw_config f :
  fs (world st) !! config_path (world st) = Some f ->
  OS.S_ISDIR (OS.st_mode f) = true ->
  let st' := state_after (_overwrite_config raw_config) st in
  result_of (_overwrite_config raw_config) st
  = Raise (IsADirectoryError (config_path (world st)))
  /\ fs (world st') !! config_path (world st)
     = Some (OS.mkFile mode_directory_rw_owner (OS.content f)).
Proof.
  intros Hf Hdir. destruct st as [[env files um home argv spark] slot log].
  cbn [world fs] in Hf.
  set (path := config_path (mkWorld env files um home argv spark)) in *.
  assert (Hrun : _overwrite_config raw_config
                   (mkState (mkWorld env files um home argv spark) slot log)
                 = (Raise (IsADirectoryError path),
                    mkState (mkWorld env
                               (<[path := OS.mkFile mode_directory_rw_owner
                                                    (OS.content f)]> files)
                               um home argv spark) slot log)).
  { unfold _overwrite_config. rewrite bind_get_path, bind_get_world.
    cbn [world fs umask]. fold path.
    unfold OS.path_exists. rewrite Hf. cbn [negb].
    rewrite bind_ret, bind_get_world.
    cbn [world fs umask environ _home argv0 pyspark _config_provider calls].
    rewrite run_bind_lift. unfold OS.stat. rewrite Hf.
    rewrite (directory_mode_differs _ Hdir). cbn [negb].
    rewrite bind_bind, run_bind_lift. unfold OS.chmod. rewrite Hf.
    assert (Hbits : Z.land (OS.st_mode f) OS.S_IFMT = OS.S_IFDIR)
      by (unfold OS.S_ISDIR in Hdir; now apply Z.eqb_eq in Hdir).
    rewrite Hbits.
    change (Z.lor OS.S_IFDIR (OS.S_IMODE mode_rw_owner))
      with mode_directory_rw_owner.
    rewrite bind_set_fs, bind_get_world.
    cbn [world fs umask environ _home argv0 pyspark _config_provider calls].
    rewrite run_bind_lift. unfold OS.write_text. rewrite lookup_insert_eq.
    reflexivity. }
  intros st'. unfold st', result_of, state_after. rewrite Hrun. cbn [fst snd].
  split; [reflexivity|]. cbn [world fs]. apply lookup_insert_eq.
Qed.

Lemma overwrite_config_on_directory_witness :
  let st := state_of (with_file default_path directory bare_world) PyNone in
  let st' := state_after (_overwrite_config team_parser) st in
  result_of (_overwrite_config team_parser) st
  = Raise (IsADirectoryError (config_path (world st)))
  /\ fs (world st') !! config_path (world st)
     = Some (OS.mkFile mode_directory_rw_owner (OS.content directory)).
Proof.
  intros st.
  apply (overwrite_config_on_directory st team_parser directory).
  - vm_compute. reflexivity.
  - vm_compute. reflexivity.
Defined.

(** ** Sections that are created on demand *)

(** [_create_section_if_absent] in full: it returns, it keeps the default
    section and what every profile holds, it makes the profile present,
    and a second call finds nothing to do. *)
Lemma create_section_total raw_config profile :
  exists raw',
    _create_section_if_absent raw_config profile = Ok raw'
    /\ ConfigParser._defaults raw' = ConfigParser._defaults raw_config
    /\ (forall q, section_or_empty raw' q = section_or_empty raw_config q)
    /\ (forall q, q <> profile ->
          Dict.get q (ConfigParser._sections raw')
          = Dict.get q (ConfigParser._sections raw_config))
    /\ (profile = DEFAULT_SECTION
        \/ ConfigParser.has_section raw' profile = true)
    /\ _create_section_if_absent raw' profile = Ok raw'.
Proof.
  unfold _create_section_if_absent.
  destruct (ConfigParser.has_section raw_config profile) eqn:Ehas; cbn [negb andb].
  - exists raw_config. rewrite Ehas. cbn [negb andb]. repeat split; auto.
  - destruct (String.eqb_spec profile DEFAULT_SECTION) as [->|Hne]; cbn [negb].
    + exists raw_config. rewrite Ehas. cbn.
      repeat split; auto.
    + unfold ConfigParser.add_section.
      change ConfigParser.default_section with DEFAULT_SECTION.
      pose proof Hne as Hneb. apply String.eqb_neq in Hneb. rewrite Hneb.
      unfold ConfigParser.has_section in Ehas. rewrite Ehas.
      assert (Hget : Dict.get profile (ConfigParser._sections raw_config) = None).
      { unfold Dict.has in Ehas.
        now destruct (Dict.get profile (ConfigParser._sections raw_config)). }
      eexists. split; [reflexivity|].
      cbn [ConfigParser._defaults ConfigParser._sections].
      split; [reflexivity|]. split; [|split; [|split]].
      * intros q. unfold section_or_empty. cbn [ConfigParser._sections].
        destruct (String.eqb_spec profile q) as [<-|Hq].
        -- now rewrite dict_get_set_eq, Hget.
        -- now rewrite (dict_get_set_ne _ _ _ _ Hq).
      * intros q Hq. apply dict_get_set_ne. congruence.
      * right. unfold ConfigParser.has_section, Dict.has.
        cbn [ConfigParser._sections]. now rewrite dict_get_set_eq.
      * unfold ConfigParser.has_section, Dict.has.
        cbn [ConfigParser._sections]. now rewrite dict_get_set_eq.
Qed.

(** X6. [_create_section_if_absent] never raises: its two tests are the
    two conditions under which [add_section] does. It gives a parser
    in which the profile is the default section or a section, with the
    default section and every other section as before, and a second call
    changes nothing. *)
Theorem create_section_never_raises raw_config profile :
  exists raw',
    _create_section_if_absent raw_config profile = Ok raw'
    /\ (profile = DEFAULT_SECTION
        \/ ConfigParser.has_section raw' profile = true)
    /\ ConfigParser._defaults raw' = ConfigParser._defaults raw_config
    /\ (forall q, q <> profile ->
          Dict.get q (ConfigParser._sections raw')
          = Dict.get q (ConfigParser._sections raw_config))
    /\ (forall q, section_or_empty raw' q = section_or_empty raw_config q)
    /\ _create_section_if_absent raw' profile = Ok raw'.
Proof.
  destruct (create_section_total raw_config profile)
    as (raw' & H1 & H2 & H3 & H4 & H5 & H6).
  exists raw'. repeat split; assumption.
Qed.


Lemma own_options_create raw_config profile raw' q :
  _create_section_if_absent raw_config profile = Ok raw' ->
  own_options raw' q = own_options raw_config q.
Proof.
  intros Hcreate.
  destruct (create_section_total raw_config profile)
    as (raw'' & H1 & Hdef & Hsec & _).
  rewrite H1 in Hcreate. inversion Hcreate; subst raw''.
  unfold own_options. now rewrite Hdef, Hsec.
Qed.

(** ** The options that an update leaves alone *)





(** ** The state that an update leaves *)

Lemma fetch_persisted st raw_config :
  writable raw_config = true ->
  _fetch_from_fs (persisted raw_config st)
  = (Ok raw_config, persisted raw_config st).
Proof.
  intros Hw. unfold persisted.
  rewrite (fetch_run _ (OS.mkFile mode_regular_rw_owner
                                  (ConfigParser.write raw_config))).
  - cbn [OS.content]. now rewrite read_written.
  - cbn [world]. rewrite config_path_with_file. unfold with_file. cbn [fs].
    apply lookup_insert_eq.
  - reflexivity.
Qed.



Lemma overwrite_persists st raw_config :
  persistable (world st) ->
  _overwrite_config raw_config st = (Ok tt, persisted raw_config st).
Proof. apply overwrite_config_run. Qed.

Lemma has_section_put_own raw_config p d q :
  ConfigParser.has_section raw_config q = true ->
  ConfigParser.has_section (put_own raw_config p d) q = true.
Proof.
  unfold put_own, ConfigParser.has_section.
  destruct (p =? DEFAULT_SECTION); cbn [ConfigParser._sections]; [auto|].
  intros H. unfold Dict.has in *.
  destruct (String.eqb_spec p q) as [<-|Hq].
  - now rewrite dict_get_set_eq.
  - now rewrite (dict_get_set_ne _ _ _ _ Hq).
Qed.

Lemma has_section_create raw_config p raw' q :
  _create_section_if_absent raw_config p = Ok raw' ->
  ConfigParser.has_section raw_config q = true ->
  ConfigParser.has_section raw' q = true.
Proof.
  intros Hcreate Hq.
  destruct (create_section_total raw_config p)
    as (raw'' & H1 & _ & _ & Hother & Hp & _).
  rewrite H1 in Hcreate. inversion Hcreate; subst raw''.
  destruct (String.eqb_spec q p) as [->|Hne].
  - destruct Hp as [->|Hp]; [|exact Hp].
    unfold _create_section_if_absent in H1. rewrite Hq in H1.
    cbn in H1. now inversion H1; subst.
  - unfold ConfigParser.has_section, Dict.has in *.
    now rewrite (Hother q Hne).
Qed.

(** [update_and_persist_config] on a profile file that it can write:
    what the parser that it writes holds. *)
Lemma update_state st profile c raw0 :
  persistable (world st) ->
  result_of _fetch_from_fs st = Ok raw0 ->
  writable raw0 = true ->
  safe_profile (profile_or_default profile) = true ->
  storable_config c = true ->
  let p := profile_or_default profile in
  exists raw',
    writable raw' = true
    /\ profile_present raw' p
    /\ own_options raw' p = stored (own_options raw0 p) c
    /\ (p <> DEFAULT_SECTION ->
        ConfigParser._defaults raw' = ConfigParser._defaults raw0
        /\ forall q, q <> p ->
             Dict.get q (ConfigParser._sections raw')
             = Dict.get q (ConfigParser._sections raw0))
    /\ (forall q, q <> p -> own_options raw' q = own_options raw0 q)
    /\ (forall q, ConfigParser.has_section raw0 q = true ->
                  ConfigParser.has_section raw' q = true)
    /\ update_and_persist_config profile c st = (Ok tt, persisted raw' st).
Proof.
  intros Hfile Hfetch Hw Hp Hc p.
  destruct (update_run st profile c raw0 Hfetch Hw Hp Hc)
    as (raw1 & Hcreate & Hw1 & Hpresent & Hw' & Hrun).
  fold p in Hcreate, Hpresent, Hw', Hrun.
  destruct (create_section_total raw0 p)
    as (raw1' & Hcreate' & Hdef & Hsec & Hother & _).
  rewrite Hcreate in Hcreate'. inversion Hcreate'; subst raw1'.
  exists (put_own raw1 p (stored (own_options raw1 p) c)).
  split; [exact Hw'|]. split; [now apply present_put_own|].
  split; [|split; [|split; [|split]]].
  - now rewrite own_put_own, (own_options_create _ _ _ p Hcreate).
  - intros Hnamed. apply String.eqb_neq in Hnamed. unfold put_own.
    rewrite Hnamed. cbn [ConfigParser._defaults ConfigParser._sections].
    split; [exact Hdef|]. intros q Hq.
    rewrite dict_get_set_ne by congruence. now apply Hother.
  - intros q Hq. rewrite <- (own_options_create _ _ _ q Hcreate).
    unfold own_options, put_own, section_or_empty.
    destruct (String.eqb_spec p DEFAULT_SECTION) as [Hpd|Hpd];
      cbn [ConfigParser._defaults ConfigParser._sections].
    + destruct (String.eqb_spec q DEFAULT_SECTION) as [Hqd|_];
        [congruence | reflexivity].
    + destruct (q =? DEFAULT_SECTION); [reflexivity|].
      rewrite dict_get_set_ne by congruence. reflexivity.
  - intros q Hq. apply has_section_put_own.
    now apply (has_section_create raw0 p).
  - rewrite Hrun. now apply overwrite_persists.
Qed.


(** ** Updates that change nothing, and what an update leaves alone *)





(** ** Lookups see one section and the defaults *)






(** ** Updates that fail *)

Lemma raises_only_bind {A B} P (m : M A) (k : A -> M B) :
  raises_only P m -> (forall a, raises_only P (k a)) ->
  raises_only P (mbind m k).
Proof.
  intros Hm Hk st err. unfold result_of. rewrite run_bind.
  destruct (result_of m st) as [a|err'] eqn:E.
  - apply Hk.
  - cbn [fst]. intros [= <-]. exact (Hm st err' E).
Qed.

Lemma raises_only_ret {A} P (a : A) : raises_only P (ret a).
Proof. intros st err. discriminate. Qed.

Lemma raises_only_get_world P : raises_only P get_world.
Proof. intros st err. discriminate. Qed.

Lemma raises_only_get_path P : raises_only P _get_path.
Proof. intros st err. discriminate. Qed.

Lemma raises_only_set_fs P fs' : raises_only P (set_fs fs').
Proof. intros st err. discriminate. Qed.

Lemma raises_only_lift {A} (P : PyError -> Prop) (r : PyResult A) :
  (forall err, r = Raise err -> P err) -> raises_only P (lift r).
Proof. intros Hr st err. apply Hr. Qed.

(** The calls of [os] and [open] in [_overwrite_config] raise
    [OSError]s only. *)
Lemma overwrite_raises_OSError raw_config :
  raises_only (fun err => OS.is_OSError err = true)
              (_overwrite_config raw_config).
Proof.
  unfold _overwrite_config.
  repeat first
    [ apply raises_only_bind; [|intros ?]
    | apply raises_only_get_path
    | apply raises_only_get_world
    | apply raises_only_set_fs
    | apply raises_only_ret
    | match goal with
      | |- raises_only _ (if ?b then _ else _) => destruct b
      end
    | apply raises_only_lift; intros err ].
  - unfold OS.open_creat.
    destruct (fs _ !! _) as [f|].
    + repeat match goal with
             | |- context [if ?b then _ else _] => destruct b
             end; intros [= <-]; reflexivity.
    + destruct (OS.create_error _ _) as [err'|] eqn:E; [|discriminate].
      intros [= <-]. exact (create_error_OSError _ _ _ E).
  - unfold OS.stat. destruct (fs _ !! _) as [f|]; [discriminate|].
    intros [= <-]. apply lookup_error_OSError.
  - unfold OS.chmod. destruct (fs _ !! _) as [f|]; [discriminate|].
    intros [= <-]. apply lookup_error_OSError.
  - unfold OS.write_text.
    destruct (fs _ !! _) as [f|].
    + repeat match goal with
             | |- context [if ?b then _ else _] => destruct b
             end; intros [= <-]; reflexivity.
    + destruct (OS.create_error _ _) as [err'|] eqn:E; [|discriminate].
      intros [= <-]. exact (create_error_OSError _ _ _ E).
Qed.

(** X9. [update_and_persist_config] writes last: when it raises an error
    that is not an [OSError] (the profile file does not parse, or a
    field is refused by the parser), the state is as before the call;
    in particular the profile file is not touched. *)
Theorem update_fails_before_writing st profile c err :
  result_of (update_and_persist_config profile c) st = Raise err ->
  OS.is_OSError err = false ->
  state_after (update_and_persist_config profile c) st = st.
Proof.
  unfold result_of, state_after, update_and_persist_config. cbv zeta.
  rewrite run_bind, readonly_fetch_from_fs.
  destruct (result_of _fetch_from_fs st) as [raw0|err0]; [|reflexivity].
  rewrite run_bind_lift.
  match goal with
  | |- context [match ?r with Ok _ => _ | Raise _ => _ end] =>
      destruct r as [raw1|err1]; [|reflexivity]
  end.
  intros Hraise Hnot.
  pose proof (overwrite_raises_OSError raw1 st err Hraise) as Hos.
  cbv beta in Hos. congruence.
Qed.

Lemma update_fails_before_writing_witness :
  let st := state_of (with_file default_path headerless_file bare_world) PyNone in
  state_after (update_and_persist_config (Some "team") token_config) st = st.
Proof.
  intros st.
  apply (update_fails_before_writing st (Some "team") token_config
           (MissingSectionHeaderError 1 "host = x")).
  - vm_compute. reflexivity.
  - reflexivity.
Defined.

Lemma before_set_error v err :
  ConfigParser.before_set v = Raise err ->
  err = ValueError "invalid interpolation syntax".
Proof.
  unfold ConfigParser.before_set.
  match goal with |- context [if ?b then _ else _] => destruct b end;
    congruence.
Qed.

(** One [_set_option] on a profile that is present: the field is
    refused, or it is set or removed and the profile is still there. *)
Lemma set_option_outcome raw_config p option value :
  p = DEFAULT_SECTION \/ ConfigParser.has_section raw_config p = true ->
  if refused value
  then _set_option raw_config p option value
       = Raise (ValueError "invalid interpolation syntax")
  else exists raw',
         _set_option raw_config p option value = Ok raw'
         /\ (p = DEFAULT_SECTION \/ ConfigParser.has_section raw' p = true).
Proof.
  intros Hpresent.
  assert (Hremove : exists raw',
             ConfigParser.remove_option raw_config p option = Ok raw'
             /\ (p = DEFAULT_SECTION
                 \/ ConfigParser.has_section raw' p = true)).
  { unfold ConfigParser.remove_option.
    destruct ((p =? "") || (p =? ConfigParser.default_section)) eqn:E.
    - eexists. split; [reflexivity|]. exact Hpresent.
    - destruct Hpresent as [->|Hsec]; [now rewrite orb_true_r in E|].
      destruct (has_section_get _ _ Hsec) as [d Hd]. rewrite Hd.
      eexists. split; [reflexivity|]. right.
      unfold ConfigParser.has_section, Dict.has.
      cbn [ConfigParser._sections]. now rewrite dict_get_set_eq. }
  unfold refused, _set_option. destruct value as [v|]; [|exact Hremove].
  unfold truthy. destruct (v =? "") eqn:Ev; cbn [negb andb]; [exact Hremove|].
  unfold ConfigParser.set. rewrite Ev.
  destruct (ConfigParser.before_set v) as [v'|err] eqn:Eset.
  - cbn [bind].
    destruct ((p =? "") || (p =? ConfigParser.default_section)) eqn:E.
    + eexists. split; [reflexivity|]. exact Hpresent.
    + destruct Hpresent as [->|Hsec]; [now rewrite orb_true_r in E|].
      destruct (has_section_get _ _ Hsec) as [d Hd]. rewrite Hd.
      eexists. split; [reflexivity|]. right.
      unfold ConfigParser.has_section, Dict.has.
      cbn [ConfigParser._sections]. now rewrite dict_get_set_eq.
  - cbn [bind]. now rewrite (before_set_error v err Eset).
Qed.

(** X10. A field with a stray [%] cannot be persisted: when the profile
    file parses and some field of the record is refused by the parser,
    [update_and_persist_config] raises [ValueError] and leaves the state,
    hence the profile file, as it was. *)
Theorem update_refuses_stray_percent st profile c raw0 :
  result_of _fetch_from_fs st = Ok raw0 ->
  existsb (fun kv => refused (snd kv)) (profile_options c) = true ->
  update_and_persist_config profile c st
  = (Raise (ValueError "invalid interpolation syntax"), st).
Proof.
  intros Hfetch Hrefused.
  unfold update_and_persist_config. cbv zeta.
  rewrite run_bind, Hfetch, readonly_fetch_from_fs, run_bind_lift.
  destruct (create_section_total raw0 (profile_or_default profile))
    as (raw1 & Hcreate & _ & _ & _ & Hpresent & _).
  rewrite Hcreate. cbn [bind].
  unfold profile_options in Hrefused. cbn [existsb snd] in Hrefused.
  repeat match goal with
    | Hp : _ \/ ConfigParser.has_section ?raw _ = true
      |- context [_set_option ?raw ?p ?k ?v] =>
        let H := fresh "H" in
        let raw' := fresh "raw" in
        let E := fresh "E" in
        pose proof (set_option_outcome raw p k v Hp) as H;
        destruct (refused v) eqn:E;
        [rewrite H; reflexivity|];
        destruct H as (raw' & H & ?); rewrite H; cbn [bind]; clear Hp
    end.
  cbn in Hrefused. discriminate.
Qed.

Lemma update_refuses_stray_percent_witness :
  let st := state_of bare_world PyNone in
  update_and_persist_config None percent_config st
  = (Raise (ValueError "invalid interpolation syntax"), st).
Proof.
  intros st.
  apply (update_refuses_stray_percent st None percent_config ConfigParser.new).
  - vm_compute. reflexivity.
  - vm_compute. reflexivity.
Defined.

(** ** Sources that have nothing *)

Lemma spark_none st :
  _get_spark_task_context_or_none (world st) = None ->
  result_of (provider_get_config SparkTaskContextConfigProvider) st = Ok None.
Proof.
  intros Hnone. unfold result_of. cbn [provider_get_config].
  rewrite run_bind. cbn [result_of state_after record_call fst snd].
  unfold SparkTaskContextConfigProvider_get_config.
  rewrite bind_get_world. cbn [world]. now rewrite Hnone.
Qed.

Lemma environment_none st :
  environ (world st) !! "DATABRICKS_HOST" = None ->
  result_of (provider_get_config EnvironmentVariableConfigProvider) st = Ok None.
Proof.
  intros Hnone. unfold result_of. cbn [provider_get_config].
  rewrite run_bind. cbn [result_of state_after record_call fst snd].
  unfold EnvironmentVariableConfigProvider_get_config.
  rewrite bind_get_world. cbn [world]. cbv zeta. rewrite Hnone.
  reflexivity.
Qed.

Lemma get_option_new profile option :
  _get_option_if_exists ConfigParser.new profile option = Ok None.
Proof.
  unfold _get_option_if_exists.
  destruct (profile =? DEFAULT_SECTION) eqn:E; [|reflexivity].
  apply String.eqb_eq in E. subst profile. reflexivity.
Qed.

Lemma profile_absent st profile :
  fs (world st) !! config_path (world st) = None ->
  result_of (provider_get_config (ProfileConfigProvider profile)) st = Ok None.
Proof.
  intros Habsent.
  apply (profile_provider_run st profile ConfigParser.new empty).
  - unfold result_of. now rewrite (fetch_absent st Habsent).
  - unfold profile_options, empty. cbn [host username password token
                                        refresh_token insecure jobs_api_version].
    repeat constructor; apply get_option_new.
Qed.

Lemma get_config_default_run st :
  py_bool (_config_provider st) = false ->
  get_config st
  = match provider_get_config DefaultConfigProvider st with
    | (Ok (Some c), st') => (Ok c, st')
    | (Ok None, st') => (Raise (for_profile (argv0 (world st)) None), st')
    | (Raise err, st') => (Raise err, st')
    end.
Proof.
  intros Hslot. unfold get_config. rewrite Hslot. unfold mbind.
  destruct (provider_get_config DefaultConfigProvider st) as [[[c|]|err] st'];
    reflexivity.
Qed.

(** X13. With no override installed, outside a Spark task, without
    [DATABRICKS_HOST] in the environment and without a profile file,
    [get_config] asks the three sources in turn and raises the error
    that tells the user to run [configure]; the world is unchanged. *)
Theorem get_config_unconfigured st :
  py_bool (_config_provider st) = false ->
  _get_spark_task_context_or_none (world st) = None ->
  environ (world st) !! "DATABRICKS_HOST" = None ->
  fs (world st) !! config_path (world st) = None ->
  result_of get_config st = Raise (for_profile (argv0 (world st)) None)
  /\ calls_added get_config st all_sources
  /\ world (state_after get_config st) = world st.
Proof.
  intros Hslot Hspark Henv Hfile.
  unfold calls_added, result_of, state_after.
  rewrite (get_config_default_run st Hslot), default_chain_run.
  rewrite (spark_none st Hspark), (environment_none st Henv),
    (profile_absent st DEFAULT_SECTION Hfile).
  cbn [fst snd]. repeat split; reflexivity.
Qed.

Lemma get_config_unconfigured_witness :
  let st := state_of bare_world PyNone in
  result_of get_config st
  = Raise (InvalidConfigurationError
             ("You haven't configured the CLI yet! "
              ++ "Please configure by entering `databricks configure`"))
  /\ calls_added get_config st all_sources
  /\ world (state_after get_config st) = world st.
Proof.
  intros st.
  apply (get_config_unconfigured st).
  - reflexivity.
  - reflexivity.
  - vm_compute. reflexivity.
  - vm_compute. reflexivity.
Defined.

(** ** What [get_config_for_profile] looks at *)

Lemma get_config_for_profile_run st profile :
  let p := profile_or_default profile in
  let E := Called EnvironmentVariableConfigProvider in
  let P := Called (ProfileConfigProvider p) in
  get_config_for_profile profile st
  = match result_of (provider_get_config EnvironmentVariableConfigProvider) st with
    | Ok (Some c) => (Ok c, with_calls st (calls st ++ [E]))
    | Raise err => (Raise err, with_calls st (calls st ++ [E]))
    | Ok None =>
        (match result_of (provider_get_config (ProfileConfigProvider p)) st with
         | Ok (Some c) => Ok c
         | Ok None => Ok empty
         | Raise err => Raise err
         end,
         with_calls st (calls st ++ [E; P]))
    end.
Proof.
  intros p E P.
  pose proof (builtin_leaf_returns_valid EnvironmentVariableConfigProvider st)
    as VE.
  unfold get_config_for_profile. cbv zeta. fold p.
  rewrite run_bind, leaf_state_after by reflexivity.
  destruct (result_of (provider_get_config EnvironmentVariableConfigProvider) st)
    as [[c|]|err].
  - now rewrite (VE c eq_refl).
  - rewrite run_bind, leaf_state_after by reflexivity.
    rewrite (leaf_result_same_world _ _ st) by reflexivity.
    unfold with_calls. cbn [world _config_provider calls].
    rewrite <- app_assoc. cbn [app].
    now destruct (result_of (provider_get_config (ProfileConfigProvider p)) st)
      as [[c|]|err].
  - reflexivity.
Qed.

(** X14. [get_config_for_profile] never consults the provider installed
    with [set_config_provider]: what it returns or raises is determined
    by the world (environment and files) alone, and it leaves the world
    and the installed provider as they are. *)
Theorem get_config_for_profile_ignores_override profile :
  world_only (get_config_for_profile profile)
  /\ forall st,
       world (state_after (get_config_for_profile profile) st) = world st
       /\ _config_provider (state_after (get_config_for_profile profile) st)
          = _config_provider st.
Proof.
  split.
  - intros st st' Hworld. unfold result_of.
    rewrite !get_config_for_profile_run.
    rewrite (leaf_result_same_world EnvironmentVariableConfigProvider st st')
      by auto.
    rewrite (leaf_result_same_world
               (ProfileConfigProvider (profile_or_default profile)) st st')
      by auto.
    repeat match goal with
           | |- context [match ?r with Ok _ => _ | Raise _ => _ end] =>
               destruct r as [[?|]|?]
           end; reflexivity.
  - intros st. unfold state_after. rewrite get_config_for_profile_run.
    repeat match goal with
           | |- context [match ?r with Ok _ => _ | Raise _ => _ end] =>
               destruct r as [[?|]|?]
           end; split; reflexivity.
Qed.

(** ** Configuring and then resolving *)






(** ** The case of option names *)

Lemma has_normal_key option (d : Dict.t string) :
  normal_keys d ->
  ConfigParser.optionxform option <> option ->
  Dict.has option d = false.
Proof.
  intros Hnormal Hcase. rewrite dict_has_get.
  destruct (Dict.get option d) as [v|] eqn:E; [|reflexivity].
  apply dict_get_keys in E. unfold normal_keys in Hnormal.
  rewrite List.Forall_forall in Hnormal. now apply Hnormal in E.
Qed.

(** X15. The name of an option is lower-cased for the default section
    only. For [DEFAULT] a lookup gives what the lookup of the lower-case
    name gives; for a named profile the name is compared as it is
    written, so that a name with an upper-case letter is never found. *)
Theorem option_case_matters_for_named_profiles raw_config profile option :
  parser_invariant raw_config ->
  ConfigParser.optionxform option <> option ->
  _get_option_if_exists raw_config DEFAULT_SECTION option
  = _get_option_if_exists raw_config DEFAULT_SECTION
      (ConfigParser.optionxform option)
  /\ (profile <> DEFAULT_SECTION ->
      _get_option_if_exists raw_config profile option = Ok None).
Proof.
  intros Hinv Hcase. split.
  - unfold _get_option_if_exists. cbn [String.eqb Ascii.eqb Bool.eqb DEFAULT_SECTION].
    unfold ConfigParser.has_option, ConfigParser.get.
    now rewrite !optionxform_idempotent.
  - intros Hnamed. unfold _get_option_if_exists.
    apply String.eqb_neq in Hnamed. rewrite Hnamed.
    unfold section_or_empty.
    destruct (Dict.get profile (ConfigParser._sections raw_config))
      as [d|] eqn:Ed; [|reflexivity].
    now rewrite (has_normal_key option d (normal_keys_section _ _ _ Hinv Ed) Hcase).
Qed.

Lemma option_case_matters_for_named_profiles_witness :
  _get_option_if_exists team_parser DEFAULT_SECTION "Host"
  = _get_option_if_exists team_parser DEFAULT_SECTION "host"
  /\ _get_option_if_exists team_parser "team" "Token" = Ok None.
Proof.
  split.
  - apply (option_case_matters_for_named_profiles team_parser "team" "Host").
    + exact team_parser_invariant.
    + discriminate.
  - apply (option_case_matters_for_named_profiles team_parser "team" "Token").
    + exact team_parser_invariant.
    + discriminate.
    + discriminate.
Defined.


(** ** Profile files that cannot be read or created *)

Lemma regular_is_no_directory mode :
  OS.S_ISREG mode = true -> OS.S_ISDIR mode = false.
Proof.
  unfold OS.S_ISREG, OS.S_ISDIR. intros H. apply Z.eqb_eq in H. now rewrite H.
Qed.

(** [_fetch_from_fs] on a regular file that the owner cannot read. *)
Lemma fetch_unreadable st f :
  fs (world st) !! config_path (world st) = Some f ->
  OS.S_ISREG (OS.st_mode f) = true ->
  Z.land (OS.st_mode f) OS.S_IRUSR = 0%Z ->
  _fetch_from_fs st = (Ok ConfigParser.new, st).
Proof.
  intros Hf Hreg Hmode. unfold _fetch_from_fs.
  rewrite bind_get_path, bind_get_world. unfold OS.read_text.
  rewrite Hf, (regular_is_no_directory _ Hreg), Hmode. reflexivity.
Qed.

Lemma own_options_new q : own_options ConfigParser.new q = [].
Proof. unfold own_options. now destruct (q =? DEFAULT_SECTION). Qed.

(** X2. A profile file that cannot be opened is replaced, not kept: when
    the path names a regular file that its owner cannot read,
    [_fetch_from_fs] reads the empty parser, and
    [update_and_persist_config] (for a profile name on one line and a
    record with storable fields) returns and leaves a file with mode
    [0o100600] that holds the seven options of the one profile and
    nothing of any other profile. *)
Theorem update_replaces_unreadable_file st profile c f :
  fs (world st) !! config_path (world st) = Some f ->
  OS.S_ISREG (OS.st_mode f) = true ->
  Z.land (OS.st_mode f) OS.S_IRUSR = 0%Z ->
  safe_profile (profile_or_default profile) = true ->
  storable_config c = true ->
  let p := profile_or_default profile in
  let st' := state_after (update_and_persist_config profile c) st in
  result_of _fetch_from_fs st = Ok ConfigParser.new
  /\ result_of (update_and_persist_config profile c) st = Ok tt
  /\ exists raw',
       result_of _fetch_from_fs st' = Ok raw'
       /\ own_options raw' p = stored [] c
       /\ (forall q, q <> p -> own_options raw' q = [])
       /\ fs (world st') !! config_path (world st)
          = Some (OS.mkFile mode_regular_rw_owner (ConfigParser.write raw')).
Proof.
  intros Hf Hreg Hmode Hp Hc p st'.
  assert (Hfetch : result_of _fetch_from_fs st = Ok ConfigParser.new)
    by (unfold result_of; now rewrite (fetch_unreadable st f Hf Hreg Hmode)).
  assert (Hfile : persistable (world st)) by (right; now exists f).
  destruct (update_state st profile c ConfigParser.new Hfile Hfetch eq_refl
              Hp Hc)
    as (raw' & Hw' & _ & Hown & _ & Hothers & _ & Hrun).
  fold p in Hown, Hothers.
  split; [exact Hfetch|]. split; [unfold result_of; now rewrite Hrun|].
  exists raw'. unfold st', state_after. rewrite Hrun. cbn [snd].
  split; [|split; [|split]].
  - unfold result_of. now rewrite fetch_persisted.
  - now rewrite Hown, own_options_new.
  - intros q Hq. now rewrite (Hothers q Hq), own_options_new.
  - unfold persisted, with_file. cbn [world fs]. apply lookup_insert_eq.
Qed.

Lemma update_replaces_unreadable_file_witness :
  let st := state_of (with_file default_path unreadable_file home_world)
                     PyNone in
  let st' :=
    state_after (update_and_persist_config (Some "other") token_config) st in
  result_of _fetch_from_fs st = Ok ConfigParser.new
  /\ result_of (update_and_persist_config (Some "other") token_config) st
     = Ok tt
  /\ exists raw',
       result_of _fetch_from_fs st' = Ok raw'
       /\ own_options raw' "other" = stored [] token_config
       /\ (forall q, q <> "other" -> own_options raw' q = [])
       /\ fs (world st') !! config_path (world st)
          = Some (OS.mkFile mode_regular_rw_owner (ConfigParser.write raw')).
Proof.
  intros st.
  apply (update_replaces_unreadable_file st (Some "other") token_config
           unreadable_file).
  - vm_compute. reflexivity.
  - vm_compute. reflexivity.
  - vm_compute. reflexivity.
  - vm_compute. reflexivity.
  - vm_compute. reflexivity.
Defined.

(** X16. Nothing is created above the profile file. When its path names
    nothing and cannot be created (it is empty, it ends in a slash, or
    the directory that is to hold the file is missing or is no
    directory), [_overwrite_config] raises the [OSError] of [os.open]
    and changes nothing, and so does [update_and_persist_config] for a
    profile name on one line and a record with storable fields. For the
    empty path the error is [FileNotFoundError]. *)
Theorem overwrite_config_creates_no_directory st raw_config err :
  fs (world st) !! config_path (world st) = None ->
  OS.create_error (fs (world st)) (config_path (world st)) = Some err ->
  _overwrite_config raw_config st = (Raise err, st)
  /\ (forall profile c,
        safe_profile (profile_or_default profile) = true ->
        storable_config c = true ->
        update_and_persist_config profile c st = (Raise err, st))
  /\ OS.is_OSError err = true
  /\ (config_path (world st) = "" -> err = FileNotFoundError "").
Proof.
  intros Habsent Hcreate. split; [|split; [|split]].
  - now apply overwrite_config_blocked.
  - intros profile c Hp Hc.
    assert (Hfetch : result_of _fetch_from_fs st = Ok ConfigParser.new)
      by (unfold result_of; now rewrite (fetch_absent st Habsent)).
    destruct (update_run st profile c ConfigParser.new Hfetch eq_refl Hp Hc)
      as (raw1 & _ & _ & _ & _ & Hrun).
    rewrite Hrun. now apply overwrite_config_blocked.
  - exact (create_error_OSError _ _ _ Hcreate).
  - intros Hempty. rewrite Hempty in Hcreate. cbn in Hcreate. congruence.
Qed.

Lemma overwrite_config_creates_no_directory_witness :
  let st := state_of (with_environ empty_path_environ home_world) PyNone in
  _overwrite_config team_parser st = (Raise (FileNotFoundError ""), st)
  /\ update_and_persist_config None token_config st
     = (Raise (FileNotFoundError ""), st).
Proof.
  intros st.
  destruct (overwrite_config_creates_no_directory st team_parser
              (FileNotFoundError "")) as (H1 & H2 & _).
  - vm_compute. reflexivity.
  - vm_compute. reflexivity.
  - split; [exact H1|]. apply H2; vm_compute; reflexivity.
Defined.
